(** * Open Notebook: authentication gate, user model, JWT helpers and
      notebook endpoints.

    A shallow embedding of
      - [open_notebook/utils/jwt_auth.py]
      - [open_notebook/domain/user.py]
      - [api/auth.py]
      - [api/routers/auth.py]
      - [api/routers/notebooks.py]
    Python values are modelled as follows: [str] is [string] (code points
    below 256), [int] is [Z], a [dict] with string keys is a [gmap string _],
    [None]-able values are [option], and a call that may raise returns
    [res]. Clock readings ([datetime.utcnow()]) are integers counting
    microseconds since the epoch and are passed in explicitly. *)

From Stdlib Require Import ZArith String Ascii List Bool Lia.
From stdpp Require Import base option list strings gmap.

Local Open Scope string_scope.
Local Open Scope Z_scope.

(** ** Python runtime *)

Module Py.

(** The exception classes the sources raise or catch. *)
Inductive exn : Type :=
| InvalidInputError (msg : string)
| JWTError (msg : string)
| ValueError (msg : string)
| TypeError (msg : string)
| NotFoundError (msg : string)
| DatabaseError (msg : string)
| OverflowError (msg : string)
| HTTPException (status_code : Z) (detail : string).

(** The outcome of a call: a value, or a raised exception. *)
Inductive res (A : Type) : Type :=
| Ret (a : A)
| Raise (e : exn).
Arguments Ret {A} a.
Arguments Raise {A} e.

Definition bind {A B : Type} (m : res A) (k : A -> res B) : res B :=
  match m with
  | Ret a => k a
  | Raise e => Raise e
  end.

(** [try: m except Exception as e: h e] *)
Definition try_except {A : Type} (m : res A) (h : exn -> res A) : res A :=
  match m with
  | Ret a => Ret a
  | Raise e => h e
  end.

Definition is_InvalidInputError (e : exn) : bool :=
  match e with InvalidInputError _ => true | _ => false end.

Definition is_HTTPException (e : exn) : bool :=
  match e with HTTPException _ _ => true | _ => false end.

Definition is_JWTError (e : exn) : bool :=
  match e with JWTError _ => true | _ => false end.

(** Values that occur in a JWT payload dict. *)
Inductive value : Type :=
| VStr (s : string)
| VInt (z : Z)
| VDatetime (us : Z).

(** Truth value of an object, as tested by [if x:] and [not x]. *)
Definition truthy_str (s : string) : bool :=
  match s with EmptyString => false | String _ _ => true end.

Definition truthy (v : value) : bool :=
  match v with
  | VStr s => truthy_str s
  | VInt z => negb (z =? 0)
  | VDatetime _ => true
  end.

Definition truthy_opt_str (o : option string) : bool :=
  match o with Some s => truthy_str s | None => false end.

Definition code (c : ascii) : N := N_of_ascii c.

Definition in_range (lo hi : N) (n : N) : bool :=
  ((lo <=? n) && (n <=? hi))%N.

(** [str.isspace] on one code point. *)
Definition isspace (c : ascii) : bool :=
  let n := code c in
  in_range 9 13 n || in_range 28 32 n || (n =? 133)%N || (n =? 160)%N.

(** [str.isalnum] on one code point. *)
Definition isalnum (c : ascii) : bool :=
  let n := code c in
  in_range 48 57 n || in_range 65 90 n || in_range 97 122 n
  || (n =? 170)%N || in_range 178 179 n || (n =? 181)%N
  || in_range 185 186 n || in_range 188 190 n
  || in_range 192 214 n || in_range 216 246 n || in_range 248 255 n.

(** Code points that [str.lower] changes; each moves up by 32. *)
Definition isupper (c : ascii) : bool :=
  let n := code c in
  in_range 65 90 n || in_range 192 214 n || in_range 216 222 n.

Definition lower_char (c : ascii) : ascii :=
  if isupper c then ascii_of_N (code c + 32) else c.

(** [s.lower()] on a string of code points below 256, which is what
    [string] holds: there [str.lower] works one code point at a time,
    moves the code points of [isupper] up by 32 and keeps the others.
    Strings with higher code points, where [str.lower] may change the
    length (U+0130) or look at the neighbours (final sigma), are not
    values of this type, and nothing below speaks of them. *)
Fixpoint lower (s : string) : string :=
  match s with
  | EmptyString => EmptyString
  | String c r => String (lower_char c) (lower r)
  end.

Fixpoint lstrip (s : string) : string :=
  match s with
  | EmptyString => EmptyString
  | String c r => if isspace c then lstrip r else s
  end.

(** [rstrip] drops a character when it is a space and everything after
    it has been dropped. *)
Fixpoint rstrip (s : string) : string :=
  match s with
  | EmptyString => EmptyString
  | String c r =>
      match rstrip r with
      | EmptyString => if isspace c then EmptyString else String c EmptyString
      | r' => String c r'
      end
  end.

(** [s.strip()] *)
Definition strip (s : string) : string := rstrip (lstrip s).

(** [all(p(c) for c in s)] *)
Fixpoint all_chars (p : ascii -> bool) (s : string) : bool :=
  match s with
  | EmptyString => true
  | String c r => p c && all_chars p r
  end.

(** [c in chars] for a one-character string [c]. *)
Fixpoint char_in (c : ascii) (chars : string) : bool :=
  match chars with
  | EmptyString => false
  | String d r => Ascii.eqb c d || char_in c r
  end.

(** [len(s)] *)
Definition len (s : string) : Z := Z.of_nat (String.length s).

(** [s.isascii()] *)
Definition is_ascii (s : string) : bool :=
  all_chars (fun c => (code c <? 128)%N) s.

(** [s.split(sep, 1)] for a one-character separator: the text before the
    first separator and the text after it, or the whole string alone. *)
Fixpoint split_once (sep : ascii) (s : string) : list string :=
  match s with
  | EmptyString => [EmptyString]
  | String c r =>
      if Ascii.eqb c sep then [EmptyString; r]
      else match split_once sep r with
           | h :: t => String c h :: t
           | [] => []
           end
  end.

Definition digit_of (c : ascii) : option Z :=
  let n := code c in
  if in_range 48 57 n then Some (Z.of_N n - 48) else None.

(** Digits of a decimal literal; [last] records that the previous
    character was a digit, which is where an underscore or the end of the
    literal is allowed. *)
Fixpoint int_digits (last : bool) (acc : Z) (s : string) : option Z :=
  match s with
  | EmptyString => if last then Some acc else None
  | String c r =>
      match digit_of c with
      | Some d => int_digits true (10 * acc + d) r
      | None =>
          if Ascii.eqb c "_" then
            if last then int_digits false acc r else None
          else None
      end
  end.

(** The whitespace [int] skips around a literal: the ASCII whitespace
    of C and, above 127, the code points that are spaces. The separators
    28 to 31, which [str.strip] removes, are not among them. *)
Definition int_space (c : ascii) : bool :=
  let n := code c in
  in_range 9 13 n || (n =? 32)%N || (n =? 133)%N || (n =? 160)%N.

Fixpoint int_lstrip (s : string) : string :=
  match s with
  | EmptyString => EmptyString
  | String c r => if int_space c then int_lstrip r else s
  end.

Fixpoint int_rstrip (s : string) : string :=
  match s with
  | EmptyString => EmptyString
  | String c r =>
      match int_rstrip r with
      | EmptyString => if int_space c then EmptyString else String c EmptyString
      | r' => String c r'
      end
  end.

(** The number of digits of a literal. *)
Fixpoint count_digits (s : string) : Z :=
  match s with
  | EmptyString => 0
  | String c r =>
      match digit_of c with
      | Some _ => 1 + count_digits r
      | None => count_digits r
      end
  end.

(** [sys.get_int_max_str_digits()], at its default. *)
Definition int_max_str_digits : Z := 4300.

(** [int(s)]. Both failures are [ValueError]; the sources read the
    class only. *)
Definition int (s : string) : res Z :=
  let t := int_rstrip (int_lstrip s) in
  let body :=
    match t with
    | String "+" r => int_digits false 0 r
    | String "-" r => option_map Z.opp (int_digits false 0 r)
    | _ => int_digits false 0 t
    end in
  match body with
  | Some z =>
      if int_max_str_digits <? count_digits t then
        Raise (ValueError "Exceeds the limit (4300 digits) for integer string conversion")
      else Ret z
  | None => Raise (ValueError "invalid literal for int() with base 10")
  end.

(** [calendar.timegm(dt.utctimetuple())]: whole seconds since the epoch. *)
Definition timegm (us : Z) : Z := us / 1000000.

(** [datetime.min] and [datetime.max]: the first microsecond of year 1
    and the last one of year 9999. *)
Definition datetime_min : Z := -62135596800000000.
Definition datetime_max : Z := 253402300799999999.

Definition in_datetime_range (us : Z) : bool :=
  (datetime_min <=? us) && (us <=? datetime_max).

(** [dt + timedelta(hours=h)]. The library raises [OverflowError] when
    the result is not a [datetime], which includes every [h] that
    [timedelta] itself refuses; the sources read the class only. *)
Definition add_hours (us : Z) (h : Z) : res Z :=
  let r := us + h * 3600 * 1000000 in
  if in_datetime_range r then Ret r
  else Raise (OverflowError "date value out of range").

End Py.

#[global] Instance res_ret : MRet Py.res := fun A a => Py.Ret a.
#[global] Instance res_bind : MBind Py.res := fun A B k m => Py.bind m k.

Abbreviation pydict := (gmap string Py.value).

(** ** The JWT library (python-jose)

    The library is not part of the repository. Signing and signature
    checking are kept abstract in [Backend]; the claim conversion done by
    [jwt.encode] and the claim validation done by [jwt.decode] are written
    out, since the token's expiry is decided there. *)

Module Jose.

(** [jws.sign] and [jws.verify]. [verify] gives [None] where the
    library raises [JWSError] or the payload is not a JSON object. *)
Record Backend : Type := {
  sign : pydict -> string -> string -> string;
  verify : string -> string -> list string -> option pydict
}.

(** What [json.dumps] accepts. *)
Definition json_serializable (v : Py.value) : bool :=
  match v with
  | Py.VDatetime _ => false
  | _ => true
  end.

(** A token signed with a key and an accepted algorithm verifies under
    that key and carries the claims that were signed. *)
Definition sound (B : Backend) : Prop :=
  forall (c : pydict) (key alg : string) (algs : list string),
    map_Forall (fun _ v => json_serializable v = true) c ->
    alg ∈ algs ->
    verify B (sign B c key alg) key algs = Some c.

(** Datetimes in the time claims become whole seconds. *)
Definition convert_time_claim (name : string) (c : pydict) : pydict :=
  match c !! name with
  | Some (Py.VDatetime us) => <[name := Py.VInt (Py.timegm us)]> c
  | _ => c
  end.

Definition convert_time_claims (c : pydict) : pydict :=
  convert_time_claim "nbf" (convert_time_claim "iat" (convert_time_claim "exp" c)).

(** [jwt.encode(claims, key, algorithm=alg)] *)
Definition encode (B : Backend) (c : pydict) (key alg : string) : Py.res string :=
  let c' := convert_time_claims c in
  if bool_decide (map_Forall (fun _ v => json_serializable v = true) c')
  then Py.Ret (sign B c' key alg)
  else Py.Raise (Py.TypeError "Object of type datetime is not JSON serializable").

(** [int(v)] on a claim value. *)
Definition int_of_value (v : Py.value) : option Z :=
  match v with
  | Py.VInt z => Some z
  | Py.VStr s => match Py.int s with Py.Ret z => Some z | Py.Raise _ => None end
  | Py.VDatetime _ => None
  end.

Definition is_str (v : Py.value) : bool :=
  match v with Py.VStr _ => true | _ => false end.

Definition claims_error (msg : string) : Py.res unit :=
  Py.Raise (Py.JWTError msg).

Definition validate_iat (c : pydict) : Py.res unit :=
  match c !! "iat" with
  | None => Py.Ret tt
  | Some v =>
      match int_of_value v with
      | Some _ => Py.Ret tt
      | None => claims_error "Issued At claim (iat) must be an integer."
      end
  end.

Definition validate_nbf (c : pydict) (now : Z) : Py.res unit :=
  match c !! "nbf" with
  | None => Py.Ret tt
  | Some v =>
      match int_of_value v with
      | Some nbf =>
          if now <? nbf then claims_error "The token is not yet valid (nbf)"
          else Py.Ret tt
      | None => claims_error "Not Before claim (nbf) must be an integer."
      end
  end.

Definition validate_exp (c : pydict) (now : Z) : Py.res unit :=
  match c !! "exp" with
  | None => Py.Ret tt
  | Some v =>
      match int_of_value v with
      | Some exp =>
          if exp <? now then claims_error "Signature has expired."
          else Py.Ret tt
      | None => claims_error "Expiration Time claim (exp) must be an integer."
      end
  end.

Definition validate_str_claim (name msg : string) (c : pydict) : Py.res unit :=
  match c !! name with
  | None => Py.Ret tt
  | Some v => if is_str v then Py.Ret tt else claims_error msg
  end.

(** Claims that are compared with an argument of [decode]; the callers
    here pass none, and the library then rejects a token that has them. *)
Definition validate_absent (name msg : string) (c : pydict) : Py.res unit :=
  match c !! name with
  | None => Py.Ret tt
  | Some _ => claims_error msg
  end.

(** [_validate_claims] with the default options and no leeway; [now] is
    the clock in whole seconds. *)
Definition validate_claims (c : pydict) (now : Z) : Py.res unit :=
  _ ← validate_iat c;
  _ ← validate_nbf c now;
  _ ← validate_exp c now;
  _ ← validate_absent "aud" "Invalid audience" c;
  _ ← validate_str_claim "sub" "Subject must be a string." c;
  _ ← validate_str_claim "jti" "JWT ID must be a string." c;
  validate_absent "at_hash" "No access_token provided to compare against at_hash claim." c.

(** [jwt.decode(token, key, algorithms=algs)], at clock reading [now_us]. *)
Definition decode (B : Backend) (now_us : Z) (token key : string)
    (algs : list string) : Py.res pydict :=
  match verify B token key algs with
  | None => Py.Raise (Py.JWTError "Signature verification failed.")
  | Some c =>
      _ ← validate_claims c (Py.timegm now_us);
      Py.Ret c
  end.

End Jose.

(** ** [open_notebook/utils/jwt_auth.py] *)

Module JwtAuth.

(** The module constants, computed from [os.environ] at import. *)
Record Config : Type := {
  JWT_SECRET_KEY : string;
  JWT_ALGORITHM : string;
  JWT_EXPIRATION_HOURS : Z
}.

(** [os.environ.get(name, dflt)] *)
Definition environ_get (environ : gmap string string) (name dflt : string) : string :=
  default dflt (environ !! name).

Definition load (environ : gmap string string) : Py.res Config :=
  hours ← Py.int (environ_get environ "JWT_EXPIRATION_HOURS" "168");
  Py.Ret {|
    JWT_SECRET_KEY :=
      environ_get environ "JWT_SECRET_KEY"
        "change-me-in-production-please-use-a-secure-random-key";
    JWT_ALGORITHM := "HS256";
    JWT_EXPIRATION_HOURS := hours
  |}.

Section Functions.
Context (B : Jose.Backend) (cfg : Config).

(** The payload dict built by [create_access_token]; [t_exp] and
    [t_iat] are its two readings of [datetime.utcnow()], in order. *)
Definition access_payload (t_exp t_iat : Z) (user_id username : string)
    : Py.res pydict :=
  expires_at ← Py.add_hours t_exp (JWT_EXPIRATION_HOURS cfg);
  Py.Ret (<["iat" := Py.VDatetime t_iat]>
            (<["exp" := Py.VDatetime expires_at]>
               (<["username" := Py.VStr username]>
                  (<["sub" := Py.VStr user_id]> ∅)))).

(** The claims of an access token as they are signed: the payload above
    with its two datetimes in whole seconds. *)
Definition signed_claims (t_exp t_iat : Z) (user_id username : string) : pydict :=
  <["iat" := Py.VInt (Py.timegm t_iat)]>
    (<["exp" := Py.VInt (Py.timegm t_exp + 3600 * JWT_EXPIRATION_HOURS cfg)]>
       (<["username" := Py.VStr username]>
          (<["sub" := Py.VStr user_id]> ∅))).

Definition create_access_token (t_exp t_iat : Z) (user_id username : string)
    : Py.res string :=
  payload ← access_payload t_exp t_iat user_id username;
  Jose.encode B payload (JWT_SECRET_KEY cfg) (JWT_ALGORITHM cfg).

(** [now] is the clock reading taken by [jwt.decode]. Both handlers
    return [None]; they differ in the log line only. *)
Definition verify_token (now : Z) (token : string) : Py.res (option pydict) :=
  Py.try_except
    (payload ← Jose.decode B now token (JWT_SECRET_KEY cfg) [JWT_ALGORITHM cfg];
     Py.Ret (Some payload))
    (fun e => if Py.is_JWTError e then Py.Ret None else Py.Ret None).

(** [if payload:] holds for a dict with at least one key. *)
Definition truthy_payload (payload : option pydict) : option pydict :=
  match payload with
  | Some p => if bool_decide (p = ∅) then None else Some p
  | None => None
  end.

Definition get_user_id_from_token (now : Z) (token : string)
    : Py.res (option Py.value) :=
  payload ← verify_token now token;
  match truthy_payload payload with
  | Some p => Py.Ret (p !! "sub")
  | None => Py.Ret None
  end.

Definition get_username_from_token (now : Z) (token : string)
    : Py.res (option Py.value) :=
  payload ← verify_token now token;
  match truthy_payload payload with
  | Some p => Py.Ret (p !! "username")
  | None => Py.Ret None
  end.

End Functions.

End JwtAuth.

(** ** The password hashing library (bcrypt)

    Not part of the repository. [hashpw] is abstract; [checkpw] is the
    library's own definition: hash the candidate with the stored hash as
    salt and compare. *)

Module Bcrypt.

Record Backend : Type := {
  hashpw : string -> string -> Py.res string
}.

Definition checkpw (B : Backend) (password hashed : string) : Py.res bool :=
  ret ← hashpw B password hashed;
  Py.Ret (String.eqb ret hashed).

(** A hash carries its salt: hashing the same password with the hash in
    the place of the salt gives the hash back. A hash is ASCII text. *)
Definition sound (B : Backend) : Prop :=
  forall password salt h,
    hashpw B password salt = Py.Ret h ->
    hashpw B password h = Py.Ret h /\ Py.is_ascii h = true.

End Bcrypt.

(** [s.encode("utf-8")] on code points below 256, as a string of bytes. *)
Fixpoint encode_utf8 (s : string) : string :=
  match s with
  | EmptyString => EmptyString
  | String c r =>
      let n := Py.code c in
      if (n <? 128)%N then String c (encode_utf8 r)
      else String (ascii_of_N (192 + n / 64))
             (String (ascii_of_N (128 + n mod 64)) (encode_utf8 r))
  end.

(** ** The record store

    Modelled from the spec: [open_notebook.database.repository] and
    [open_notebook.domain.base.ObjectModel] are not among the sources. The
    store keeps the user table, the notebook and source records and the
    [reference] and [artifact] edge tables; [repo_query] below answers the
    statements the sources send, and the object methods [get], [save] and
    [delete] read, write and remove one record by id. *)

Module Db.

Record UserRow : Type := {
  user_id : string;
  username : string;
  email : string;
  password_hash : string;
  full_name : option string;
  is_active : bool;
  is_admin : bool;
  last_login : option Z
}.

Record NotebookRow : Type := {
  nb_name : string;
  nb_description : string;
  nb_archived : bool;
  nb_user : option string;
  nb_created : string;
  nb_updated : string
}.

Record SourceRow : Type := {
  src_title : string;
  src_user : option string
}.

(** A graph edge: [RELATE a->tb->b] stores [in = a], [out = b]. *)
Record Edge : Type := {
  edge_in : string;
  edge_out : string
}.

Record t : Type := {
  users : list UserRow;
  notebooks : gmap string NotebookRow;
  sources : gmap string SourceRow;
  reference : list Edge;
  artifact : list Edge
}.

Definition empty : t :=
  {| users := []; notebooks := ∅; sources := ∅; reference := []; artifact := [] |}.

Definition with_users (d : t) (us : list UserRow) : t :=
  {| users := us; notebooks := notebooks d; sources := sources d;
     reference := reference d; artifact := artifact d |}.

Definition with_notebooks (d : t) (ns : gmap string NotebookRow) : t :=
  {| users := users d; notebooks := ns; sources := sources d;
     reference := reference d; artifact := artifact d |}.

Definition with_reference (d : t) (es : list Edge) : t :=
  {| users := users d; notebooks := notebooks d; sources := sources d;
     reference := es; artifact := artifact d |}.

(** A result row of [repo_query]. *)
Inductive Row : Type :=
| RUser (u : UserRow)
| RNotebook (id : string) (n : NotebookRow) (source_count note_count : Z)
| REdge (e : Edge).

(** A statement and its variable bindings, as handed to the driver. *)
Record Query : Type := {
  text : string;
  vars : gmap string string
}.

End Db.

(** ** Statements sent to the database *)

Module Sql.

Definition USER_BY_USERNAME : string :=
  "SELECT * FROM user WHERE username = $username LIMIT 1".

Definition USER_BY_EMAIL : string :=
  "SELECT * FROM user WHERE email = $email LIMIT 1".

Definition NOTEBOOK_WITH_COUNTS : string :=
  "
            SELECT *,
            count(<-reference.in) as source_count,
            count(<-artifact.in) as note_count
            FROM $notebook_id
        ".

Definition REFERENCE_EXISTS : string :=
  "SELECT * FROM reference WHERE out = $source_id AND in = $notebook_id".

Definition RELATE_REFERENCE : string :=
  "RELATE $source_id->reference->$notebook_id".

Definition DELETE_REFERENCE : string :=
  "DELETE FROM reference WHERE out = $notebook_id AND in = $source_id".

(** The two f-strings of [get_notebooks], with [order_by] in its place. *)
Definition notebooks_of_user (order_by : string) : string :=
  "
                SELECT *,
                count(<-reference.in) as source_count,
                count(<-artifact.in) as note_count
                FROM notebook
                WHERE user = $user_id
                ORDER BY " ++ order_by ++ "
            ".

Definition notebooks_all (order_by : string) : string :=
  "
                SELECT *,
                count(<-reference.in) as source_count,
                count(<-artifact.in) as note_count
                FROM notebook
                ORDER BY " ++ order_by ++ "
            ".

End Sql.

(** ** Handlers: state and exceptions

    A handler runs against a [World]: the record store and the statements
    sent to the driver so far, oldest first. A raised exception leaves the
    world as it was at the point of the raise. *)

Record World : Type := {
  db : Db.t;
  sent : list Db.Query
}.

Definition M (A : Type) : Type := World -> Py.res A * World.

Definition retM {A : Type} (a : A) : M A := fun w => (Py.Ret a, w).

Definition raiseM {A : Type} (e : Py.exn) : M A := fun w => (Py.Raise e, w).

Definition liftM {A : Type} (r : Py.res A) : M A := fun w => (r, w).

Definition bindM {A B : Type} (m : M A) (k : A -> M B) : M B :=
  fun w =>
    match m w with
    | (Py.Ret a, w') => k a w'
    | (Py.Raise e, w') => (Py.Raise e, w')
    end.

(** [try: m except ... as e: h e] *)
Definition tryM {A : Type} (m : M A) (h : Py.exn -> M A) : M A :=
  fun w =>
    match m w with
    | (Py.Ret a, w') => (Py.Ret a, w')
    | (Py.Raise e, w') => h e w'
    end.

Definition get_db : M Db.t := fun w => (Py.Ret (db w), w).

Definition put_db (d : Db.t) : M unit :=
  fun w => (Py.Ret tt, {| db := d; sent := sent w |}).

(** The world after one more statement has been sent. *)
Definition logged (q : Db.Query) (w : World) : World :=
  {| db := db w; sent := sent w ++ [q] |}.

Definition log_query (q : Db.Query) : M unit :=
  fun w => (Py.Ret tt, {| db := db w; sent := sent w ++ [q] |}).

Notation "'do' x <- m ; k" := (bindM m (fun x => k))
  (at level 10, x name, m at level 100, k at level 200, only parsing).
Notation "'do_' m ; k" := (bindM m (fun _ => k))
  (at level 10, m at level 100, k at level 200, only parsing).

(** [ensure_record_id]: a record id is kept in its string form
    [table:key]. *)
Definition ensure_record_id (id : string) : string := id.

Module Repo.

(** What the database does with a statement other than the constant
    ones below, such as the listing whose [ORDER BY] clause is part of
    the text. *)
Definition Other : Type := Db.Query -> Db.t -> Py.res (list Db.Row) * Db.t.

Definition missing_var {A : Type} (name : string) : Py.res A :=
  Py.Raise (Py.DatabaseError ("missing variable " ++ name)).

Definition count_in (es : list Db.Edge) (target : string) : Z :=
  Z.of_nat (length (List.filter (fun e => String.eqb (Db.edge_out e) target) es)).

Definition select_users (p : Db.UserRow -> bool) (d : Db.t) : list Db.Row :=
  map Db.RUser (take 1 (List.filter p (Db.users d))).

Definition edge_matches (o i : string) (e : Db.Edge) : bool :=
  String.eqb (Db.edge_out e) o && String.eqb (Db.edge_in e) i.

(** The answer of the database to one statement. *)
Definition answer (other : Other) (q : Db.Query) (d : Db.t)
    : Py.res (list Db.Row) * Db.t :=
  let t := Db.text q in
  let v := Db.vars q in
  if String.eqb t Sql.USER_BY_USERNAME then
    match v !! "username" with
    | Some u => (Py.Ret (select_users (fun r => String.eqb (Db.username r) u) d), d)
    | None => (missing_var "username", d)
    end
  else if String.eqb t Sql.USER_BY_EMAIL then
    match v !! "email" with
    | Some e => (Py.Ret (select_users (fun r => String.eqb (Db.email r) e) d), d)
    | None => (missing_var "email", d)
    end
  else if String.eqb t Sql.NOTEBOOK_WITH_COUNTS then
    match v !! "notebook_id" with
    | Some id =>
        match Db.notebooks d !! id with
        | Some n =>
            (Py.Ret [Db.RNotebook id n (count_in (Db.reference d) id)
                       (count_in (Db.artifact d) id)], d)
        | None => (Py.Ret [], d)
        end
    | None => (missing_var "notebook_id", d)
    end
  else if String.eqb t Sql.REFERENCE_EXISTS then
    match v !! "source_id", v !! "notebook_id" with
    | Some s, Some n =>
        (Py.Ret (map Db.REdge (List.filter (edge_matches s n) (Db.reference d))), d)
    | _, _ => (missing_var "source_id", d)
    end
  else if String.eqb t Sql.RELATE_REFERENCE then
    match v !! "source_id", v !! "notebook_id" with
    | Some s, Some n =>
        let e := {| Db.edge_in := s; Db.edge_out := n |} in
        (Py.Ret [Db.REdge e], Db.with_reference d (Db.reference d ++ [e]))
    | _, _ => (missing_var "source_id", d)
    end
  else if String.eqb t Sql.DELETE_REFERENCE then
    match v !! "source_id", v !! "notebook_id" with
    | Some s, Some n =>
        (Py.Ret [],
         Db.with_reference d
           (List.filter (fun e => negb (edge_matches n s e)) (Db.reference d)))
    | _, _ => (missing_var "source_id", d)
    end
  else other q d.

(** [await repo_query(text, vars)] *)
Definition repo_query (other : Other) (t : string) (v : gmap string string)
    : M (list Db.Row) :=
  let q := {| Db.text := t; Db.vars := v |} in
  do_ log_query q;
  do d <- get_db;
  let (r, d') := answer other q d in
  do_ put_db d';
  liftM r.

End Repo.

(** ** [open_notebook/domain/user.py] *)

Module User.

(** A [User] object. [id] is [None] until the object has been saved. *)
Record t : Type := {
  id : option string;
  username : string;
  email : string;
  password_hash : string;
  full_name : option string;
  is_active : bool;
  is_admin : bool;
  last_login : option Z
}.

Definition username_must_be_valid (v : string) : Py.res string :=
  if negb (Py.truthy_str v) || negb (Py.truthy_str (Py.strip v)) then
    Py.Raise (Py.InvalidInputError "Username cannot be empty")
  else if Py.len v <? 3 then
    Py.Raise (Py.InvalidInputError "Username must be at least 3 characters")
  else if 50 <? Py.len v then
    Py.Raise (Py.InvalidInputError "Username must be at most 50 characters")
  else if negb (Py.all_chars (fun c => Py.isalnum c || Py.char_in c "_-") v) then
    Py.Raise (Py.InvalidInputError
                "Username can only contain letters, numbers, underscore, and hyphen")
  else Py.Ret (Py.lower (Py.strip v)).

Definition email_must_be_valid (v : string) : Py.res string :=
  if negb (Py.truthy_str v) || negb (Py.truthy_str (Py.strip v)) then
    Py.Raise (Py.InvalidInputError "Email cannot be empty")
  else Py.Ret (Py.lower (Py.strip v)).

Section Model.
(** [EmailStr]: the address check of the validation library, which
    gives the address in its normal form or rejects it. *)
Context (EmailStr : string -> option string).
Context (BC : Bcrypt.Backend).
Context (other : Repo.Other).

(** [cls(...)]: the fields are validated in the order they are
    declared; [email] goes through [EmailStr] and then through the
    field validator. *)
Definition make (id : option string) (username email password_hash : string)
    (full_name : option string) (is_active is_admin : bool)
    (last_login : option Z) : Py.res t :=
  username' ← username_must_be_valid username;
  email0 ← match EmailStr email with
           | Some e => Py.Ret e
           | None => Py.Raise (Py.ValueError "value is not a valid email address")
           end;
  email' ← email_must_be_valid email0;
  Py.Ret {| id := id; username := username'; email := email';
            password_hash := password_hash; full_name := full_name;
            is_active := is_active; is_admin := is_admin;
            last_login := last_login |}.

(** [cls] applied to the fields of a result row. *)
Definition of_row (r : Db.UserRow) : Py.res t :=
  make (Some (Db.user_id r)) (Db.username r) (Db.email r) (Db.password_hash r)
    (Db.full_name r) (Db.is_active r) (Db.is_admin r) (Db.last_login r).

Definition to_row (rid : string) (u : t) : Db.UserRow :=
  {| Db.user_id := rid; Db.username := username u; Db.email := email u;
     Db.password_hash := password_hash u; Db.full_name := full_name u;
     Db.is_active := is_active u; Db.is_admin := is_admin u;
     Db.last_login := last_login u |}.

(** The first row of a result, as a [User]; [None] for no rows. *)
Definition first_user (result : list Db.Row) : M (option t) :=
  match result with
  | Db.RUser r :: _ => do u <- liftM (of_row r); retM (Some u)
  | _ :: _ => raiseM (Py.TypeError "unexpected row")
  | [] => retM None
  end.

Definition get_by_username (username : string) : M (option t) :=
  tryM
    (do result <- Repo.repo_query other Sql.USER_BY_USERNAME
                    {[ "username" := Py.lower username ]};
     first_user result)
    (fun _ => retM None).

Definition get_by_email (email : string) : M (option t) :=
  tryM
    (do result <- Repo.repo_query other Sql.USER_BY_EMAIL
                    {[ "email" := Py.lower email ]};
     first_user result)
    (fun _ => retM None).

(** What a lookup by [p] gives: the first row that satisfies [p], as a
    [User], and nothing when there is no such row or the row does not pass
    the validators. *)
Definition first_match (p : Db.UserRow -> bool) (d : Db.t) : option t :=
  match List.find p (Db.users d) with
  | Some r => match of_row r with Py.Ret u => Some u | Py.Raise _ => None end
  | None => None
  end.

(** Every stored user row has its username and email in lowercase. *)
Definition rows_normalized (d : Db.t) : Prop :=
  Forall (fun r => Py.lower (Db.username r) = Db.username r
                   /\ Py.lower (Db.email r) = Db.email r) (Db.users d).

(** Every stored user row passes the validators of the model. *)
Definition rows_valid (d : Db.t) : Prop :=
  Forall (fun r => exists u, of_row r = Py.Ret u) (Db.users d).

Definition has_username (name : string) (r : Db.UserRow) : bool :=
  String.eqb (Db.username r) name.

Definition has_email (addr : string) (r : Db.UserRow) : bool :=
  String.eqb (Db.email r) addr.

(** [User.get(id)]: the record with that id, or [None]. *)
Definition get (rid : string) : M (option t) :=
  do d <- get_db;
  match List.find (fun r => String.eqb (Db.user_id r) rid) (Db.users d) with
  | Some r => do u <- liftM (of_row r); retM (Some u)
  | None => retM None
  end.

Definition with_id (u : t) (rid : string) : t :=
  {| id := Some rid; username := username u; email := email u;
     password_hash := password_hash u; full_name := full_name u;
     is_active := is_active u; is_admin := is_admin u;
     last_login := last_login u |}.

(** [await user.save()]: a new object is appended under the id the
    database gives it ([new_id]); a saved one replaces its record. The
    base class also keeps [created] and [updated] on the record; among
    the sources only [to_dict_safe] reads them, and the user rows of the
    store carry the fields that the functions embedded here read. Two
    stores that are equal here may therefore differ in those stamps. *)
Definition save (new_id : string) (u : t) : M t :=
  do d <- get_db;
  match id u with
  | None =>
      do_ put_db (Db.with_users d (Db.users d ++ [to_row new_id u]));
      retM (with_id u new_id)
  | Some rid =>
      do_ put_db (Db.with_users d
                    (map (fun r => if String.eqb (Db.user_id r) rid
                                   then to_row rid u else r) (Db.users d)));
      retM u
  end.

(** [salt] is the value of [bcrypt.gensalt()]. The hash is ASCII, so
    decoding it is the identity. *)
Definition hash_password (salt : string) (password : string) : Py.res string :=
  if negb (Py.truthy_str password) || (Py.len password <? 6) then
    Py.Raise (Py.InvalidInputError "Password must be at least 6 characters")
  else
    Bcrypt.hashpw BC (encode_utf8 password) salt.

Definition verify_password (self : t) (password : string) : Py.res bool :=
  Py.try_except
    (Bcrypt.checkpw BC (encode_utf8 password) (encode_utf8 (password_hash self)))
    (fun _ => Py.Ret false).

Definition create_user (new_id salt : string) (username email password : string)
    (full_name : option string) (is_admin : bool) : M t :=
  do existing_user <- get_by_username username;
  match existing_user with
  | Some _ =>
      raiseM (Py.InvalidInputError ("Username '" ++ username ++ "' already exists"))
  | None =>
      do existing_email <- get_by_email email;
      match existing_email with
      | Some _ =>
          raiseM (Py.InvalidInputError ("Email '" ++ email ++ "' already exists"))
      | None =>
          do password_hash <- liftM (hash_password salt password);
          do user <- liftM (make None (Py.lower username) (Py.lower email)
                              password_hash full_name true is_admin None);
          save new_id user
      end
  end.

Definition username_query (name : string) : Db.Query :=
  {| Db.text := Sql.USER_BY_USERNAME; Db.vars := {[ "username" := Py.lower name ]} |}.

Definition email_query (addr : string) : Db.Query :=
  {| Db.text := Sql.USER_BY_EMAIL; Db.vars := {[ "email" := Py.lower addr ]} |}.

(** [create_user] step by step: the outcome and the world it leaves. *)
Definition create_user_outcome (new_id salt name addr password : string)
    (fn : option string) (admin : bool) (w : World) : Py.res t * World :=
  let w1 := logged (username_query name) w in
  match first_match (has_username (Py.lower name)) (db w) with
  | Some _ =>
      (Py.Raise (Py.InvalidInputError ("Username '" ++ name ++ "' already exists")), w1)
  | None =>
      let w2 := logged (email_query addr) w1 in
      match first_match (has_email (Py.lower addr)) (db w) with
      | Some _ =>
          (Py.Raise (Py.InvalidInputError ("Email '" ++ addr ++ "' already exists")), w2)
      | None =>
          match hash_password salt password with
          | Py.Raise e => (Py.Raise e, w2)
          | Py.Ret h =>
              match make None (Py.lower name) (Py.lower addr) h fn
                      true admin None with
              | Py.Raise e => (Py.Raise e, w2)
              | Py.Ret u =>
                  (Py.Ret (with_id u new_id),
                   {| db := Db.with_users (db w)
                              (Db.users (db w) ++ [to_row new_id u]);
                      sent := sent w2 |})
              end
          end
      end
  end.

Definition with_password_hash (u : t) (h : string) : t :=
  {| id := id u; username := username u; email := email u;
     password_hash := h; full_name := full_name u;
     is_active := is_active u; is_admin := is_admin u;
     last_login := last_login u |}.

Definition with_is_active (u : t) (b : bool) : t :=
  {| id := id u; username := username u; email := email u;
     password_hash := password_hash u; full_name := full_name u;
     is_active := b; is_admin := is_admin u;
     last_login := last_login u |}.

Definition with_last_login (u : t) (now : Z) : t :=
  {| id := id u; username := username u; email := email u;
     password_hash := password_hash u; full_name := full_name u;
     is_active := is_active u; is_admin := is_admin u;
     last_login := Some now |}.

Definition update_password (new_id salt : string) (self : t) (new_password : string)
    : M t :=
  do h <- liftM (hash_password salt new_password);
  save new_id (with_password_hash self h).

Definition update_last_login (new_id : string) (now : Z) (self : t) : M t :=
  save new_id (with_last_login self now).

Definition deactivate (new_id : string) (self : t) : M t :=
  save new_id (with_is_active self false).

Definition activate (new_id : string) (self : t) : M t :=
  save new_id (with_is_active self true).

End Model.

End User.

(** ** [api/auth.py] *)

Module Auth.

(** What the middleware reads from a request. *)
Record Request : Type := {
  path : string;
  method : string;
  authorization : option string
}.

(** [request.state] as the middleware leaves it: not written, or with
    [user] and [user_id] set (to [None] on the password path). *)
Inductive State : Type :=
| Untouched
| NoUser
| WithUser (user : User.t).

(** [getattr(request.state, "user_id", None)] *)
Definition state_user_id (st : State) : option string :=
  match st with
  | WithUser u => User.id u
  | _ => None
  end.

(** [getattr(request.state, "user", None)] *)
Definition state_user (st : State) : option User.t :=
  match st with
  | WithUser u => Some u
  | _ => None
  end.

(** What the middleware decides for a request: to hand it to the rest
    of the application with [request.state] equal to [st], or to answer
    it itself. *)
Inductive Response : Type :=
| Forwarded (st : State)
| JSONResponse (status_code : Z) (detail : string).

(** What the middleware gives back: the response of the rest of the
    application, or an answer of its own. *)
Inductive Outcome (R : Type) : Type :=
| FromApp (response : R)
| Answered (status_code : Z) (detail : string).
Arguments FromApp {R} response.
Arguments Answered {R} status_code detail.

Record Middleware : Type := {
  password : option string;
  excluded_paths : list string
}.

(** [PasswordAuthMiddleware.__init__] *)
Definition init (environ : gmap string string) (excluded : option (list string))
    : Middleware :=
  {| password := environ !! "OPEN_NOTEBOOK_PASSWORD";
     excluded_paths :=
       match excluded with
       | Some (p :: ps) => p :: ps
       | _ => ["/"; "/health"; "/docs"; "/openapi.json"; "/redoc"]
       end |}.

Definition unauthorized (detail : string) : Response := JSONResponse 401 detail.

(** [scheme, credentials = auth_header.split(" ", 1)] with the scheme
    check; [None] stands for the [ValueError] of either step. *)
Definition bearer_credentials (auth_header : string) : option string :=
  match Py.split_once " " auth_header with
  | [scheme; credentials] =>
      if String.eqb (Py.lower scheme) "bearer" then Some credentials else None
  | _ => None
  end.

Section Dispatch.
Context (JB : Jose.Backend) (cfg : JwtAuth.Config).
Context (EmailStr : string -> option string).
Context (self : Middleware).

(** The password step: a password is configured, it is not empty, and
    the credential is that password. *)
Definition password_accepts (credentials : string) : bool :=
  Py.truthy_opt_str (password self)
  && bool_decide (Some credentials = password self).

(** The branch taken for a truthy [user_id], up to the decision. The
    [try] of the source also encloses the call of [call_next]; that call
    is in [dispatch_call_next]. *)
Definition jwt_branch (user_id : Py.value) : M Response :=
  tryM
    (do user <- match user_id with
                | Py.VStr rid => User.get EmailStr rid
                | _ => raiseM (Py.TypeError "record id must be a string")
                end;
     match user with
     | Some u =>
         if User.is_active u then retM (Forwarded (WithUser u))
         else retM (unauthorized "User account is inactive")
     | None => retM (unauthorized "User account is inactive")
     end)
    (fun _ => retM (unauthorized "Invalid token")).

(** The decision taken by [dispatch(request, call_next)]; [now] is the
    clock reading taken inside token verification. [Forwarded st] stands
    for the call [call_next(request)] made with [request.state] equal to
    [st]; what that call returns or raises is the matter of
    [dispatch_call_next] below. *)
Definition dispatch (now : Z) (request : Request) : M Response :=
  if bool_decide (path request ∈ excluded_paths self) then
    retM (Forwarded Untouched)
  else if String.eqb (method request) "OPTIONS" then
    retM (Forwarded Untouched)
  else
    let auth_header := authorization request in
    if negb (Py.truthy_opt_str auth_header) then
      if negb (Py.truthy_opt_str (password self)) then
        retM (Forwarded Untouched)
      else
        retM (unauthorized "Missing authorization header")
    else
      match bearer_credentials (default "" auth_header) with
      | None => retM (unauthorized "Invalid authorization header format")
      | Some credentials =>
          do user_id <- liftM (JwtAuth.get_user_id_from_token JB cfg now credentials);
          match user_id with
          | Some v =>
              if Py.truthy v then jwt_branch v
              else
                if Py.truthy_opt_str (password self)
                   && bool_decide (Some credentials = password self)
                then retM (Forwarded NoUser)
                else retM (unauthorized "Invalid credentials")
          | None =>
              if Py.truthy_opt_str (password self)
                 && bool_decide (Some credentials = password self)
              then retM (Forwarded NoUser)
              else retM (unauthorized "Invalid credentials")
          end
      end.

(** [call_next st] is [await call_next(request)] when [request.state]
    is [st]: the rest of the application, which may write to the store
    and may raise. *)
Context {R : Type} (call_next : State -> M R).

(** [return await call_next(request)] *)
Definition forward (st : State) : M (Outcome R) :=
  do response <- call_next st; retM (FromApp response).

(** [dispatch(request, call_next)] with the rest of the application.
    The calls of [call_next] for an excluded path, for OPTIONS, without
    credentials and after the password test are outside every [try]; the
    one for a user is inside the [try] whose handler answers 401. *)
Definition dispatch_call_next (now : Z) (request : Request) : M (Outcome R) :=
  if bool_decide (path request ∈ excluded_paths self) then
    forward Untouched
  else if String.eqb (method request) "OPTIONS" then
    forward Untouched
  else
    let auth_header := authorization request in
    if negb (Py.truthy_opt_str auth_header) then
      if negb (Py.truthy_opt_str (password self)) then
        forward Untouched
      else
        retM (Answered 401 "Missing authorization header")
    else
      match bearer_credentials (default "" auth_header) with
      | None => retM (Answered 401 "Invalid authorization header format")
      | Some credentials =>
          do user_id <- liftM (JwtAuth.get_user_id_from_token JB cfg now credentials);
          let password_step : M (Outcome R) :=
            if Py.truthy_opt_str (password self)
               && bool_decide (Some credentials = password self)
            then forward NoUser
            else retM (Answered 401 "Invalid credentials") in
          match user_id with
          | Some v =>
              if Py.truthy v then
                tryM
                  (do user <- match v with
                              | Py.VStr rid => User.get EmailStr rid
                              | _ => raiseM (Py.TypeError "record id must be a string")
                              end;
                   match user with
                   | Some u =>
                       if User.is_active u then forward (WithUser u)
                       else retM (Answered 401 "User account is inactive")
                   | None => retM (Answered 401 "User account is inactive")
                   end)
                  (fun _ => retM (Answered 401 "Invalid token"))
              else password_step
          | None => password_step
          end
      end.

End Dispatch.

End Auth.

(** ** The notebook and source objects

    Modelled from the spec: [open_notebook.domain.notebook] is not among
    the sources. A [Notebook] has a name, a description, an archived flag,
    an optional owning user and its two timestamps; [get] gives the object
    or [None], [save] writes it under its id and [delete] removes it. *)

Module Notebook.

Record t : Type := {
  id : option string;
  row : Db.NotebookRow
}.

Definition get (nid : string) : M (option t) :=
  do d <- get_db;
  match Db.notebooks d !! nid with
  | Some r => retM (Some {| id := Some nid; row := r |})
  | None => retM None
  end.

Definition touch (now : string) (r : Db.NotebookRow) : Db.NotebookRow :=
  {| Db.nb_name := Db.nb_name r; Db.nb_description := Db.nb_description r;
     Db.nb_archived := Db.nb_archived r; Db.nb_user := Db.nb_user r;
     Db.nb_created := Db.nb_created r; Db.nb_updated := now |}.

(** [new_id] is the id the database gives a new record, [now] the time
    it stamps on the record. *)
Definition save (new_id now : string) (n : t) : M t :=
  do d <- get_db;
  let nid := default new_id (id n) in
  let r := touch now (row n) in
  do_ put_db (Db.with_notebooks d (<[nid := r]> (Db.notebooks d)));
  retM {| id := Some nid; row := r |}.

Definition delete (n : t) : M unit :=
  do d <- get_db;
  match id n with
  | Some nid => put_db (Db.with_notebooks d (base.delete nid (Db.notebooks d)))
  | None => raiseM (Py.InvalidInputError "Cannot delete object without an ID")
  end.

End Notebook.

Module Source.

Record t : Type := {
  id : option string;
  row : Db.SourceRow
}.

Definition get (sid : string) : M (option t) :=
  do d <- get_db;
  match Db.sources d !! sid with
  | Some r => retM (Some {| id := Some sid; row := r |})
  | None => retM None
  end.

End Source.

(** ** [api/routers/notebooks.py] *)

Module Notebooks.

Record NotebookResponse : Type := {
  id : string;
  name : string;
  description : string;
  archived : bool;
  created : string;
  updated : string;
  source_count : Z;
  note_count : Z
}.

Record NotebookUpdate : Type := {
  upd_name : option string;
  upd_description : option string;
  upd_archived : option bool
}.

Record NotebookCreate : Type := {
  new_name : string;
  new_description : string
}.

(** The body of a successful response. *)
Inductive Body : Type :=
| OneNotebook (n : NotebookResponse)
| ManyNotebooks (ns : list NotebookResponse)
| Message (msg : string).

(** [str(e)] *)
Definition str_of_exn (e : Py.exn) : string :=
  match e with
  | Py.InvalidInputError m | Py.JWTError m | Py.ValueError m | Py.TypeError m
  | Py.NotFoundError m | Py.DatabaseError m | Py.OverflowError m => m
  | Py.HTTPException _ d => d
  end.

(** [NotebookResponse(...)] from a result row. A row of another table
    reaches this only when the database answers a statement that is not
    one of [Sql]; it has its own [id] and none of [name], [description],
    [archived] and the counts, so those [nb.get] give their defaults.
    The store keeps no [created] and [updated] for user rows and no id
    for edges: these fields of such a row are left empty here, and no
    property below reads them. *)
Definition response_of_row (r : Db.Row) : NotebookResponse :=
  match r with
  | Db.RNotebook nid n sc nc =>
      {| id := nid; name := Db.nb_name n; description := Db.nb_description n;
         archived := Db.nb_archived n; created := Db.nb_created n;
         updated := Db.nb_updated n; source_count := sc; note_count := nc |}
  | Db.RUser u =>
      {| id := Db.user_id u; name := ""; description := ""; archived := false;
         created := ""; updated := ""; source_count := 0; note_count := 0 |}
  | Db.REdge _ =>
      {| id := ""; name := ""; description := ""; archived := false;
         created := ""; updated := ""; source_count := 0; note_count := 0 |}
  end.

(** [NotebookResponse(...)] from a [Notebook] object, with no counts. *)
Definition response_of_object (n : Notebook.t) : NotebookResponse :=
  {| id := default "" (Notebook.id n);
     name := Db.nb_name (Notebook.row n);
     description := Db.nb_description (Notebook.row n);
     archived := Db.nb_archived (Notebook.row n);
     created := Db.nb_created (Notebook.row n);
     updated := Db.nb_updated (Notebook.row n);
     source_count := 0; note_count := 0 |}.

(** [nb.get("user")] *)
Definition row_user (r : Db.Row) : option string :=
  match r with
  | Db.RNotebook _ n _ _ => Db.nb_user n
  | _ => None
  end.

(** [nb.get("archived")] *)
Definition row_archived (r : Db.Row) : option bool :=
  match r with
  | Db.RNotebook _ n _ _ => Some (Db.nb_archived n)
  | _ => None
  end.

(** The access check each handler repeats:
    [owner_str = str(owner) if owner else None] and then
    [if owner_str and owner_str != user_id: raise HTTPException(403, ...)].
    It runs under [if user_id:]. *)
Definition check_access (user_id owner : option string) (detail : string) : M unit :=
  if Py.truthy_opt_str user_id then
    let owner_str := if Py.truthy_opt_str owner then owner else None in
    if Py.truthy_opt_str owner_str && negb (bool_decide (owner_str = user_id))
    then raiseM (Py.HTTPException 403 detail)
    else retM tt
  else retM tt.

(** An outcome with status 403. *)
Definition forbidden {A : Type} (r : Py.res A) : Prop :=
  exists detail, r = Py.Raise (Py.HTTPException 403 detail).

(** When the check refuses: a user context exists, the record has an
    owner, and the two differ. *)
Definition denied (user_id owner : option string) : bool :=
  Py.truthy_opt_str user_id && Py.truthy_opt_str owner
  && negb (bool_decide (owner = user_id)).

(** [except HTTPException: raise] followed by
    [except Exception as e: raise HTTPException(500, prefix + str(e))]. *)
Definition reraise_or_500 {A : Type} (prefix : string) (e : Py.exn) : M A :=
  if Py.is_HTTPException e then raiseM e
  else raiseM (Py.HTTPException 500 (prefix ++ str_of_exn e)).

(** The same with [except InvalidInputError as e: raise HTTPException(400, str(e))]
    between the two. *)
Definition reraise_or_400_500 {A : Type} (prefix : string) (e : Py.exn) : M A :=
  if Py.is_HTTPException e then raiseM e
  else if Py.is_InvalidInputError e then raiseM (Py.HTTPException 400 (str_of_exn e))
  else raiseM (Py.HTTPException 500 (prefix ++ str_of_exn e)).

(** The statements of the handlers with their variables. *)
Definition notebook_query (nid : string) : Db.Query :=
  {| Db.text := Sql.NOTEBOOK_WITH_COUNTS; Db.vars := {[ "notebook_id" := nid ]} |}.

Definition notebook_rows (nid : string) (d : Db.t) : list Db.Row :=
  match Db.notebooks d !! nid with
  | Some n => [Db.RNotebook nid n (Repo.count_in (Db.reference d) nid)
                 (Repo.count_in (Db.artifact d) nid)]
  | None => []
  end.

Definition link_vars (nid sid : string) : gmap string string :=
  <[ "source_id" := sid ]> {[ "notebook_id" := nid ]}.

Definition reference_exists_query (nid sid : string) : Db.Query :=
  {| Db.text := Sql.REFERENCE_EXISTS; Db.vars := link_vars nid sid |}.

Definition relate_query (nid sid : string) : Db.Query :=
  {| Db.text := Sql.RELATE_REFERENCE; Db.vars := link_vars nid sid |}.

Definition delete_reference_query (nid sid : string) : Db.Query :=
  {| Db.text := Sql.DELETE_REFERENCE; Db.vars := link_vars nid sid |}.

Section Handlers.
Context (other : Repo.Other).

(** [state] is [request.state] as the middleware left it. *)
Definition get_notebooks (state : Auth.State) (archived : option bool)
    (order_by : string) : M Body :=
  tryM
    (let user_id := Auth.state_user_id state in
     do result <-
       (if Py.truthy_opt_str user_id then
          Repo.repo_query other (Sql.notebooks_of_user order_by)
            {[ "user_id" := ensure_record_id (default "" user_id) ]}
        else
          Repo.repo_query other (Sql.notebooks_all order_by) ∅);
     let result :=
       match archived with
       | Some a => List.filter (fun nb => bool_decide (row_archived nb = Some a)) result
       | None => result
       end in
     retM (ManyNotebooks (map response_of_row result)))
    (fun e => raiseM (Py.HTTPException 500 ("Error fetching notebooks: " ++ str_of_exn e))).

Definition create_notebook (new_id now : string) (state : Auth.State)
    (notebook : NotebookCreate) : M Body :=
  tryM
    (let user_id := Auth.state_user_id state in
     let new_notebook :=
       {| Notebook.id := None;
          Notebook.row :=
            {| Db.nb_name := new_name notebook;
               Db.nb_description := new_description notebook;
               Db.nb_archived := false; Db.nb_user := user_id;
               Db.nb_created := now; Db.nb_updated := now |} |} in
     do saved <- Notebook.save new_id now new_notebook;
     retM (OneNotebook (response_of_object saved)))
    (fun e =>
       if Py.is_InvalidInputError e then raiseM (Py.HTTPException 400 (str_of_exn e))
       else raiseM (Py.HTTPException 500 ("Error creating notebook: " ++ str_of_exn e))).

Definition get_notebook (state : Auth.State) (notebook_id : string) : M Body :=
  tryM
    (let user_id := Auth.state_user_id state in
     do result <- Repo.repo_query other Sql.NOTEBOOK_WITH_COUNTS
                    {[ "notebook_id" := ensure_record_id notebook_id ]};
     match result with
     | [] => raiseM (Py.HTTPException 404 "Notebook not found")
     | nb :: _ =>
         do_ check_access user_id (row_user nb) "Access denied";
         retM (OneNotebook (response_of_row nb))
     end)
    (reraise_or_500 "Error fetching notebook: ").

Definition apply_update (u : NotebookUpdate) (r : Db.NotebookRow) : Db.NotebookRow :=
  {| Db.nb_name := default (Db.nb_name r) (upd_name u);
     Db.nb_description := default (Db.nb_description r) (upd_description u);
     Db.nb_archived := default (Db.nb_archived r) (upd_archived u);
     Db.nb_user := Db.nb_user r;
     Db.nb_created := Db.nb_created r; Db.nb_updated := Db.nb_updated r |}.

Definition update_notebook (new_id now : string) (state : Auth.State)
    (notebook_id : string) (notebook_update : NotebookUpdate) : M Body :=
  tryM
    (let user_id := Auth.state_user_id state in
     do found <- Notebook.get notebook_id;
     match found with
     | None => raiseM (Py.HTTPException 404 "Notebook not found")
     | Some notebook =>
         do_ check_access user_id (Db.nb_user (Notebook.row notebook)) "Access denied";
         let notebook :=
           {| Notebook.id := Notebook.id notebook;
              Notebook.row := apply_update notebook_update (Notebook.row notebook) |} in
         do notebook <- Notebook.save new_id now notebook;
         do result <- Repo.repo_query other Sql.NOTEBOOK_WITH_COUNTS
                        {[ "notebook_id" := ensure_record_id notebook_id ]};
         match result with
         | nb :: _ => retM (OneNotebook (response_of_row nb))
         | [] => retM (OneNotebook (response_of_object notebook))
         end
     end)
    (reraise_or_400_500 "Error updating notebook: ").

Definition add_source_to_notebook (state : Auth.State) (notebook_id source_id : string)
    : M Body :=
  tryM
    (let user_id := Auth.state_user_id state in
     do found <- Notebook.get notebook_id;
     match found with
     | None => raiseM (Py.HTTPException 404 "Notebook not found")
     | Some notebook =>
         do_ check_access user_id (Db.nb_user (Notebook.row notebook))
               "Access denied to notebook";
         do found_source <- Source.get source_id;
         match found_source with
         | None => raiseM (Py.HTTPException 404 "Source not found")
         | Some source =>
             do_ check_access user_id (Db.src_user (Source.row source))
                   "Access denied to source";
             do existing_ref <- Repo.repo_query other Sql.REFERENCE_EXISTS
                   (<[ "source_id" := ensure_record_id source_id ]>
                      {[ "notebook_id" := ensure_record_id notebook_id ]});
             do_ match existing_ref with
                 | [] =>
                     do_ Repo.repo_query other Sql.RELATE_REFERENCE
                           (<[ "source_id" := ensure_record_id source_id ]>
                              {[ "notebook_id" := ensure_record_id notebook_id ]});
                     retM tt
                 | _ :: _ => retM tt
                 end;
             retM (Message "Source linked to notebook successfully")
         end
     end)
    (reraise_or_500 "Error linking source to notebook: ").

Definition remove_source_from_notebook (state : Auth.State)
    (notebook_id source_id : string) : M Body :=
  tryM
    (let user_id := Auth.state_user_id state in
     do found <- Notebook.get notebook_id;
     match found with
     | None => raiseM (Py.HTTPException 404 "Notebook not found")
     | Some notebook =>
         do_ check_access user_id (Db.nb_user (Notebook.row notebook)) "Access denied";
         do_ Repo.repo_query other Sql.DELETE_REFERENCE
               (<[ "source_id" := ensure_record_id source_id ]>
                  {[ "notebook_id" := ensure_record_id notebook_id ]});
         retM (Message "Source removed from notebook successfully")
     end)
    (reraise_or_500 "Error removing source from notebook: ").

Definition delete_notebook (state : Auth.State) (notebook_id : string) : M Body :=
  tryM
    (let user_id := Auth.state_user_id state in
     do found <- Notebook.get notebook_id;
     match found with
     | None => raiseM (Py.HTTPException 404 "Notebook not found")
     | Some notebook =>
         do_ check_access user_id (Db.nb_user (Notebook.row notebook)) "Access denied";
         do_ Notebook.delete notebook;
         retM (Message "Notebook deleted successfully")
     end)
    (reraise_or_500 "Error deleting notebook: ").

End Handlers.

End Notebooks.

(** ** Reference instances of the libraries

    Small executable stand-ins for the three libraries, used to run the
    model on concrete requests: a token codec without cryptography, a
    password hash that keeps bcrypt's layout (a 29 character salt prefix
    and a digest of at most the first 72 bytes of the password), and an
    address check that asks for an [@]. *)

Module Reference.

#[global] Instance value_eq_dec : EqDecision Py.value.
Proof. solve_decision. Defined.

Definition value_to_sum (v : Py.value) : string + (Z + Z) :=
  match v with
  | Py.VStr s => inl s
  | Py.VInt z => inr (inl z)
  | Py.VDatetime us => inr (inr us)
  end.

Definition value_of_sum (x : string + (Z + Z)) : Py.value :=
  match x with
  | inl s => Py.VStr s
  | inr (inl z) => Py.VInt z
  | inr (inr us) => Py.VDatetime us
  end.

#[global] Program Instance value_countable : Countable Py.value :=
  inj_countable' value_to_sum value_of_sum _.
Next Obligation. by intros []. Qed.

Fixpoint pos_to_string (p : positive) : string :=
  match p with
  | xH => EmptyString
  | xO q => String "0" (pos_to_string q)
  | xI q => String "1" (pos_to_string q)
  end.

Fixpoint pos_of_string (s : string) : positive :=
  match s with
  | EmptyString => xH
  | String c r => if Ascii.eqb c "1" then xI (pos_of_string r) else xO (pos_of_string r)
  end.

Definition jose_sign (c : pydict) (key alg : string) : string :=
  pos_to_string (encode (c, key, alg)).

Definition jose_verify (token key : string) (algs : list string) : option pydict :=
  match decode (pos_of_string token) with
  | Some (c, k, a) =>
      if bool_decide (k = key) && bool_decide (a ∈ algs) then Some c else None
  | None => None
  end.

Definition jose : Jose.Backend :=
  {| Jose.sign := jose_sign; Jose.verify := jose_verify |}.

Fixpoint prefix (n : nat) (s : string) : string :=
  match n, s with
  | S m, String c r => String c (prefix m r)
  | _, _ => EmptyString
  end.

Definition hex_digit (n : N) : ascii :=
  if (n <? 10)%N then ascii_of_N (48 + n) else ascii_of_N (87 + n).

Fixpoint hex (s : string) : string :=
  match s with
  | EmptyString => EmptyString
  | String c r =>
      String (hex_digit (Py.code c / 16))
        (String (hex_digit (Py.code c mod 16)) (hex r))
  end.

Definition bcrypt_hashpw (password salt : string) : Py.res string :=
  if (29 <=? String.length salt)%nat && Py.is_ascii (prefix 29 salt) then
    Py.Ret (prefix 29 salt ++ hex (prefix 72 password))
  else Py.Raise (Py.ValueError "Invalid salt").

Definition bcrypt : Bcrypt.Backend := {| Bcrypt.hashpw := bcrypt_hashpw |}.

Definition email_str (s : string) : option string :=
  if Py.char_in "@" s then Some s else None.

(** A database that refuses every statement outside the constant ones. *)
Definition no_other : Repo.Other :=
  fun _ d => (Py.Raise (Py.DatabaseError "Parse error"), d).

Definition jwt_config : JwtAuth.Config :=
  {| JwtAuth.JWT_SECRET_KEY := "k"; JwtAuth.JWT_ALGORITHM := "HS256";
     JwtAuth.JWT_EXPIRATION_HOURS := 168 |}.

Definition salt : string := "$2b$12$abcdefghijklmnopqrstuv".

Definition world0 : World := {| db := Db.empty; sent := [] |}.

(** The token issued at time 0 to a user. *)
Definition token_of (rid name : string) : string :=
  match JwtAuth.create_access_token jose jwt_config 0 0 rid name with
  | Py.Ret t => t
  | Py.Raise _ => EmptyString
  end.

Definition inactive_user : Db.UserRow :=
  {| Db.user_id := "user:2"; Db.username := "olduser";
     Db.email := "old@example.com";
     Db.password_hash := "$2b$12$abcdefghijklmnopqrstuv7465737470617373776f7264313233";
     Db.full_name := None; Db.is_active := false; Db.is_admin := false;
     Db.last_login := None |}.

Definition stored_user : Db.UserRow :=
  {| Db.user_id := "user:1"; Db.username := "testuser3";
     Db.email := "test3@example.com";
     Db.password_hash := "$2b$12$abcdefghijklmnopqrstuv7465737470617373776f7264313233";
     Db.full_name := None; Db.is_active := true; Db.is_admin := false;
     Db.last_login := None |}.

Definition world1 : World :=
  {| db := Db.with_users Db.empty [stored_user]; sent := [] |}.

Definition world2 : World :=
  {| db := Db.with_users Db.empty [stored_user; inactive_user]; sent := [] |}.

(** The middleware as the application builds it, with and without a
    shared password. *)
Definition gate_with (pw : string) : Auth.Middleware :=
  Auth.init {[ "OPEN_NOTEBOOK_PASSWORD" := pw ]} None.


(** A notebook without an owner. *)
Definition shared_notebook : Db.NotebookRow :=
  {| Db.nb_name := "Research"; Db.nb_description := "";
     Db.nb_archived := false; Db.nb_user := None;
     Db.nb_created := "2025-01-01"; Db.nb_updated := "2025-01-01" |}.

(** A notebook of the user [user:2]. *)
Definition owned_notebook : Db.NotebookRow :=
  {| Db.nb_name := "Private"; Db.nb_description := "";
     Db.nb_archived := false; Db.nb_user := Some "user:2";
     Db.nb_created := "2025-01-01"; Db.nb_updated := "2025-01-01" |}.

Definition world3 : World :=
  {| db := {| Db.users := [stored_user];
              Db.notebooks := <[ "notebook:2" := owned_notebook ]>
                                {[ "notebook:1" := shared_notebook ]};
              Db.sources := {[ "source:1" := {| Db.src_title := "Paper";
                                                 Db.src_user := None |} ]};
              Db.reference := []; Db.artifact := [] |};
     sent := [] |}.

Definition no_update : Notebooks.NotebookUpdate :=
  {| Notebooks.upd_name := Some "Renamed"; Notebooks.upd_description := None;
     Notebooks.upd_archived := None |}.

(** [request.state] for the stored user. *)
Definition as_user1 : Auth.State :=
  Auth.WithUser
    {| User.id := Some "user:1"; User.username := "testuser3";
       User.email := "test3@example.com";
       User.password_hash := Db.password_hash stored_user;
       User.full_name := None; User.is_active := true; User.is_admin := false;
       User.last_login := None |}.

Definition bearer (token : string) : option string := Some ("Bearer " ++ token).

Definition get_notebooks_request (token : string) : Auth.Request :=
  {| Auth.path := "/notebooks"; Auth.method := "GET";
     Auth.authorization := bearer token |}.

Definition seventy_two : string :=
  "aaaaaaaaaaaaaaaaaaaaaaaaaaaaaaaaaaaaaaaaaaaaaaaaaaaaaaaaaaaaaaaaaaaaaaaa".

End Reference.

(** ** Notions used by the further properties *)

(** No space at the front of a string. *)
Definition clean_front (s : string) : Prop :=
  match s with
  | EmptyString => True
  | String c _ => Py.isspace c = false
  end.

(** The characters a username may have: [c.isalnum() or c in "_-"]. *)
Definition name_char (c : ascii) : bool := Py.isalnum c || Py.char_in c "_-".

(** The address check accepts an address it has put in normal form, once
    the field validator has stripped and lower-cased it, and leaves it as
    it is. *)
Definition email_stable (EmailStr : string -> option string) : Prop :=
  forall a b,
    EmailStr a = Some b ->
    EmailStr (Py.lower (Py.strip b)) = Some (Py.lower (Py.strip b)).

(** [save] on an object that has an id: the rows with that id are
    replaced by the object. *)
Definition replace_row (rid : string) (u : User.t) (rows : list Db.UserRow)
    : list Db.UserRow :=
  map (fun r => if String.eqb (Db.user_id r) rid then User.to_row rid u else r) rows.

(** The stored user of [Reference.world1] as an object. *)
Definition user1 : User.t :=
  {| User.id := Some "user:1"; User.username := "testuser3";
     User.email := "test3@example.com";
     User.password_hash := Db.password_hash Reference.stored_user;
     User.full_name := None; User.is_active := true; User.is_admin := false;
     User.last_login := None |}.

(** When the middleware hands a request on with [request.state] equal to
    [st]. *)
Definition forwarding_condition (JB : Jose.Backend) (cfg : JwtAuth.Config)
    (EmailStr : string -> option string) (self : Auth.Middleware)
    (now : Z) (request : Auth.Request) (w : World) (st : Auth.State) : Prop :=
  match st with
  | Auth.WithUser u =>
      User.is_active u = true
      /\ exists h credentials rid row,
           Auth.authorization request = Some h
           /\ Auth.bearer_credentials h = Some credentials
           /\ JwtAuth.get_user_id_from_token JB cfg now credentials
              = Py.Ret (Some (Py.VStr rid))
           /\ In row (Db.users (db w)) /\ Db.user_id row = rid
           /\ User.of_row EmailStr row = Py.Ret u
  | Auth.NoUser =>
      exists h p, Auth.authorization request = Some h
                  /\ Auth.password self = Some p /\ p <> ""
                  /\ Auth.bearer_credentials h = Some p
  | Auth.Untouched =>
      Auth.path request ∈ Auth.excluded_paths self
      \/ Auth.method request = "OPTIONS"
      \/ (Py.truthy_opt_str (Auth.authorization request) = false
          /\ Py.truthy_opt_str (Auth.password self) = false)
  end.

(** The request without its [Authorization] header. *)
Definition without_authorization (request : Auth.Request) : Auth.Request :=
  {| Auth.path := Auth.path request;
     Auth.method := Auth.method request;
     Auth.authorization := None |}.

(** ** [api/auth.py]: the route dependency *)

(** [check_api_password(credentials)]; [credentials] is the
    [credentials] field of the parsed header, or [None] without one. *)
Definition check_api_password (environ : gmap string string)
    (credentials : option string) : Py.res bool :=
  let password := environ !! "OPEN_NOTEBOOK_PASSWORD" in
  if negb (Py.truthy_opt_str password) then Py.Ret true
  else
    match credentials with
    | None => Py.Raise (Py.HTTPException 401 "Missing authorization")
    | Some c =>
        if negb (bool_decide (Some c = password)) then
          Py.Raise (Py.HTTPException 401 "Invalid password")
        else Py.Ret true
    end.

(** ** [api/routers/auth.py] *)

Module AuthRouter.

Record UserLogin : Type := {
  login_username : string;
  login_password : string
}.

Record UserRegister : Type := {
  reg_username : string;
  reg_email : string;
  reg_password : string;
  reg_full_name : option string
}.

Record PasswordChange : Type := {
  current_password : string;
  new_password : string
}.

Record UserUpdate : Type := {
  upd_email : option string;
  upd_full_name : option string
}.

(** [user.email = email] and [user.full_name = full_name]: the value is
    stored in the object as it is given. The base class [ObjectModel],
    which could ask the validation library to check assignments, is not
    among the sources; the library does not check them unless asked, and
    the handler's own test for an address in use, made just before, is
    written for a value that is stored as it is. *)
Definition assign_email (u : User.t) (email : string) : User.t :=
  {| User.id := User.id u; User.username := User.username u; User.email := email;
     User.password_hash := User.password_hash u; User.full_name := User.full_name u;
     User.is_active := User.is_active u; User.is_admin := User.is_admin u;
     User.last_login := User.last_login u |}.

Definition assign_full_name (u : User.t) (full_name : string) : User.t :=
  {| User.id := User.id u; User.username := User.username u; User.email := User.email u;
     User.password_hash := User.password_hash u; User.full_name := Some full_name;
     User.is_active := User.is_active u; User.is_admin := User.is_admin u;
     User.last_login := User.last_login u |}.

Record TokenResponse (UserResponse : Type) : Type := {
  access_token : string;
  token_type : string;
  user : UserResponse
}.
Arguments access_token {UserResponse} _.
Arguments token_type {UserResponse} _.
Arguments user {UserResponse} _.

(** [except HTTPException: raise] followed by
    [except Exception as e: raise HTTPException(500, detail)]. *)
Definition reraise_or_failed {A : Type} (detail : string) (e : Py.exn) : M A :=
  if Py.is_HTTPException e then raiseM e
  else raiseM (Py.HTTPException 500 detail).

(** The user [login_user] goes on with: the one found by username,
    or else the one found by email, for the same text. *)
Definition login_match (EmailStr : string -> option string) (name : string)
    (d : Db.t) : option User.t :=
  match User.first_match EmailStr (User.has_username (Py.lower name)) d with
  | Some u => Some u
  | None => User.first_match EmailStr (User.has_email (Py.lower name)) d
  end.

Section Handlers.
Context (JB : Jose.Backend) (cfg : JwtAuth.Config).
Context (EmailStr : string -> option string).
Context (BC : Bcrypt.Backend).
Context (other : Repo.Other).
(** [UserResponse] built from [user.to_dict_safe()]: the response model
    and the two timestamps of the base class are not among the sources. *)
Context {UserResponse : Type} (user_response : User.t -> Py.res UserResponse).
(** [create_access_token(None, username)], the call made for an object
    without an id. *)
Context (no_id_token : string -> Py.res string).

(** [create_access_token(user.id, user.username)] *)
Definition token_for (t_exp t_iat : Z) (user : User.t) : Py.res string :=
  match User.id user with
  | Some rid => JwtAuth.create_access_token JB cfg t_exp t_iat rid (User.username user)
  | None => no_id_token (User.username user)
  end.

(** The common end of [register_user] and [login_user]. [t_exp] and
    [t_iat] are the clock readings of [create_access_token], [now] the
    one of [update_last_login]. *)
Definition issue (new_id : string) (t_exp t_iat now : Z) (user : User.t)
    : M (TokenResponse UserResponse) :=
  do token <- liftM (token_for t_exp t_iat user);
  do user <- User.update_last_login new_id now user;
  do response <- liftM (user_response user);
  retM {| access_token := token; token_type := "bearer"; user := response |}.

Definition register_user (new_id salt : string) (t_exp t_iat now : Z)
    (user_data : UserRegister) : M (TokenResponse UserResponse) :=
  tryM
    (do user <- User.create_user EmailStr BC other new_id salt
                  (reg_username user_data) (reg_email user_data)
                  (reg_password user_data) (reg_full_name user_data) false;
     issue new_id t_exp t_iat now user)
    (fun e =>
       if Py.is_InvalidInputError e then
         raiseM (Py.HTTPException 400 (Notebooks.str_of_exn e))
       else raiseM (Py.HTTPException 500 "Registration failed")).

(** [register_user] step by step, over the steps of [create_user]. *)
Definition register_outcome (new_id salt : string) (t_exp t_iat now : Z)
    (user_data : UserRegister) (w : World)
    : Py.res (TokenResponse UserResponse) * World :=
  let handler e :=
    if Py.is_InvalidInputError e then
      raiseM (Py.HTTPException 400 (Notebooks.str_of_exn e))
    else raiseM (Py.HTTPException 500 "Registration failed") in
  match User.create_user_outcome EmailStr BC new_id salt
          (reg_username user_data) (reg_email user_data)
          (reg_password user_data) (reg_full_name user_data) false w with
  | (Py.Ret user, w1) =>
      match issue new_id t_exp t_iat now user w1 with
      | (Py.Ret response, w2) => (Py.Ret response, w2)
      | (Py.Raise e, w2) => handler e w2
      end
  | (Py.Raise e, w1) => handler e w1
  end.

Definition login_user (new_id : string) (t_exp t_iat now : Z)
    (credentials : UserLogin) : M (TokenResponse UserResponse) :=
  tryM
    (do user <- User.get_by_username EmailStr other (login_username credentials);
     do user <- match user with
                | Some u => retM (Some u)
                | None => User.get_by_email EmailStr other (login_username credentials)
                end;
     match user with
     | None => raiseM (Py.HTTPException 401 "Invalid username or password")
     | Some user =>
         do ok <- liftM (User.verify_password BC user (login_password credentials));
         if negb ok then
           raiseM (Py.HTTPException 401 "Invalid username or password")
         else if negb (User.is_active user) then
           raiseM (Py.HTTPException 401 "User account is inactive")
         else issue new_id t_exp t_iat now user
     end)
    (reraise_or_failed "Login failed").

Definition update_current_user (new_id : string) (state : Auth.State)
    (user_update : UserUpdate) : M UserResponse :=
  match Auth.state_user state with
  | None => raiseM (Py.HTTPException 401 "Not authenticated")
  | Some user =>
      tryM
        (do user <-
           (if Py.truthy_opt_str (upd_email user_update) then
              let email := default "" (upd_email user_update) in
              do existing_user <- User.get_by_email EmailStr other email;
              match existing_user with
              | Some existing =>
                  if negb (bool_decide (User.id existing = User.id user)) then
                    raiseM (Py.HTTPException 400 "Email already in use")
                  else retM (assign_email user email)
              | None => retM (assign_email user email)
              end
            else retM user);
         let user :=
           match upd_full_name user_update with
           | Some full_name => assign_full_name user full_name
           | None => user
           end in
         do user <- User.save new_id user;
         liftM (user_response user))
        (reraise_or_failed "Update failed")
  end.

(** The body of a successful response is the message. *)
Definition change_password (new_id salt : string) (state : Auth.State)
    (password_data : PasswordChange) : M string :=
  match Auth.state_user state with
  | None => raiseM (Py.HTTPException 401 "Not authenticated")
  | Some user =>
      tryM
        (do ok <- liftM (User.verify_password BC user (current_password password_data));
         if negb ok then
           raiseM (Py.HTTPException 400 "Current password is incorrect")
         else
           do_ User.update_password BC new_id salt user (new_password password_data);
           retM "Password changed successfully")
        (reraise_or_failed "Password change failed")
  end.

End Handlers.

End AuthRouter.

(** * Properties *)

(** ** Token expiry and the token round trip *)

Lemma add_hours_eq (us h : Z) :
  Py.add_hours us h
  = if Py.in_datetime_range (us + h * 3600 * 1000000)
    then Py.Ret (us + h * 3600 * 1000000)
    else Py.Raise (Py.OverflowError "date value out of range").
Proof. reflexivity. Qed.

Lemma timegm_add_hours (us h r : Z) :
  Py.add_hours us h = Py.Ret r ->
  Py.timegm r = Py.timegm us + 3600 * h.
Proof.
  rewrite add_hours_eq. destruct (Py.in_datetime_range _); [|discriminate].
  intros [= <-]. unfold Py.timegm.
  replace (us + h * 3600 * 1000000) with (us + (3600 * h) * 1000000) by lia.
  apply Z.div_add. lia.
Qed.

Section JwtFacts.
Context (B : Jose.Backend) (cfg : JwtAuth.Config).

Lemma convert_access_payload (t_exp t_iat : Z) (user_id username : string)
    (payload : pydict) :
  JwtAuth.access_payload cfg t_exp t_iat user_id username = Py.Ret payload ->
  Jose.convert_time_claims payload
  = JwtAuth.signed_claims cfg t_exp t_iat user_id username.
Proof.
  unfold JwtAuth.access_payload.
  destruct (Py.add_hours t_exp (JwtAuth.JWT_EXPIRATION_HOURS cfg)) as [r|] eqn:Hr;
    [|discriminate].
  cbn [mbind res_bind Py.bind]. intros [= <-].
  unfold Jose.convert_time_claims, JwtAuth.signed_claims.
  rewrite <- (timegm_add_hours _ _ _ Hr).
  apply map_eq. intros k.
  unfold Jose.convert_time_claim.
  repeat (rewrite ?lookup_insert_eq, ?lookup_insert_ne, ?lookup_empty by done; simpl).
  rewrite !lookup_insert. repeat case_decide; subst; done.
Qed.

Lemma signed_claims_serializable (t_exp t_iat : Z) (user_id username : string) :
  map_Forall (fun _ v => Jose.json_serializable v = true)
    (JwtAuth.signed_claims cfg t_exp t_iat user_id username).
Proof.
  unfold JwtAuth.signed_claims.
  repeat (apply map_Forall_insert_2; [done|]).
  apply map_Forall_empty.
Qed.

(** [create_access_token] gives a token exactly when the expiry is a
    [datetime]. *)
Lemma create_access_token_eq (t_exp t_iat : Z) (user_id username : string) :
  JwtAuth.create_access_token B cfg t_exp t_iat user_id username
  = if Py.in_datetime_range (t_exp + JwtAuth.JWT_EXPIRATION_HOURS cfg * 3600 * 1000000)
    then Py.Ret (Jose.sign B (JwtAuth.signed_claims cfg t_exp t_iat user_id username)
                   (JwtAuth.JWT_SECRET_KEY cfg) (JwtAuth.JWT_ALGORITHM cfg))
    else Py.Raise (Py.OverflowError "date value out of range").
Proof.
  unfold JwtAuth.create_access_token.
  destruct (JwtAuth.access_payload cfg t_exp t_iat user_id username) as [payload|e]
    eqn:Hp.
  - pose proof (convert_access_payload _ _ _ _ _ Hp) as Hc.
    unfold JwtAuth.access_payload in Hp. rewrite add_hours_eq in Hp.
    destruct (Py.in_datetime_range _); [|discriminate].
    cbn [mbind res_bind Py.bind]. unfold Jose.encode. rewrite Hc.
    rewrite bool_decide_eq_true_2 by apply signed_claims_serializable.
    reflexivity.
  - unfold JwtAuth.access_payload in Hp. rewrite add_hours_eq in Hp.
    destruct (Py.in_datetime_range _); [discriminate|].
    cbn [mbind res_bind Py.bind] in *. injection Hp as <-. reflexivity.
Qed.

Lemma create_access_token_ret (t_exp t_iat : Z) (user_id username token : string) :
  JwtAuth.create_access_token B cfg t_exp t_iat user_id username = Py.Ret token ->
  Py.in_datetime_range (t_exp + JwtAuth.JWT_EXPIRATION_HOURS cfg * 3600 * 1000000) = true
  /\ token = Jose.sign B (JwtAuth.signed_claims cfg t_exp t_iat user_id username)
               (JwtAuth.JWT_SECRET_KEY cfg) (JwtAuth.JWT_ALGORITHM cfg).
Proof.
  rewrite create_access_token_eq. destruct (Py.in_datetime_range _); [|discriminate].
  intros [= <-]. auto.
Qed.

Lemma validate_signed_claims (t_exp t_iat now : Z) (user_id username : string) :
  now <= Py.timegm t_exp + 3600 * JwtAuth.JWT_EXPIRATION_HOURS cfg ->
  Jose.validate_claims (JwtAuth.signed_claims cfg t_exp t_iat user_id username) now = Py.Ret tt.
Proof.
  intros Hnow.
  unfold Jose.validate_claims, Jose.validate_iat, Jose.validate_nbf, Jose.validate_exp,
    Jose.validate_absent, Jose.validate_str_claim, JwtAuth.signed_claims.
  repeat (rewrite ?lookup_insert_eq, ?lookup_insert_ne, ?lookup_empty by done; simpl).
  destruct (Z.ltb_spec (Py.timegm t_exp + 3600 * JwtAuth.JWT_EXPIRATION_HOURS cfg) now); [lia|].
  reflexivity.
Qed.

Lemma verify_token_total (now : Z) (token : string) :
  exists r, JwtAuth.verify_token B cfg now token = Py.Ret r.
Proof.
  unfold JwtAuth.verify_token.
  destruct (Jose.decode B now token _ _) as [p|e]; simpl; eauto.
  destruct (Py.is_JWTError e); eauto.
Qed.

Lemma verify_token_raise (now : Z) (token : string) (e : Py.exn) :
  Jose.decode B now token (JwtAuth.JWT_SECRET_KEY cfg) [JwtAuth.JWT_ALGORITHM cfg] = Py.Raise e ->
  JwtAuth.verify_token B cfg now token = Py.Ret None.
Proof.
  intros H. unfold JwtAuth.verify_token. rewrite H. simpl.
  destruct (Py.is_JWTError e); reflexivity.
Qed.

Lemma verify_token_ok (now : Z) (token : string) (p : pydict) :
  Jose.decode B now token (JwtAuth.JWT_SECRET_KEY cfg) [JwtAuth.JWT_ALGORITHM cfg] = Py.Ret p ->
  JwtAuth.verify_token B cfg now token = Py.Ret (Some p).
Proof.
  intros H. unfold JwtAuth.verify_token. rewrite H. reflexivity.
Qed.

End JwtFacts.

Lemma pos_of_to_string (p : positive) :
  Reference.pos_of_string (Reference.pos_to_string p) = p.
Proof. induction p; simpl; congruence. Qed.

Lemma reference_jose_sound : Jose.sound Reference.jose.
Proof.
  intros c key alg algs _ Halg. simpl.
  unfold Reference.jose_verify, Reference.jose_sign.
  rewrite pos_of_to_string, decode_encode.
  rewrite !bool_decide_eq_true_2 by done. reflexivity.
Qed.

(** C9: [create_access_token] sets the [exp] claim to its first clock
    reading plus [JWT_EXPIRATION_HOURS] hours (in the signed claims: that
    reading in whole seconds plus 3600 seconds per hour). It returns a
    token exactly when that time is a [datetime], and raises
    [OverflowError] when it is not. The constant is [int] of the
    environment variable when it is set, and 168, which is seven days,
    when it is not. *)
Theorem C9_expiry_from_environment :
  (forall (B : Jose.Backend) (cfg : JwtAuth.Config) (t_exp t_iat : Z)
          (user_id username : string),
      let expiry := t_exp + JwtAuth.JWT_EXPIRATION_HOURS cfg * 3600 * 1000000 in
      (Py.in_datetime_range expiry = true ->
       exists payload claims,
         JwtAuth.access_payload cfg t_exp t_iat user_id username = Py.Ret payload
         /\ payload !! "exp" = Some (Py.VDatetime expiry)
         /\ JwtAuth.create_access_token B cfg t_exp t_iat user_id username
            = Py.Ret (Jose.sign B claims (JwtAuth.JWT_SECRET_KEY cfg)
                        (JwtAuth.JWT_ALGORITHM cfg))
         /\ claims !! "exp"
            = Some (Py.VInt (Py.timegm t_exp + 3600 * JwtAuth.JWT_EXPIRATION_HOURS cfg)))
      /\ (Py.in_datetime_range expiry = false ->
          exists msg,
            JwtAuth.create_access_token B cfg t_exp t_iat user_id username
            = Py.Raise (Py.OverflowError msg)))
  /\ (forall (environ : gmap string string) (s : string) (h : Z),
        environ !! "JWT_EXPIRATION_HOURS" = Some s ->
        Py.int s = Py.Ret h ->
        exists cfg, JwtAuth.load environ = Py.Ret cfg
                    /\ JwtAuth.JWT_EXPIRATION_HOURS cfg = h)
  /\ (forall environ : gmap string string,
        environ !! "JWT_EXPIRATION_HOURS" = None ->
        exists cfg, JwtAuth.load environ = Py.Ret cfg
                    /\ JwtAuth.JWT_EXPIRATION_HOURS cfg = 168
                    /\ JwtAuth.JWT_EXPIRATION_HOURS cfg = 7 * 24).
Proof.
  split; [|split].
  - intros B cfg t_exp t_iat user_id username expiry. split.
    + intros Hrange. eexists. exists (JwtAuth.signed_claims cfg t_exp t_iat user_id username).
      split; [|split; [|split]].
      * unfold JwtAuth.access_payload. rewrite add_hours_eq. fold expiry.
        rewrite Hrange. reflexivity.
      * rewrite lookup_insert_ne by done. apply lookup_insert_eq.
      * rewrite create_access_token_eq. fold expiry. rewrite Hrange. reflexivity.
      * unfold JwtAuth.signed_claims. rewrite lookup_insert_ne by done.
        apply lookup_insert_eq.
    + intros Hrange. rewrite create_access_token_eq. fold expiry. rewrite Hrange. eauto.
  - intros environ s h Hs Hint.
    unfold JwtAuth.load, JwtAuth.environ_get. rewrite Hs. simpl. rewrite Hint.
    eexists. split; reflexivity.
  - intros environ Hnone.
    unfold JwtAuth.load, JwtAuth.environ_get. rewrite Hnone.
    eexists. split; [reflexivity|]. split; reflexivity.
Qed.

Lemma C9_expiry_from_environment_witness :
  (exists cfg, JwtAuth.load ∅ = Py.Ret cfg /\ JwtAuth.JWT_EXPIRATION_HOURS cfg = 168
               /\ JwtAuth.JWT_EXPIRATION_HOURS cfg = 7 * 24)
  /\ (exists cfg, JwtAuth.load {[ "JWT_EXPIRATION_HOURS" := "24" ]} = Py.Ret cfg
                  /\ JwtAuth.JWT_EXPIRATION_HOURS cfg = 24).
Proof.
  split.
  - apply (proj2 (proj2 C9_expiry_from_environment) ∅). reflexivity.
  - apply (proj1 (proj2 C9_expiry_from_environment)
             {[ "JWT_EXPIRATION_HOURS" := "24" ]} "24" 24); reflexivity.
Defined.

Lemma get_user_id_of_payload B cfg now token p :
  JwtAuth.verify_token B cfg now token = Py.Ret (Some p) ->
  p <> ∅ ->
  JwtAuth.get_user_id_from_token B cfg now token = Py.Ret (p !! "sub").
Proof.
  intros H Hne. unfold JwtAuth.get_user_id_from_token. rewrite H. simpl.
  rewrite bool_decide_eq_false_2 by done. reflexivity.
Qed.

Section Issued.
Context (B : Jose.Backend) (cfg : JwtAuth.Config).
Hypothesis Bsound : Jose.sound B.

Lemma decode_issued (t_exp t_iat now : Z) (user_id username : string) :
  Jose.decode B now
    (Jose.sign B (JwtAuth.signed_claims cfg t_exp t_iat user_id username)
       (JwtAuth.JWT_SECRET_KEY cfg) (JwtAuth.JWT_ALGORITHM cfg))
    (JwtAuth.JWT_SECRET_KEY cfg) [JwtAuth.JWT_ALGORITHM cfg]
  = if Py.timegm t_exp + 3600 * JwtAuth.JWT_EXPIRATION_HOURS cfg <? Py.timegm now
    then Py.Raise (Py.JWTError "Signature has expired.")
    else Py.Ret (JwtAuth.signed_claims cfg t_exp t_iat user_id username).
Proof.
  unfold Jose.decode.
  rewrite Bsound; [|apply signed_claims_serializable|set_solver].
  destruct (Z.ltb_spec (Py.timegm t_exp + 3600 * JwtAuth.JWT_EXPIRATION_HOURS cfg)
              (Py.timegm now)) as [Hlt|Hge].
  - unfold Jose.validate_claims, Jose.validate_iat, Jose.validate_nbf,
      Jose.validate_exp, JwtAuth.signed_claims.
    repeat (rewrite ?lookup_insert_eq, ?lookup_insert_ne, ?lookup_empty by done; simpl).
    destruct (Z.ltb_spec (Py.timegm t_exp + 3600 * JwtAuth.JWT_EXPIRATION_HOURS cfg)
                (Py.timegm now)); [reflexivity|lia].
  - rewrite validate_signed_claims by exact Hge. reflexivity.
Qed.

Lemma signed_claims_not_empty (t_exp t_iat : Z) (user_id username : string) :
  JwtAuth.signed_claims cfg t_exp t_iat user_id username <> ∅.
Proof.
  unfold JwtAuth.signed_claims. intros H.
  apply (f_equal (fun m => m !! "iat")) in H.
  rewrite lookup_insert_eq, lookup_empty in H. discriminate.
Qed.

End Issued.

Lemma issued_token (rid name : string) :
  JwtAuth.create_access_token Reference.jose Reference.jwt_config 0 0 rid name
  = Py.Ret (Reference.token_of rid name).
Proof.
  unfold Reference.token_of. rewrite create_access_token_eq.
  change (Py.in_datetime_range _) with true. reflexivity.
Qed.

Lemma timegm_mono (a b : Z) : a <= b -> Py.timegm a <= Py.timegm b.
Proof. intros H. unfold Py.timegm. apply Z.div_le_mono; lia. Qed.

(** C7 (amended): with a signing backend that verifies what it signed,
    [create_access_token] returns a token exactly when its expiry is a
    [datetime]. A token it returned, verified no later than its expiry,
    gives a payload with [sub] the user id, [username] the username, and
    [iat] and [exp]; verified later it gives [None], which with an expiry
    of minus one hour or less is the case from the moment of issue. And
    [verify_token] never raises: whenever decoding raises, it and
    [get_user_id_from_token] return [None]. *)
Theorem C7_token_round_trip (B : Jose.Backend) (cfg : JwtAuth.Config) :
  Jose.sound B ->
  (forall (t_exp t_iat now : Z) (user_id username token : string),
      JwtAuth.create_access_token B cfg t_exp t_iat user_id username = Py.Ret token ->
      let expiry := Py.timegm t_exp + 3600 * JwtAuth.JWT_EXPIRATION_HOURS cfg in
      (Py.timegm now <= expiry ->
       exists payload,
         JwtAuth.verify_token B cfg now token = Py.Ret (Some payload)
         /\ payload !! "sub" = Some (Py.VStr user_id)
         /\ payload !! "username" = Some (Py.VStr username)
         /\ payload !! "iat" = Some (Py.VInt (Py.timegm t_iat))
         /\ payload !! "exp" = Some (Py.VInt expiry)
         /\ JwtAuth.get_user_id_from_token B cfg now token
            = Py.Ret (Some (Py.VStr user_id)))
      /\ (expiry < Py.timegm now ->
          JwtAuth.verify_token B cfg now token = Py.Ret None
          /\ JwtAuth.get_user_id_from_token B cfg now token = Py.Ret None)
      /\ (JwtAuth.JWT_EXPIRATION_HOURS cfg <= -1 -> t_exp <= now ->
          JwtAuth.verify_token B cfg now token = Py.Ret None))
  /\ (forall (t_exp t_iat : Z) (user_id username : string),
        (exists token,
            JwtAuth.create_access_token B cfg t_exp t_iat user_id username
            = Py.Ret token)
        <-> Py.in_datetime_range
              (t_exp + JwtAuth.JWT_EXPIRATION_HOURS cfg * 3600 * 1000000) = true)
  /\ (forall (now : Z) (token : string),
        (exists r, JwtAuth.verify_token B cfg now token = Py.Ret r)
        /\ forall e,
            Jose.decode B now token (JwtAuth.JWT_SECRET_KEY cfg)
              [JwtAuth.JWT_ALGORITHM cfg] = Py.Raise e ->
            JwtAuth.verify_token B cfg now token = Py.Ret None
            /\ JwtAuth.get_user_id_from_token B cfg now token = Py.Ret None).
Proof.
  intros Hsound. split; [|split].
  - intros t_exp t_iat now user_id username token Htok expiry.
    apply create_access_token_ret in Htok as [_ ->].
    assert (Hexpired : expiry < Py.timegm now ->
              JwtAuth.verify_token B cfg now
                (Jose.sign B (JwtAuth.signed_claims cfg t_exp t_iat user_id username)
                   (JwtAuth.JWT_SECRET_KEY cfg) (JwtAuth.JWT_ALGORITHM cfg))
              = Py.Ret None).
    { intros Hlate. unfold JwtAuth.verify_token.
      rewrite (decode_issued B cfg Hsound). fold expiry.
      destruct (Z.ltb_spec expiry (Py.timegm now)); [reflexivity|lia]. }
    split; [|split].
    + intros Hnow. exists (JwtAuth.signed_claims cfg t_exp t_iat user_id username).
      assert (Hv : JwtAuth.verify_token B cfg now
                     (Jose.sign B (JwtAuth.signed_claims cfg t_exp t_iat user_id username)
                        (JwtAuth.JWT_SECRET_KEY cfg) (JwtAuth.JWT_ALGORITHM cfg))
                   = Py.Ret (Some (JwtAuth.signed_claims cfg t_exp t_iat user_id username))).
      { apply verify_token_ok. rewrite (decode_issued B cfg Hsound). fold expiry.
        destruct (Z.ltb_spec expiry (Py.timegm now)); [lia|reflexivity]. }
      split; [exact Hv|].
      assert (Hsub : JwtAuth.signed_claims cfg t_exp t_iat user_id username !! "sub"
                     = Some (Py.VStr user_id)).
      { unfold JwtAuth.signed_claims. by rewrite !lookup_insert_ne, lookup_insert_eq by done. }
      split; [exact Hsub|].
      split; [unfold JwtAuth.signed_claims; by rewrite !lookup_insert_ne, lookup_insert_eq by done|].
      split; [unfold JwtAuth.signed_claims; by rewrite lookup_insert_eq|].
      split; [unfold JwtAuth.signed_claims; by rewrite lookup_insert_ne, lookup_insert_eq by done|].
      rewrite <- Hsub. apply get_user_id_of_payload; [exact Hv|].
      intros Hempty. rewrite Hempty, lookup_empty in Hsub. discriminate.
    + intros Hlate. split; [exact (Hexpired Hlate)|].
      unfold JwtAuth.get_user_id_from_token. rewrite (Hexpired Hlate). reflexivity.
    + intros Hneg Hle. apply Hexpired. subst expiry.
      pose proof (timegm_mono _ _ Hle). lia.
  - intros t_exp t_iat user_id username. rewrite create_access_token_eq.
    destruct (Py.in_datetime_range _); split; eauto.
    + intros [token H]. discriminate.
    + discriminate.
  - intros now token. split; [apply verify_token_total|].
    intros e Hraise.
    pose proof (verify_token_raise B cfg now token e Hraise) as Hv.
    split; [exact Hv|].
    unfold JwtAuth.get_user_id_from_token. rewrite Hv. reflexivity.
Qed.

Lemma C7_token_round_trip_witness :
  exists payload,
    JwtAuth.verify_token Reference.jose Reference.jwt_config 1000000
      (Reference.token_of "user:test123" "testuser") = Py.Ret (Some payload)
    /\ payload !! "sub" = Some (Py.VStr "user:test123")
    /\ payload !! "username" = Some (Py.VStr "testuser")
    /\ payload !! "iat" = Some (Py.VInt (Py.timegm 0))
    /\ payload !! "exp" = Some (Py.VInt (Py.timegm 0 + 3600 * 168))
    /\ JwtAuth.get_user_id_from_token Reference.jose Reference.jwt_config 1000000
         (Reference.token_of "user:test123" "testuser")
       = Py.Ret (Some (Py.VStr "user:test123")).
Proof.
  apply (proj1 (proj1 (C7_token_round_trip Reference.jose Reference.jwt_config
                         reference_jose_sound)
                  0 0 1000000 "user:test123" "testuser"
                  (Reference.token_of "user:test123" "testuser")
                  (issued_token "user:test123" "testuser"))).
  vm_compute. discriminate.
Defined.

(** C7 (as stated) fails: with [JWT_EXPIRATION_HOURS] set to [-1], which
    the module accepts, the token made for a user id and username is
    answered [None] by [verify_token] and [get_user_id_from_token] at the
    very clock reading at which it was made. *)
Lemma C7_expired_when_issued :
  exists cfg token,
    JwtAuth.load {[ "JWT_EXPIRATION_HOURS" := "-1" ]} = Py.Ret cfg
    /\ JwtAuth.create_access_token Reference.jose cfg
         1700000000000000 1700000000000000 "user:test123" "testuser" = Py.Ret token
    /\ JwtAuth.verify_token Reference.jose cfg 1700000000000000 token = Py.Ret None
    /\ JwtAuth.get_user_id_from_token Reference.jose cfg 1700000000000000 token
       = Py.Ret None.
Proof.
  eexists. eexists. split; [reflexivity|]. split; [vm_compute; reflexivity|].
  split; vm_compute; reflexivity.
Qed.

(** ** Password hashing *)

Lemma encode_utf8_ascii (s : string) :
  Py.is_ascii s = true -> encode_utf8 s = s.
Proof.
  unfold Py.is_ascii.
  induction s as [|c r IH]; simpl; [reflexivity|].
  intros H. apply andb_prop in H as [Hc Hr].
  rewrite Hc, IH by exact Hr. reflexivity.
Qed.

Lemma hash_password_short (BC : Bcrypt.Backend) (salt password : string) :
  Py.len password < 6 ->
  User.hash_password BC salt password
  = Py.Raise (Py.InvalidInputError "Password must be at least 6 characters").
Proof.
  intros H. unfold User.hash_password.
  destruct (Z.ltb_spec (Py.len password) 6); [|lia].
  rewrite orb_true_r. reflexivity.
Qed.

Lemma hash_password_long (BC : Bcrypt.Backend) (salt password : string) :
  6 <= Py.len password ->
  User.hash_password BC salt password
  = Bcrypt.hashpw BC (encode_utf8 password) salt.
Proof.
  intros H. unfold User.hash_password.
  destruct (Z.ltb_spec (Py.len password) 6); [lia|].
  destruct password; [simpl in H; unfold Py.len in H; simpl in H; lia|].
  reflexivity.
Qed.

Lemma hash_password_ret (BC : Bcrypt.Backend) (salt password h : string) :
  User.hash_password BC salt password = Py.Ret h ->
  6 <= Py.len password /\ Bcrypt.hashpw BC (encode_utf8 password) salt = Py.Ret h.
Proof.
  intros H.
  destruct (Z.lt_ge_cases (Py.len password) 6) as [Hlt|Hge].
  - rewrite hash_password_short in H by exact Hlt. discriminate.
  - rewrite hash_password_long in H by exact Hge. auto.
Qed.

Lemma verify_password_total (BC : Bcrypt.Backend) (u : User.t) (password : string) :
  exists b, User.verify_password BC u password = Py.Ret b.
Proof.
  unfold User.verify_password, Bcrypt.checkpw.
  destruct (Bcrypt.hashpw BC _ _); simpl; eauto.
Qed.

Lemma verify_password_true (BC : Bcrypt.Backend) (u : User.t) (password : string) :
  User.verify_password BC u password = Py.Ret true
  <-> Bcrypt.hashpw BC (encode_utf8 password) (encode_utf8 (User.password_hash u))
      = Py.Ret (encode_utf8 (User.password_hash u)).
Proof.
  unfold User.verify_password, Bcrypt.checkpw.
  destruct (Bcrypt.hashpw BC _ _) as [r|e]; simpl.
  - destruct (String.eqb_spec r (encode_utf8 (User.password_hash u))) as [->|Hne].
    + tauto.
    + split; [discriminate|]. intros [=]. contradiction.
  - split; discriminate.
Qed.

(** C6 (amended): [hash_password] rejects a password of fewer than 6
    characters and hands any other to bcrypt; a user holding the hash of a
    password verifies that password, and verifies a candidate exactly when
    bcrypt's hash of the candidate under the stored salt is the stored
    hash. *)
Theorem C6_hash_then_verify (BC : Bcrypt.Backend) :
  Bcrypt.sound BC ->
  (forall salt password : string,
      Py.len password < 6 ->
      exists msg, User.hash_password BC salt password = Py.Raise (Py.InvalidInputError msg))
  /\ (forall salt password : string,
        6 <= Py.len password ->
        User.hash_password BC salt password
        = Bcrypt.hashpw BC (encode_utf8 password) salt)
  /\ (forall (salt password h : string) (u : User.t),
        User.hash_password BC salt password = Py.Ret h ->
        User.password_hash u = h ->
        User.verify_password BC u password = Py.Ret true
        /\ forall candidate : string,
            (exists b, User.verify_password BC u candidate = Py.Ret b)
            /\ (User.verify_password BC u candidate = Py.Ret true
                <-> Bcrypt.hashpw BC (encode_utf8 candidate) h = Py.Ret h)).
Proof.
  intros Hsound. split; [|split].
  - intros salt password H. eexists. apply hash_password_short. exact H.
  - intros salt password H. apply hash_password_long. exact H.
  - intros salt password h u Hhash Hu.
    apply hash_password_ret in Hhash as [_ Hh].
    destruct (Hsound _ _ _ Hh) as [Hre Hascii].
    assert (He : encode_utf8 (User.password_hash u) = h).
    { rewrite Hu. apply encode_utf8_ascii. exact Hascii. }
    split.
    + apply verify_password_true. rewrite He. exact Hre.
    + intros candidate. split; [apply verify_password_total|].
      rewrite verify_password_true, He. reflexivity.
Qed.

Lemma prefix_length (n : nat) (s : string) :
  (n <= String.length s)%nat -> String.length (Reference.prefix n s) = n.
Proof.
  revert s. induction n as [|n IH]; intros [|c r]; simpl; intros H; try lia.
  rewrite IH by lia. reflexivity.
Qed.

Lemma prefix_app (n : nat) (s t : string) :
  String.length s = n -> Reference.prefix n (s ++ t) = s.
Proof.
  revert s. induction n as [|n IH]; intros [|c r]; simpl; intros H; try lia.
  - destruct t; reflexivity.
  - rewrite IH by lia. reflexivity.
Qed.

Lemma length_app (s t : string) :
  String.length (s ++ t) = (String.length s + String.length t)%nat.
Proof. induction s as [|c r IH]; simpl; [reflexivity|]. rewrite IH. reflexivity. Qed.

Lemma is_ascii_app (s t : string) :
  Py.is_ascii (s ++ t) = Py.is_ascii s && Py.is_ascii t.
Proof.
  unfold Py.is_ascii. induction s as [|c r IH]; simpl; [reflexivity|].
  rewrite IH. apply andb_assoc.
Qed.

Lemma hex_digit_ascii (n : N) :
  (n < 16)%N -> (Py.code (Reference.hex_digit n) <? 128)%N = true.
Proof.
  intros H. unfold Reference.hex_digit, Py.code.
  destruct (N.ltb_spec n 10).
  - rewrite N_ascii_embedding by lia. apply N.ltb_lt. lia.
  - rewrite N_ascii_embedding by lia. apply N.ltb_lt. lia.
Qed.

Lemma code_bound (c : ascii) : (Py.code c < 256)%N.
Proof. unfold Py.code. apply N_ascii_bounded. Qed.

Lemma hex_ascii (s : string) : Py.is_ascii (Reference.hex s) = true.
Proof.
  unfold Py.is_ascii. induction s as [|c r IH]; simpl; [reflexivity|].
  pose proof (code_bound c).
  rewrite !hex_digit_ascii, IH; [reflexivity| |].
  - apply N.mod_lt. lia.
  - apply N.Div0.div_lt_upper_bound. lia.
Qed.

Lemma reference_bcrypt_sound : Bcrypt.sound Reference.bcrypt.
Proof.
  intros password salt h. unfold Bcrypt.hashpw, Reference.bcrypt, Reference.bcrypt_hashpw.
  destruct (Nat.leb_spec 29 (String.length salt)) as [Hlen|Hlen];
    [rewrite andb_true_l|rewrite andb_false_l; intros [=]].
  destruct (Py.is_ascii (Reference.prefix 29 salt)) eqn:Ha; [|intros [=]].
  intros Heq.
  assert (Hh : h = Reference.prefix 29 salt ++ Reference.hex (Reference.prefix 72 password))
    by congruence.
  subst h. clear Heq.
  assert (Hp : String.length (Reference.prefix 29 salt) = 29%nat)
    by (apply prefix_length; exact Hlen).
  rewrite prefix_app by exact Hp.
  rewrite length_app, Hp.
  destruct (Nat.leb_spec 29 (29 + String.length (Reference.hex (Reference.prefix 72 password))));
    [|lia].
  rewrite Ha, andb_true_l. split; [reflexivity|].
  rewrite is_ascii_app, Ha, hex_ascii. reflexivity.
Qed.

Lemma C6_hash_then_verify_witness :
  User.verify_password Reference.bcrypt
    {| User.id := None; User.username := "testuser2"; User.email := "test2@example.com";
       User.password_hash := "$2b$12$abcdefghijklmnopqrstuv74657374706173733132";
       User.full_name := None; User.is_active := true; User.is_admin := false;
       User.last_login := None |} "testpass12" = Py.Ret true.
Proof.
  apply (proj2 (proj2 (C6_hash_then_verify Reference.bcrypt reference_bcrypt_sound))
           Reference.salt "testpass12"
           "$2b$12$abcdefghijklmnopqrstuv74657374706173733132"
           {| User.id := None; User.username := "testuser2";
              User.email := "test2@example.com";
              User.password_hash := "$2b$12$abcdefghijklmnopqrstuv74657374706173733132";
              User.full_name := None; User.is_active := true; User.is_admin := false;
              User.last_login := None |}); reflexivity.
Defined.

(** C6 (as stated) fails: bcrypt reads 72 bytes of a password, so a
    password that differs from the hashed one after byte 72 verifies. *)
Lemma C6_distinct_password_verifies :
  exists h : string,
    String.length Reference.seventy_two = 72%nat
    /\ 6 <= Py.len (Reference.seventy_two ++ "b")
    /\ Reference.seventy_two ++ "c" <> Reference.seventy_two ++ "b"
    /\ User.hash_password Reference.bcrypt Reference.salt (Reference.seventy_two ++ "b") = Py.Ret h
    /\ User.verify_password Reference.bcrypt
         {| User.id := None; User.username := "testuser2";
            User.email := "test2@example.com"; User.password_hash := h;
            User.full_name := None; User.is_active := true; User.is_admin := false;
            User.last_login := None |} (Reference.seventy_two ++ "c") = Py.Ret true.
Proof.
  eexists. split; [reflexivity|]. split; [vm_compute; discriminate|].
  split; [discriminate|]. split; [vm_compute; reflexivity|]. vm_compute. reflexivity.
Qed.

(** ** The statements and their answers *)

Lemma take_one_filter {A : Type} (p : A -> bool) (l : list A) :
  take 1 (List.filter p l)
  = match List.find p l with Some r => [r] | None => [] end.
Proof.
  induction l as [|a l IH]; simpl; [reflexivity|].
  destruct (p a); simpl; [reflexivity|exact IH].
Qed.

Section Answers.
Context (other : Repo.Other).

Lemma answer_user_by_username (u : string) (d : Db.t) :
  Repo.answer other
    {| Db.text := Sql.USER_BY_USERNAME; Db.vars := {[ "username" := u ]} |} d
  = (Py.Ret (Repo.select_users (User.has_username u) d), d).
Proof. reflexivity. Qed.

Lemma answer_user_by_email (e : string) (d : Db.t) :
  Repo.answer other
    {| Db.text := Sql.USER_BY_EMAIL; Db.vars := {[ "email" := e ]} |} d
  = (Py.Ret (Repo.select_users (User.has_email e) d), d).
Proof. reflexivity. Qed.

Lemma repo_query_user_by_username (u : string) (w : World) :
  Repo.repo_query other Sql.USER_BY_USERNAME {[ "username" := u ]} w
  = (Py.Ret (Repo.select_users (User.has_username u) (db w)),
     logged {| Db.text := Sql.USER_BY_USERNAME; Db.vars := {[ "username" := u ]} |} w).
Proof. reflexivity. Qed.

Lemma repo_query_user_by_email (e : string) (w : World) :
  Repo.repo_query other Sql.USER_BY_EMAIL {[ "email" := e ]} w
  = (Py.Ret (Repo.select_users (User.has_email e) (db w)),
     logged {| Db.text := Sql.USER_BY_EMAIL; Db.vars := {[ "email" := e ]} |} w).
Proof. reflexivity. Qed.

End Answers.

(** ** The user model *)

Lemma lower_char_idem (c : ascii) : Py.lower_char (Py.lower_char c) = Py.lower_char c.
Proof. destruct c as [[] [] [] [] [] [] [] []]; reflexivity. Qed.

Lemma lower_idem (s : string) : Py.lower (Py.lower s) = Py.lower s.
Proof.
  induction s as [|c r IH]; simpl; [reflexivity|].
  rewrite lower_char_idem, IH. reflexivity.
Qed.

Section UserFacts.
Context (EmailStr : string -> option string).
Context (BC : Bcrypt.Backend).
Context (other : Repo.Other).

Lemma first_user_select (p : Db.UserRow -> bool) (w : World) :
  tryM (User.first_user EmailStr (Repo.select_users p (db w))) (fun _ => retM None) w
  = (Py.Ret (User.first_match EmailStr p (db w)), w).
Proof.
  unfold Repo.select_users, User.first_match. rewrite take_one_filter.
  destruct (List.find p (Db.users (db w))) as [r|]; simpl; [|reflexivity].
  unfold tryM, bindM, liftM. destruct (User.of_row EmailStr r); reflexivity.
Qed.

Lemma get_by_username_eq (name : string) (w : World) :
  User.get_by_username EmailStr other name w
  = (Py.Ret (User.first_match EmailStr (User.has_username (Py.lower name)) (db w)),
     logged (User.username_query name) w).
Proof.
  unfold User.get_by_username.
  pose proof (first_user_select (User.has_username (Py.lower name))
                (logged (User.username_query name) w)) as H.
  unfold tryM, bindM in *. rewrite repo_query_user_by_username.
  exact H.
Qed.

Lemma get_by_email_eq (addr : string) (w : World) :
  User.get_by_email EmailStr other addr w
  = (Py.Ret (User.first_match EmailStr (User.has_email (Py.lower addr)) (db w)),
     logged (User.email_query addr) w).
Proof.
  unfold User.get_by_email.
  pose proof (first_user_select (User.has_email (Py.lower addr))
                (logged (User.email_query addr) w)) as H.
  unfold tryM, bindM in *. rewrite repo_query_user_by_email.
  exact H.
Qed.


Lemma username_valid_lower (v x : string) :
  User.username_must_be_valid v = Py.Ret x -> Py.lower x = x.
Proof.
  unfold User.username_must_be_valid.
  repeat (destruct (_ : bool); [discriminate|]).
  intros [= <-]. apply lower_idem.
Qed.

Lemma email_valid_lower (v x : string) :
  User.email_must_be_valid v = Py.Ret x -> Py.lower x = x.
Proof.
  unfold User.email_must_be_valid.
  destruct (_ : bool); [discriminate|].
  intros [= <-]. apply lower_idem.
Qed.

Lemma make_ret (rid : option string) (name addr ph : string) (fn : option string)
    (active admin : bool) (ll : option Z) (u : User.t) :
  User.make EmailStr rid name addr ph fn active admin ll = Py.Ret u ->
  User.id u = rid /\ User.password_hash u = ph /\ User.full_name u = fn
  /\ User.is_active u = active /\ User.is_admin u = admin /\ User.last_login u = ll
  /\ User.username_must_be_valid name = Py.Ret (User.username u)
  /\ exists addr0, EmailStr addr = Some addr0
                   /\ User.email_must_be_valid addr0 = Py.Ret (User.email u).
Proof.
  unfold User.make.
  destruct (User.username_must_be_valid name) as [n'|]; [|discriminate].
  destruct (EmailStr addr) as [a0|]; [|discriminate].
  simpl. destruct (User.email_must_be_valid a0) as [a'|] eqn:Ha; [|discriminate].
  simpl. intros [= <-]. simpl. repeat split; eauto.
Qed.

Lemma make_normalized (rid : option string) (name addr ph : string) (fn : option string)
    (active admin : bool) (ll : option Z) (u : User.t) :
  User.make EmailStr rid name addr ph fn active admin ll = Py.Ret u ->
  Py.lower (User.username u) = User.username u
  /\ Py.lower (User.email u) = User.email u.
Proof.
  intros H. apply make_ret in H as (_ & _ & _ & _ & _ & _ & Hn & a0 & _ & Ha).
  split; [eapply username_valid_lower|eapply email_valid_lower]; eauto.
Qed.

Lemma create_user_eq (new_id salt name addr password : string)
    (fn : option string) (admin : bool) (w : World) :
  User.create_user EmailStr BC other new_id salt name addr password fn admin w
  = User.create_user_outcome EmailStr BC new_id salt name addr password fn admin w.
Proof.
  unfold User.create_user, User.create_user_outcome.
  unfold bindM at 1. rewrite get_by_username_eq.
  destruct (User.first_match EmailStr (User.has_username _) (db w)); [reflexivity|].
  unfold bindM at 1. rewrite get_by_email_eq.
  cbn [db logged].
  destruct (User.first_match EmailStr (User.has_email _) (db w)); [reflexivity|].
  unfold bindM at 1. unfold liftM at 1.
  destruct (User.hash_password BC salt password) as [h|e]; [|reflexivity].
  unfold bindM at 1. unfold liftM at 1.
  destruct (User.make EmailStr None _ _ h fn true admin None) as [u|e] eqn:Hm;
    [|reflexivity].
  apply make_ret in Hm as (Hid & _).
  unfold User.save, bindM, get_db, put_db, retM. rewrite Hid. reflexivity.
Qed.



Lemma first_match_none (p : Db.UserRow -> bool) (d : Db.t) :
  (forall row, In row (Db.users d) -> p row = false) ->
  User.first_match EmailStr p d = None.
Proof.
  intros H. unfold User.first_match.
  destruct (List.find p (Db.users d)) as [r|] eqn:Hf; [|reflexivity].
  apply find_some in Hf as [Hr Hp]. rewrite (H r Hr) in Hp. discriminate.
Qed.

Lemma create_user_raise_keeps_db (new_id salt name addr password : string)
    (fn : option string) (admin : bool) (w : World) (e : Py.exn) :
  (User.create_user EmailStr BC other new_id salt name addr password fn admin w).1
  = Py.Raise e ->
  db (User.create_user EmailStr BC other new_id salt name addr password fn admin w).2
  = db w.
Proof.
  rewrite create_user_eq. unfold User.create_user_outcome.
  repeat (match goal with |- context [match ?x with _ => _ end] => destruct x end;
          simpl; try reflexivity; try discriminate).
Qed.


Lemma create_user_ret (new_id salt name addr password : string)
    (fn : option string) (admin : bool) (w : World) (u : User.t) :
  (User.create_user EmailStr BC other new_id salt name addr password fn admin w).1
  = Py.Ret u ->
  exists (h : string) (u0 : User.t),
    Bcrypt.hashpw BC (encode_utf8 password) salt = Py.Ret h
    /\ 6 <= Py.len password
    /\ User.make EmailStr None (Py.lower name) (Py.lower addr) h fn true admin None
       = Py.Ret u0
    /\ u = User.with_id u0 new_id
    /\ User.password_hash u = h
    /\ Db.users
         (db (User.create_user EmailStr BC other new_id salt name addr password
                fn admin w).2)
       = (Db.users (db w) ++ [User.to_row new_id u0])%list
    /\ User.first_match EmailStr (User.has_username (Py.lower name)) (db w) = None
    /\ User.first_match EmailStr (User.has_email (Py.lower addr)) (db w) = None.
Proof.
  rewrite create_user_eq. unfold User.create_user_outcome.
  destruct (User.first_match EmailStr (User.has_username _) (db w)); [discriminate|].
  destruct (User.first_match EmailStr (User.has_email _) (db w)); [discriminate|].
  destruct (User.hash_password BC salt password) as [h|] eqn:Hh; [|discriminate].
  destruct (User.make EmailStr None _ _ h fn true admin None) as [u0|] eqn:Hm;
    [|discriminate].
  simpl. intros [= <-]. exists h, u0.
  apply hash_password_ret in Hh as [Hlen Hh].
  apply make_ret in Hm as Hm'. destruct Hm' as (_ & Hph & _).
  repeat split; auto.
Qed.

End UserFacts.

Lemma valid_char_not_space (c : ascii) :
  Py.isalnum c || Py.char_in c "_-" = true -> Py.isspace c = false.
Proof.
  destruct c as [[] [] [] [] [] [] [] []]; vm_compute; intros H;
    first [reflexivity | discriminate H].
Qed.

Lemma lstrip_no_space (s : string) :
  Py.all_chars (fun c => negb (Py.isspace c)) s = true -> Py.lstrip s = s.
Proof.
  destruct s as [|c r]; simpl; [reflexivity|].
  intros H. apply andb_prop in H as [Hc _].
  destruct (Py.isspace c); [discriminate|reflexivity].
Qed.

Lemma rstrip_no_space (s : string) :
  Py.all_chars (fun c => negb (Py.isspace c)) s = true -> Py.rstrip s = s.
Proof.
  induction s as [|c r IH]; simpl; [reflexivity|].
  intros H. apply andb_prop in H as [Hc Hr].
  rewrite IH by exact Hr.
  destruct r; [|reflexivity].
  destruct (Py.isspace c); [discriminate|reflexivity].
Qed.

Lemma all_chars_impl (p q : ascii -> bool) (s : string) :
  (forall c, p c = true -> q c = true) ->
  Py.all_chars p s = true -> Py.all_chars q s = true.
Proof.
  intros Hpq. induction s as [|c r IH]; simpl; [reflexivity|].
  intros H. apply andb_prop in H as [Hc Hr].
  rewrite (Hpq c Hc), IH by exact Hr. reflexivity.
Qed.

Lemma username_valid_value (v x : string) :
  User.username_must_be_valid v = Py.Ret x -> x = Py.lower v.
Proof.
  unfold User.username_must_be_valid.
  destruct (_ || _); [discriminate|].
  destruct (_ <? _); [discriminate|].
  destruct (_ <? _); [discriminate|].
  destruct (Py.all_chars _ v) eqn:Hall; simpl; [|discriminate].
  intros [= <-]. f_equal. unfold Py.strip.
  assert (Hns : Py.all_chars (fun c => negb (Py.isspace c)) v = true).
  { eapply all_chars_impl; [|exact Hall].
    intros c Hc. simpl in Hc. rewrite (valid_char_not_space c Hc). reflexivity. }
  rewrite lstrip_no_space by exact Hns. apply rstrip_no_space. exact Hns.
Qed.




(** The check for an existing email at an address with a space in
    front. A user with the email [a@b.co] exists; a second call with
    another username and the email [ a@b.co] returns and stores a second
    user whose email is [a@b.co] too: the check looks the argument up in
    lower case as it was given, the space included, and the constructor
    then stores the address without it. *)
Lemma create_user_email_with_space :
  let create := User.create_user Reference.email_str Reference.bcrypt Reference.no_other in
  let r1 := create "user:1" Reference.salt "alice" "a@b.co" "secret123" None false
              Reference.world0 in
  let r2 := create "user:2" Reference.salt "bob" " a@b.co" "secret456" None false r1.2 in
  (exists u1, r1.1 = Py.Ret u1 /\ User.email u1 = "a@b.co")
  /\ map Db.email (Db.users (db r1.2)) = ["a@b.co"]
  /\ (exists u2, r2.1 = Py.Ret u2 /\ User.id u2 = Some "user:2"
                 /\ User.username u2 = "bob" /\ User.email u2 = "a@b.co")
  /\ map Db.user_id (Db.users (db r2.2)) = ["user:1"; "user:2"]
  /\ map Db.email (Db.users (db r2.2)) = ["a@b.co"; "a@b.co"]
  /\ (exists q, last (sent r2.2) = Some q
                /\ Db.text q = Sql.USER_BY_EMAIL
                /\ Db.vars q !! "email" = Some " a@b.co").
Proof.
  cbv zeta. split; [eexists; split; vm_compute; reflexivity|].
  split; [vm_compute; reflexivity|].
  split; [eexists; split; [vm_compute; reflexivity|]; repeat split|].
  split; [vm_compute; reflexivity|].
  split; [vm_compute; reflexivity|].
  eexists. split; [vm_compute; reflexivity|]. split; reflexivity.
Qed.

(** ** Lowercase storage and case-insensitive lookup *)

Lemma find_unique {A : Type} (key : A -> string) (l : list A) (x : A) :
  NoDup (map key l) -> x ∈ l ->
  List.find (fun y => String.eqb (key y) (key x)) l = Some x.
Proof.
  induction l as [|a l IH]; simpl; intros Hnd Hin.
  - by apply elem_of_nil in Hin.
  - apply NoDup_cons in Hnd as [Ha Hnd].
    apply elem_of_cons in Hin as [->|Hin].
    + by rewrite String.eqb_refl.
    + destruct (String.eqb_spec (key a) (key x)) as [Heq|_].
      * exfalso. apply Ha. rewrite Heq. apply (list_elem_of_fmap_2 key). exact Hin.
      * by apply IH.
Qed.

Section Lookup.
Context (EmailStr : string -> option string).
Context (BC : Bcrypt.Backend).
Context (other : Repo.Other).

Lemma get_by_username_variant (v v' : string) (w : World) :
  Py.lower v = Py.lower v' ->
  User.get_by_username EmailStr other v w = User.get_by_username EmailStr other v' w.
Proof. intros H. unfold User.get_by_username. rewrite H. reflexivity. Qed.

Lemma get_by_email_variant (v v' : string) (w : World) :
  Py.lower v = Py.lower v' ->
  User.get_by_email EmailStr other v w = User.get_by_email EmailStr other v' w.
Proof. intros H. unfold User.get_by_email. rewrite H. reflexivity. Qed.

Lemma get_by_username_finds (w : World) (row : Db.UserRow) (u : User.t) (v : string) :
  NoDup (map Db.username (Db.users (db w))) ->
  row ∈ Db.users (db w) ->
  User.of_row EmailStr row = Py.Ret u ->
  Py.lower v = Db.username row ->
  (User.get_by_username EmailStr other v w).1 = Py.Ret (Some u).
Proof.
  intros Hnd Hin Hrow Hv. rewrite get_by_username_eq. simpl.
  unfold User.first_match, User.has_username. rewrite Hv.
  rewrite (find_unique Db.username _ row Hnd Hin), Hrow. reflexivity.
Qed.

Lemma get_by_email_finds (w : World) (row : Db.UserRow) (u : User.t) (v : string) :
  NoDup (map Db.email (Db.users (db w))) ->
  row ∈ Db.users (db w) ->
  User.of_row EmailStr row = Py.Ret u ->
  Py.lower v = Db.email row ->
  (User.get_by_email EmailStr other v w).1 = Py.Ret (Some u).
Proof.
  intros Hnd Hin Hrow Hv. rewrite get_by_email_eq. simpl.
  unfold User.first_match, User.has_email. rewrite Hv.
  rewrite (find_unique Db.email _ row Hnd Hin), Hrow. reflexivity.
Qed.

Lemma save_normalized (new_id : string) (u : User.t) (w : World) :
  Py.lower (User.username u) = User.username u ->
  Py.lower (User.email u) = User.email u ->
  User.rows_normalized (db w) ->
  User.rows_normalized (db (User.save new_id u w).2).
Proof.
  intros Hn He Hw. unfold User.save, bindM, get_db, put_db, retM.
  unfold User.rows_normalized in *.
  destruct (User.id u) as [rid|]; simpl.
  - apply List.Forall_forall. intros r Hr.
    apply List.in_map_iff in Hr as (r0 & <- & Hr0).
    destruct (String.eqb (Db.user_id r0) rid); [simpl; auto|].
    rewrite List.Forall_forall in Hw. auto.
  - apply List.Forall_app. split; [exact Hw|].
    constructor; [simpl; auto|constructor].
Qed.

Lemma create_user_normalized (new_id salt name addr password : string)
    (fn : option string) (admin : bool) (w : World) :
  User.rows_normalized (db w) ->
  User.rows_normalized
    (db (User.create_user EmailStr BC other new_id salt name addr password fn admin w).2).
Proof.
  intros Hw.
  destruct (User.create_user EmailStr BC other new_id salt name addr password fn admin w).1
    as [u|e] eqn:Hr.
  - apply create_user_ret in Hr as (h & u0 & _ & _ & Hm & _ & _ & Hdb & _).
    unfold User.rows_normalized. rewrite Hdb.
    apply List.Forall_app. split; [exact Hw|].
    apply make_normalized in Hm as [Hn He].
    constructor; [simpl; auto|constructor].
  - rewrite (create_user_raise_keeps_db _ _ _ _ _ _ _ _ _ _ _ e Hr). exact Hw.
Qed.

End Lookup.

(** The lowercase rule inside the model: a [User] object built by the
    constructor has its username and email in lowercase, [create_user]
    keeps every stored row so, and [save] does for an object that is so;
    [get_by_username] and [get_by_email] send the lower-cased argument, so
    two case variants give the same lookup, and with unique usernames
    (emails) any case variant of a stored lowercase username (email) finds
    that user. *)
Lemma lowercase_and_lookup (EmailStr : string -> option string)
    (BC : Bcrypt.Backend) (other : Repo.Other) :
  (forall rid name addr ph fn active admin ll u,
      User.make EmailStr rid name addr ph fn active admin ll = Py.Ret u ->
      Py.lower (User.username u) = User.username u
      /\ Py.lower (User.email u) = User.email u)
  /\ (forall new_id salt name addr password fn admin w,
        User.rows_normalized (db w) ->
        User.rows_normalized
          (db (User.create_user EmailStr BC other new_id salt name addr password
                 fn admin w).2))
  /\ (forall new_id u w,
        Py.lower (User.username u) = User.username u ->
        Py.lower (User.email u) = User.email u ->
        User.rows_normalized (db w) ->
        User.rows_normalized (db (User.save new_id u w).2))
  /\ (forall v w,
        User.get_by_username EmailStr other v w
        = (Py.Ret (User.first_match EmailStr (User.has_username (Py.lower v)) (db w)),
           logged {| Db.text := Sql.USER_BY_USERNAME;
                     Db.vars := {[ "username" := Py.lower v ]} |} w))
  /\ (forall v w,
        User.get_by_email EmailStr other v w
        = (Py.Ret (User.first_match EmailStr (User.has_email (Py.lower v)) (db w)),
           logged {| Db.text := Sql.USER_BY_EMAIL;
                     Db.vars := {[ "email" := Py.lower v ]} |} w))
  /\ (forall v v' w,
        Py.lower v = Py.lower v' ->
        User.get_by_username EmailStr other v w = User.get_by_username EmailStr other v' w
        /\ User.get_by_email EmailStr other v w = User.get_by_email EmailStr other v' w)
  /\ (forall w row u v,
        NoDup (map Db.username (Db.users (db w))) ->
        row ∈ Db.users (db w) ->
        User.of_row EmailStr row = Py.Ret u ->
        Py.lower v = Db.username row ->
        (User.get_by_username EmailStr other v w).1 = Py.Ret (Some u))
  /\ (forall w row u v,
        NoDup (map Db.email (Db.users (db w))) ->
        row ∈ Db.users (db w) ->
        User.of_row EmailStr row = Py.Ret u ->
        Py.lower v = Db.email row ->
        (User.get_by_email EmailStr other v w).1 = Py.Ret (Some u)).
Proof.
  split; [|split; [|split; [|split; [|split; [|split; [|split]]]]]].
  - intros. eapply make_normalized; eauto.
  - intros. apply create_user_normalized. assumption.
  - intros. apply save_normalized; assumption.
  - intros. apply get_by_username_eq.
  - intros. apply get_by_email_eq.
  - intros v v' w H. split.
    + apply get_by_username_variant. exact H.
    + apply get_by_email_variant. exact H.
  - intros. eapply get_by_username_finds; eauto.
  - intros. eapply get_by_email_finds; eauto.
Qed.

(** C8: the code at the failing input. The stored user [testuser3]
    changes the email of the profile to [New@example.com]. The handler
    assigns the address as it was given and saves: the stored email has
    a capital letter, and since the lookups send their argument in
    lowercase, neither the address as stored nor any case variant of it
    finds the user. *)
Theorem C8_profile_update_stores_capitals :
  let r := AuthRouter.update_current_user Reference.email_str Reference.no_other
             (fun u => Py.Ret (User.email u)) "user:9" (Auth.WithUser user1)
             {| AuthRouter.upd_email := Some "New@example.com";
                AuthRouter.upd_full_name := None |} Reference.world1 in
  let lookup v := (User.get_by_email Reference.email_str Reference.no_other v r.2).1 in
  map Db.email (Db.users (db Reference.world1)) = ["test3@example.com"]
  /\ r.1 = Py.Ret "New@example.com"
  /\ map Db.user_id (Db.users (db r.2)) = ["user:1"]
  /\ map Db.username (Db.users (db r.2)) = ["testuser3"]
  /\ map Db.email (Db.users (db r.2)) = ["New@example.com"]
  /\ Py.lower "New@example.com" <> "New@example.com"
  /\ lookup "New@example.com" = Py.Ret None
  /\ lookup "new@example.com" = Py.Ret None
  /\ lookup "NEW@EXAMPLE.COM" = Py.Ret None
  /\ (forall v, lookup v = Py.Ret None).
Proof.
  cbv zeta.
  assert (Hall : forall v,
             (User.get_by_email Reference.email_str Reference.no_other v
                (AuthRouter.update_current_user Reference.email_str Reference.no_other
                   (fun u => Py.Ret (User.email u)) "user:9" (Auth.WithUser user1)
                   {| AuthRouter.upd_email := Some "New@example.com";
                      AuthRouter.upd_full_name := None |} Reference.world1).2).1
             = Py.Ret None).
  { intros v. rewrite get_by_email_eq. cbn [fst]. f_equal.
    apply first_match_none. intros row Hin.
    assert (Hrows : Db.users
                      (db (AuthRouter.update_current_user Reference.email_str
                             Reference.no_other (fun u => Py.Ret (User.email u)) "user:9"
                             (Auth.WithUser user1)
                             {| AuthRouter.upd_email := Some "New@example.com";
                                AuthRouter.upd_full_name := None |} Reference.world1).2)
                    = [{| Db.user_id := "user:1"; Db.username := "testuser3";
                          Db.email := "New@example.com";
                          Db.password_hash := Db.password_hash Reference.stored_user;
                          Db.full_name := None; Db.is_active := true;
                          Db.is_admin := false; Db.last_login := None |}])
      by (vm_compute; reflexivity).
    rewrite Hrows in Hin. destruct Hin as [<-|[]].
    unfold User.has_email. cbn [Db.email]. apply String.eqb_neq. intros Heq.
    assert (Hl : Py.lower "New@example.com" = "New@example.com")
      by (rewrite Heq; apply lower_idem).
    vm_compute in Hl. discriminate. }
  split; [reflexivity|]. split; [vm_compute; reflexivity|].
  split; [vm_compute; reflexivity|]. split; [vm_compute; reflexivity|].
  split; [vm_compute; reflexivity|]. split; [vm_compute; discriminate|].
  split; [apply Hall|]. split; [apply Hall|]. split; [apply Hall|]. exact Hall.
Qed.

(** ** The authentication gate *)

Lemma validate_claims_sub (c : pydict) (now : Z) (v : Py.value) :
  Jose.validate_claims c now = Py.Ret tt ->
  c !! "sub" = Some v -> exists s, v = Py.VStr s.
Proof.
  unfold Jose.validate_claims, mbind, res_bind, Py.bind. intros H Hsub.
  destruct (Jose.validate_iat c); [|discriminate].
  destruct (Jose.validate_nbf c now); [|discriminate].
  destruct (Jose.validate_exp c now); [|discriminate].
  destruct (Jose.validate_absent "aud" _ c); [|discriminate].
  unfold Jose.validate_str_claim at 1 in H. rewrite Hsub in H.
  destruct v; simpl in H; try discriminate. eauto.
Qed.

Section GateFacts.
Context (JB : Jose.Backend) (cfg : JwtAuth.Config).
Context (EmailStr : string -> option string).
Context (self : Auth.Middleware).

Lemma get_user_id_total (now : Z) (token : string) :
  exists r, JwtAuth.get_user_id_from_token JB cfg now token = Py.Ret r.
Proof.
  unfold JwtAuth.get_user_id_from_token.
  destruct (verify_token_total JB cfg now token) as [r ->]. simpl.
  destruct (JwtAuth.truthy_payload r); eauto.
Qed.

Lemma get_user_id_is_str (now : Z) (token : string) (v : Py.value) :
  JwtAuth.get_user_id_from_token JB cfg now token = Py.Ret (Some v) ->
  exists s, v = Py.VStr s.
Proof.
  unfold JwtAuth.get_user_id_from_token, JwtAuth.verify_token, Jose.decode.
  destruct (Jose.verify JB token _ _) as [c|]; simpl.
  - destruct (Jose.validate_claims c (Py.timegm now)) as [[]|e] eqn:Hv; simpl.
    + destruct (bool_decide (c = ∅)); simpl; [discriminate|].
      intros [= Hsub]. eapply validate_claims_sub; eauto.
    + destruct (Py.is_JWTError e); simpl; discriminate.
  - discriminate.
Qed.

(** [User.get] reads the store and leaves it as it is. *)
Lemma user_get_world (rid : string) (w : World) :
  (User.get EmailStr rid w).2 = w.
Proof.
  unfold User.get, bindM, get_db, liftM, retM, raiseM.
  destruct (List.find _ (Db.users (db w))) as [r|]; simpl; [|reflexivity].
  destruct (User.of_row EmailStr r); reflexivity.
Qed.

Lemma jwt_branch_active (rid : string) (u : User.t) (w : World) :
  (User.get EmailStr rid w).1 = Py.Ret (Some u) ->
  User.is_active u = true ->
  Auth.jwt_branch EmailStr (Py.VStr rid) w = (Py.Ret (Auth.Forwarded (Auth.WithUser u)), w).
Proof.
  intros Hget Hact. pose proof (user_get_world rid w) as Hw.
  unfold Auth.jwt_branch, tryM, bindM.
  destruct (User.get EmailStr rid w) as [r w']. simpl in *. subst.
  rewrite Hact. reflexivity.
Qed.

Lemma jwt_branch_otherwise (v : Py.value) (w : World) :
  (forall rid u, v = Py.VStr rid ->
                 (User.get EmailStr rid w).1 = Py.Ret (Some u) ->
                 User.is_active u = false) ->
  exists detail,
    Auth.jwt_branch EmailStr v w = (Py.Ret (Auth.JSONResponse 401 detail), w).
Proof.
  intros H. unfold Auth.jwt_branch, tryM, bindM.
  destruct v as [rid| |]; try (eexists; reflexivity).
  pose proof (user_get_world rid w) as Hw. specialize (H rid).
  destruct (User.get EmailStr rid w) as [[[u|]|e] w']; simpl in *; subst;
    try (eexists; reflexivity).
  rewrite (H u) by reflexivity. eexists; reflexivity.
Qed.

Lemma dispatch_authenticated (now : Z) (request : Auth.Request) (w : World)
    (h credentials : string) :
  Auth.path request ∉ Auth.excluded_paths self ->
  Auth.method request <> "OPTIONS" ->
  Auth.authorization request = Some h ->
  Auth.bearer_credentials h = Some credentials ->
  Auth.dispatch JB cfg EmailStr self now request w
  = match JwtAuth.get_user_id_from_token JB cfg now credentials with
    | Py.Ret (Some v) =>
        if Py.truthy v then Auth.jwt_branch EmailStr v w
        else if Auth.password_accepts self credentials
             then (Py.Ret (Auth.Forwarded Auth.NoUser), w)
             else (Py.Ret (Auth.unauthorized "Invalid credentials"), w)
    | Py.Ret None =>
        if Auth.password_accepts self credentials
        then (Py.Ret (Auth.Forwarded Auth.NoUser), w)
        else (Py.Ret (Auth.unauthorized "Invalid credentials"), w)
    | Py.Raise e => (Py.Raise e, w)
    end.
Proof.
  intros Hpath Hmeth Hauth Hcred. unfold Auth.dispatch.
  rewrite bool_decide_eq_false_2 by exact Hpath.
  destruct (String.eqb_spec (Auth.method request) "OPTIONS") as [|_]; [contradiction|].
  rewrite Hauth.
  assert (Hh : Py.truthy_str h = true).
  { destruct h; [|reflexivity]. discriminate Hcred. }
  change (default "" (Some h)) with h.
  cbn [Py.truthy_opt_str]. rewrite Hh. cbn [negb].
  rewrite Hcred. unfold bindM, liftM, Auth.password_accepts.
  destruct (JwtAuth.get_user_id_from_token JB cfg now credentials) as [[v|]|e];
    [destruct (Py.truthy v); [reflexivity|]| |reflexivity];
    destruct (Py.truthy_opt_str _ && _); reflexivity.
Qed.


Lemma password_accepts_iff (credentials : string) :
  Auth.password_accepts self credentials = true
  <-> exists p, Auth.password self = Some p /\ p <> "" /\ credentials = p.
Proof.
  unfold Auth.password_accepts. rewrite andb_true_iff, bool_decide_eq_true.
  destruct (Auth.password self) as [p|]; simpl.
  - split.
    + intros [Hp [= ->]]. exists p. repeat split. intros ->. discriminate.
    + intros (p' & [= <-] & Hne & ->). split; [|reflexivity].
      destruct p; [contradiction|reflexivity].
  - split; [intros [? _]; discriminate|intros (p & ? & _); discriminate].
Qed.

Lemma jwt_branch_cases (rid : string) (w : World) :
  (exists u, (User.get EmailStr rid w).1 = Py.Ret (Some u)
             /\ User.is_active u = true
             /\ Auth.jwt_branch EmailStr (Py.VStr rid) w
                = (Py.Ret (Auth.Forwarded (Auth.WithUser u)), w))
  \/ (exists detail,
        Auth.jwt_branch EmailStr (Py.VStr rid) w
        = (Py.Ret (Auth.JSONResponse 401 detail), w)).
Proof.
  destruct ((User.get EmailStr rid w).1) as [[u|]|e] eqn:Hget.
  - destruct (User.is_active u) eqn:Hact.
    + left. exists u. repeat split; auto. apply jwt_branch_active; assumption.
    + right. apply jwt_branch_otherwise. intros rid' u' [= <-] Hu'.
      rewrite Hget in Hu'. congruence.
  - right. apply jwt_branch_otherwise. intros rid' u' [= <-] Hu'.
    rewrite Hget in Hu'. discriminate.
  - right. apply jwt_branch_otherwise. intros rid' u' [= <-] Hu'.
    rewrite Hget in Hu'. discriminate.
Qed.

Lemma dispatch_skipped (now : Z) (request : Auth.Request) (w : World) :
  Auth.path request ∈ Auth.excluded_paths self \/ Auth.method request = "OPTIONS" ->
  Auth.dispatch JB cfg EmailStr self now request w
  = (Py.Ret (Auth.Forwarded Auth.Untouched), w).
Proof.
  intros H. unfold Auth.dispatch.
  destruct (bool_decide (Auth.path request ∈ Auth.excluded_paths self)) eqn:Hp;
    [reflexivity|].
  destruct H as [H|H].
  - apply bool_decide_eq_false in Hp. contradiction.
  - rewrite H. reflexivity.
Qed.

Lemma dispatch_bad_header (now : Z) (request : Auth.Request) (w : World) (h : string) :
  Auth.path request ∉ Auth.excluded_paths self ->
  Auth.method request <> "OPTIONS" ->
  Auth.authorization request = Some h ->
  h <> "" ->
  Auth.bearer_credentials h = None ->
  Auth.dispatch JB cfg EmailStr self now request w
  = (Py.Ret (Auth.unauthorized "Invalid authorization header format"), w).
Proof.
  intros Hpath Hmeth Hauth Hh Hcred. unfold Auth.dispatch.
  rewrite bool_decide_eq_false_2 by exact Hpath.
  destruct (String.eqb_spec (Auth.method request) "OPTIONS") as [|_]; [contradiction|].
  rewrite Hauth. change (default "" (Some h)) with h.
  destruct h; [contradiction|]. cbn [Py.truthy_opt_str Py.truthy_str negb].
  rewrite Hcred. reflexivity.
Qed.

End GateFacts.

(** C1 (amended): for a request to a path that is not excluded, with a
    method other than OPTIONS and a header [Bearer <credential>], the
    store is left as it is and token verification gives no [sub] or a
    string. A non-empty [sub] decides alone: the request goes on with that
    user in [request.state] when the user exists and is active, and is
    answered 401 otherwise, whatever the password. With no [sub], or an
    empty one, the request goes on with no user when a non-empty password
    is configured and the credential equals it, and is answered 401
    otherwise. *)
Theorem C1_bearer_gate (JB : Jose.Backend) (cfg : JwtAuth.Config)
    (EmailStr : string -> option string) (self : Auth.Middleware)
    (now : Z) (request : Auth.Request) (w : World) (h credentials : string) :
  Auth.path request ∉ Auth.excluded_paths self ->
  Auth.method request <> "OPTIONS" ->
  Auth.authorization request = Some h ->
  Auth.bearer_credentials h = Some credentials ->
  let r := Auth.dispatch JB cfg EmailStr self now request w in
  let user_id := JwtAuth.get_user_id_from_token JB cfg now credentials in
  r.2 = w
  /\ (user_id = Py.Ret None \/ exists rid, user_id = Py.Ret (Some (Py.VStr rid)))
  /\ (forall rid u,
        user_id = Py.Ret (Some (Py.VStr rid)) -> rid <> "" ->
        (User.get EmailStr rid w).1 = Py.Ret (Some u) ->
        User.is_active u = true ->
        r.1 = Py.Ret (Auth.Forwarded (Auth.WithUser u)))
  /\ (forall rid,
        user_id = Py.Ret (Some (Py.VStr rid)) -> rid <> "" ->
        (forall u, (User.get EmailStr rid w).1 = Py.Ret (Some u) ->
                   User.is_active u = false) ->
        exists detail, r.1 = Py.Ret (Auth.JSONResponse 401 detail))
  /\ (user_id = Py.Ret None \/ user_id = Py.Ret (Some (Py.VStr "")) ->
      (Auth.password_accepts self credentials = true ->
       r.1 = Py.Ret (Auth.Forwarded Auth.NoUser))
      /\ (Auth.password_accepts self credentials = false ->
          r.1 = Py.Ret (Auth.JSONResponse 401 "Invalid credentials")))
  /\ (Auth.password_accepts self credentials = true
      <-> exists p, Auth.password self = Some p /\ p <> "" /\ credentials = p).
Proof.
  intros Hpath Hmeth Hauth Hcred r user_id. subst r user_id.
  rewrite (dispatch_authenticated JB cfg EmailStr self now request w h credentials)
    by assumption.
  destruct (get_user_id_total JB cfg now credentials) as [o Ho]. rewrite Ho.
  assert (Hstr : o = None \/ exists rid, o = Some (Py.VStr rid)).
  { destruct o as [v|]; [right|left; reflexivity].
    destruct (get_user_id_is_str JB cfg now credentials v Ho) as [s ->]. eauto. }
  split; [|split; [|split; [|split; [|split]]]].
  - destruct Hstr as [->|[rid ->]].
    + destruct (Auth.password_accepts self credentials); reflexivity.
    + destruct rid as [|c rid]; simpl.
      * destruct (Auth.password_accepts self credentials); reflexivity.
      * destruct (jwt_branch_cases EmailStr (String c rid) w)
          as [(u & _ & _ & ->)|(d & ->)]; reflexivity.
  - destruct Hstr as [->|[rid ->]]; eauto.
  - intros rid u [= ->] Hrid Hget Hact.
    destruct rid as [|c rid]; [contradiction|]. simpl.
    rewrite (jwt_branch_active EmailStr (String c rid) u w Hget Hact). reflexivity.
  - intros rid [= ->] Hrid Hno.
    destruct rid as [|c rid]; [contradiction|]. simpl.
    destruct (jwt_branch_otherwise EmailStr (Py.VStr (String c rid)) w) as [d ->].
    + intros rid' u [= <-]. apply Hno.
    + eauto.
  - intros [[= ->]|[= ->]]; simpl; split; intros ->; reflexivity.
  - apply password_accepts_iff.
Qed.

Lemma C1_bearer_gate_witness :
  exists u,
    (Auth.dispatch Reference.jose Reference.jwt_config Reference.email_str
       (Reference.gate_with "secret") 1000000
       (Reference.get_notebooks_request (Reference.token_of "user:1" "testuser3"))
       Reference.world2).1
    = Py.Ret (Auth.Forwarded (Auth.WithUser u))
    /\ User.id u = Some "user:1".
Proof.
  pose proof (C1_bearer_gate Reference.jose Reference.jwt_config Reference.email_str
                (Reference.gate_with "secret") 1000000
                (Reference.get_notebooks_request (Reference.token_of "user:1" "testuser3"))
                Reference.world2
                ("Bearer " ++ Reference.token_of "user:1" "testuser3")
                (Reference.token_of "user:1" "testuser3")) as H.
  destruct H as (_ & _ & H & _).
  - apply (bool_decide_unpack _). vm_compute. exact I.
  - discriminate.
  - reflexivity.
  - vm_compute. reflexivity.
  - eexists. split.
    + apply (H "user:1").
      * vm_compute. reflexivity.
      * discriminate.
      * vm_compute. reflexivity.
      * reflexivity.
    + reflexivity.
Defined.

(** C1 (as stated) fails twice: an OPTIONS request to a path that is not
    excluded goes on although its credential is neither a token nor the
    password; and a credential equal to the configured password is
    answered 401 when it is also a token of an inactive user. *)
Lemma C1_gate_counterexample :
  ((Auth.path (Reference.get_notebooks_request "wrong")
      ∉ Auth.excluded_paths (Reference.gate_with "secret"))
   /\ JwtAuth.get_user_id_from_token Reference.jose Reference.jwt_config 1000000 "wrong"
      = Py.Ret None
   /\ (Auth.dispatch Reference.jose Reference.jwt_config Reference.email_str
         (Reference.gate_with "secret") 1000000
         {| Auth.path := "/notebooks"; Auth.method := "OPTIONS";
            Auth.authorization := Reference.bearer "wrong" |}
         Reference.world2).1
      = Py.Ret (Auth.Forwarded Auth.Untouched))
  /\ (let token := Reference.token_of "user:2" "olduser" in
      Auth.password (Reference.gate_with token) = Some token
      /\ JwtAuth.get_user_id_from_token Reference.jose Reference.jwt_config 1000000 token
         = Py.Ret (Some (Py.VStr "user:2"))
      /\ (Auth.dispatch Reference.jose Reference.jwt_config Reference.email_str
            (Reference.gate_with token) 1000000 (Reference.get_notebooks_request token)
            Reference.world2).1
         = Py.Ret (Auth.JSONResponse 401 "User account is inactive")).
Proof.
  split; [split; [|split]|split; [|split]].
  - apply (bool_decide_unpack _). vm_compute. exact I.
  - vm_compute. reflexivity.
  - vm_compute. reflexivity.
  - vm_compute. reflexivity.
  - vm_compute. reflexivity.
  - vm_compute. reflexivity.
Qed.





(** ** The notebook endpoints *)

Lemma notebook_get_eq (nid : string) (w : World) :
  Notebook.get nid w
  = (Py.Ret (match Db.notebooks (db w) !! nid with
             | Some r => Some {| Notebook.id := Some nid; Notebook.row := r |}
             | None => None
             end), w).
Proof.
  unfold Notebook.get, bindM, get_db, retM.
  destruct (Db.notebooks (db w) !! nid); reflexivity.
Qed.

Lemma source_get_eq (sid : string) (w : World) :
  Source.get sid w
  = (Py.Ret (match Db.sources (db w) !! sid with
             | Some r => Some {| Source.id := Some sid; Source.row := r |}
             | None => None
             end), w).
Proof.
  unfold Source.get, bindM, get_db, retM.
  destruct (Db.sources (db w) !! sid); reflexivity.
Qed.

Lemma check_access_eq (user_id owner : option string) (detail : string) (w : World) :
  Notebooks.check_access user_id owner detail w
  = (if Notebooks.denied user_id owner
     then Py.Raise (Py.HTTPException 403 detail) else Py.Ret tt, w).
Proof.
  unfold Notebooks.check_access, Notebooks.denied.
  destruct (Py.truthy_opt_str user_id); [|reflexivity].
  destruct (Py.truthy_opt_str owner) eqn:Ho; simpl.
  - rewrite Ho. simpl. destruct (bool_decide (owner = user_id)); reflexivity.
  - reflexivity.
Qed.

Section HandlerFacts.
Context (other : Repo.Other).

Lemma repo_query_notebook (nid : string) (w : World) :
  Repo.repo_query other Sql.NOTEBOOK_WITH_COUNTS {[ "notebook_id" := nid ]} w
  = (Py.Ret (Notebooks.notebook_rows nid (db w)), logged (Notebooks.notebook_query nid) w).
Proof.
  unfold Repo.repo_query, bindM, log_query, get_db, put_db, liftM, Notebooks.notebook_rows.
  cbn [db sent]. unfold Repo.answer. cbn [Db.text Db.vars].
  change (String.eqb Sql.NOTEBOOK_WITH_COUNTS Sql.USER_BY_USERNAME) with false.
  change (String.eqb Sql.NOTEBOOK_WITH_COUNTS Sql.USER_BY_EMAIL) with false.
  rewrite String.eqb_refl. cbn iota.
  rewrite lookup_singleton_eq.
  destruct (Db.notebooks (db w) !! nid); reflexivity.
Qed.

Lemma get_notebook_eq (st : Auth.State) (nid : string) (w : World) :
  Notebooks.get_notebook other st nid w
  = (match Db.notebooks (db w) !! nid with
     | None => Py.Raise (Py.HTTPException 404 "Notebook not found")
     | Some n =>
         if Notebooks.denied (Auth.state_user_id st) (Db.nb_user n)
         then Py.Raise (Py.HTTPException 403 "Access denied")
         else Py.Ret (Notebooks.OneNotebook
                        (Notebooks.response_of_row
                           (Db.RNotebook nid n
                              (Repo.count_in (Db.reference (db w)) nid)
                              (Repo.count_in (Db.artifact (db w)) nid))))
     end, logged (Notebooks.notebook_query nid) w).
Proof.
  unfold Notebooks.get_notebook, tryM. unfold bindM at 1.
  unfold ensure_record_id. rewrite repo_query_notebook. unfold Notebooks.notebook_rows.
  cbn [db logged].
  destruct (Db.notebooks (db w) !! nid) as [n|]; [|reflexivity].
  unfold bindM. rewrite check_access_eq. cbn [Notebooks.row_user].
  destruct (Notebooks.denied _ _); reflexivity.
Qed.


Lemma repo_query_reference_exists (nid sid : string) (w : World) :
  Repo.repo_query other Sql.REFERENCE_EXISTS (Notebooks.link_vars nid sid) w
  = (Py.Ret (map Db.REdge
               (List.filter (Repo.edge_matches sid nid) (Db.reference (db w)))),
     logged (Notebooks.reference_exists_query nid sid) w).
Proof. reflexivity. Qed.

Lemma repo_query_relate (nid sid : string) (w : World) :
  Repo.repo_query other Sql.RELATE_REFERENCE (Notebooks.link_vars nid sid) w
  = (Py.Ret [Db.REdge {| Db.edge_in := sid; Db.edge_out := nid |}],
     {| db := Db.with_reference (db w)
                (Db.reference (db w) ++ [{| Db.edge_in := sid; Db.edge_out := nid |}]);
        sent := sent w ++ [Notebooks.relate_query nid sid] |}).
Proof. reflexivity. Qed.

Lemma repo_query_delete_reference (nid sid : string) (w : World) :
  Repo.repo_query other Sql.DELETE_REFERENCE (Notebooks.link_vars nid sid) w
  = (Py.Ret [],
     {| db := Db.with_reference (db w)
                (List.filter (fun e => negb (Repo.edge_matches nid sid e))
                   (Db.reference (db w)));
        sent := sent w ++ [Notebooks.delete_reference_query nid sid] |}).
Proof. reflexivity. Qed.

Lemma delete_notebook_eq (st : Auth.State) (nid : string) (w : World) :
  Notebooks.delete_notebook st nid w
  = match Db.notebooks (db w) !! nid with
    | None => (Py.Raise (Py.HTTPException 404 "Notebook not found"), w)
    | Some n =>
        if Notebooks.denied (Auth.state_user_id st) (Db.nb_user n)
        then (Py.Raise (Py.HTTPException 403 "Access denied"), w)
        else (Py.Ret (Notebooks.Message "Notebook deleted successfully"),
              {| db := Db.with_notebooks (db w) (delete nid (Db.notebooks (db w)));
                 sent := sent w |})
    end.
Proof.
  unfold Notebooks.delete_notebook, tryM. unfold bindM at 1.
  rewrite notebook_get_eq.
  destruct (Db.notebooks (db w) !! nid) as [n|]; [|reflexivity].
  unfold bindM at 1. rewrite check_access_eq. cbn [Notebook.row].
  destruct (Notebooks.denied _ _); reflexivity.
Qed.

Lemma remove_source_eq (st : Auth.State) (nid sid : string) (w : World) :
  Notebooks.remove_source_from_notebook other st nid sid w
  = match Db.notebooks (db w) !! nid with
    | None => (Py.Raise (Py.HTTPException 404 "Notebook not found"), w)
    | Some n =>
        if Notebooks.denied (Auth.state_user_id st) (Db.nb_user n)
        then (Py.Raise (Py.HTTPException 403 "Access denied"), w)
        else (Py.Ret (Notebooks.Message "Source removed from notebook successfully"),
              {| db := Db.with_reference (db w)
                         (List.filter (fun e => negb (Repo.edge_matches nid sid e))
                            (Db.reference (db w)));
                 sent := sent w ++ [Notebooks.delete_reference_query nid sid] |})
    end.
Proof.
  unfold Notebooks.remove_source_from_notebook, tryM. unfold bindM at 1.
  rewrite notebook_get_eq.
  destruct (Db.notebooks (db w) !! nid) as [n|]; [|reflexivity].
  unfold bindM at 1. rewrite check_access_eq. cbn [Notebook.row].
  destruct (Notebooks.denied _ _); reflexivity.
Qed.

Lemma update_notebook_eq (new_id now : string) (st : Auth.State) (nid : string)
    (upd : Notebooks.NotebookUpdate) (w : World) :
  Notebooks.update_notebook other new_id now st nid upd w
  = match Db.notebooks (db w) !! nid with
    | None => (Py.Raise (Py.HTTPException 404 "Notebook not found"), w)
    | Some n =>
        if Notebooks.denied (Auth.state_user_id st) (Db.nb_user n)
        then (Py.Raise (Py.HTTPException 403 "Access denied"), w)
        else
          let n' := Notebook.touch now (Notebooks.apply_update upd n) in
          (Py.Ret (Notebooks.OneNotebook
                     (Notebooks.response_of_row
                        (Db.RNotebook nid n'
                           (Repo.count_in (Db.reference (db w)) nid)
                           (Repo.count_in (Db.artifact (db w)) nid)))),
           {| db := Db.with_notebooks (db w) (<[nid := n']> (Db.notebooks (db w)));
              sent := sent w ++ [Notebooks.notebook_query nid] |})
    end.
Proof.
  unfold Notebooks.update_notebook, tryM. unfold bindM at 1.
  rewrite notebook_get_eq.
  destruct (Db.notebooks (db w) !! nid) as [n|]; [|reflexivity].
  unfold bindM at 1. rewrite check_access_eq. cbn [Notebook.row].
  destruct (Notebooks.denied _ _); [reflexivity|].
  unfold bindM at 1.
  unfold Notebook.save, bindM at 1, get_db. cbn [Notebook.id Notebook.row default].
  unfold bindM at 1, put_db, retM. unfold bindM at 1.
  unfold ensure_record_id. rewrite repo_query_notebook.
  unfold Notebooks.notebook_rows. cbn [db logged Db.notebooks Db.with_notebooks].
  rewrite lookup_insert_eq. reflexivity.
Qed.

Lemma add_source_eq (st : Auth.State) (nid sid : string) (w : World) :
  Notebooks.add_source_to_notebook other st nid sid w
  = match Db.notebooks (db w) !! nid with
    | None => (Py.Raise (Py.HTTPException 404 "Notebook not found"), w)
    | Some n =>
        if Notebooks.denied (Auth.state_user_id st) (Db.nb_user n)
        then (Py.Raise (Py.HTTPException 403 "Access denied to notebook"), w)
        else
          match Db.sources (db w) !! sid with
          | None => (Py.Raise (Py.HTTPException 404 "Source not found"), w)
          | Some s =>
              if Notebooks.denied (Auth.state_user_id st) (Db.src_user s)
              then (Py.Raise (Py.HTTPException 403 "Access denied to source"), w)
              else
                match List.filter (Repo.edge_matches sid nid) (Db.reference (db w)) with
                | [] =>
                    (Py.Ret (Notebooks.Message "Source linked to notebook successfully"),
                     {| db := Db.with_reference (db w)
                                (Db.reference (db w)
                                   ++ [{| Db.edge_in := sid; Db.edge_out := nid |}]);
                        sent := sent w ++ [Notebooks.reference_exists_query nid sid;
                                           Notebooks.relate_query nid sid] |})
                | _ :: _ =>
                    (Py.Ret (Notebooks.Message "Source linked to notebook successfully"),
                     logged (Notebooks.reference_exists_query nid sid) w)
                end
          end
    end.
Proof.
  unfold Notebooks.add_source_to_notebook, tryM. unfold bindM at 1.
  rewrite notebook_get_eq.
  destruct (Db.notebooks (db w) !! nid) as [n|]; [|reflexivity].
  unfold bindM at 1. rewrite check_access_eq. cbn [Notebook.row].
  destruct (Notebooks.denied _ (Db.nb_user n)); [reflexivity|].
  unfold bindM at 1. rewrite source_get_eq.
  destruct (Db.sources (db w) !! sid) as [s|]; [|reflexivity].
  unfold bindM at 1. rewrite check_access_eq. cbn [Source.row].
  destruct (Notebooks.denied _ (Db.src_user s)); [reflexivity|].
  unfold bindM at 1. unfold ensure_record_id.
  fold (Notebooks.link_vars nid sid). rewrite repo_query_reference_exists.
  destruct (List.filter (Repo.edge_matches sid nid) (Db.reference (db w))) as [|e es];
    cbn [map].
  - unfold bindM at 1. unfold bindM at 1. rewrite repo_query_relate.
    unfold retM, logged. cbn [db sent]. rewrite <- app_assoc. reflexivity.
  - reflexivity.
Qed.

End HandlerFacts.

Lemma denied_iff (user_id owner : option string) :
  Notebooks.denied user_id owner = true
  <-> exists u o, user_id = Some u /\ u <> "" /\ owner = Some o /\ o <> "" /\ o <> u.
Proof.
  unfold Notebooks.denied.
  rewrite !andb_true_iff, negb_true_iff, bool_decide_eq_false.
  split.
  - intros [[Hu Ho] Hne].
    destruct user_id as [u|]; [|discriminate]. destruct owner as [o|]; [|discriminate].
    exists u, o. repeat split.
    + intros ->. discriminate.
    + intros ->. discriminate.
    + intros ->. contradiction.
  - intros (u & o & -> & Hu & -> & Ho & Hne). repeat split.
    + destruct u; [contradiction|reflexivity].
    + destruct o; [contradiction|reflexivity].
    + intros [= ->]. contradiction.
Qed.

Lemma denied_no_user (user_id owner : option string) :
  Py.truthy_opt_str user_id = false -> Notebooks.denied user_id owner = false.
Proof. intros H. unfold Notebooks.denied. rewrite H. reflexivity. Qed.

(** C2 (amended): for an existing notebook the check refuses exactly
    when a user context exists, the notebook has an owner, and the two
    differ. When it refuses, read, update, delete, link and unlink answer
    403 and leave the store as it was. When it does not refuse (as for a
    notebook without an owner), read and update return the notebook,
    delete removes it, unlink succeeds, and link answers 403 only for the
    source. With no user context the check never refuses and link never
    answers 403. *)
Theorem C2_ownership_check (other : Repo.Other) (new_id now : string)
    (st : Auth.State) (nid sid : string) (upd : Notebooks.NotebookUpdate)
    (w : World) (n : Db.NotebookRow) :
  Db.notebooks (db w) !! nid = Some n ->
  let user_id := Auth.state_user_id st in
  let r_get := Notebooks.get_notebook other st nid w in
  let r_update := Notebooks.update_notebook other new_id now st nid upd w in
  let r_delete := Notebooks.delete_notebook st nid w in
  let r_link := Notebooks.add_source_to_notebook other st nid sid w in
  let r_unlink := Notebooks.remove_source_from_notebook other st nid sid w in
  (Notebooks.denied user_id (Db.nb_user n) = true
   <-> exists u o, user_id = Some u /\ u <> "" /\ Db.nb_user n = Some o
                   /\ o <> "" /\ o <> u)
  /\ (Notebooks.denied user_id (Db.nb_user n) = true ->
      (Notebooks.forbidden r_get.1 /\ db r_get.2 = db w)
      /\ (Notebooks.forbidden r_update.1 /\ db r_update.2 = db w)
      /\ (Notebooks.forbidden r_delete.1 /\ db r_delete.2 = db w)
      /\ (Notebooks.forbidden r_link.1 /\ db r_link.2 = db w)
      /\ (Notebooks.forbidden r_unlink.1 /\ db r_unlink.2 = db w))
  /\ (Notebooks.denied user_id (Db.nb_user n) = false ->
      (exists body, r_get.1 = Py.Ret (Notebooks.OneNotebook body))
      /\ (exists body, r_update.1 = Py.Ret (Notebooks.OneNotebook body))
      /\ (r_delete.1 = Py.Ret (Notebooks.Message "Notebook deleted successfully")
          /\ Db.notebooks (db r_delete.2) !! nid = None)
      /\ (forall detail, r_link.1 = Py.Raise (Py.HTTPException 403 detail) ->
                         detail = "Access denied to source")
      /\ r_unlink.1
         = Py.Ret (Notebooks.Message "Source removed from notebook successfully"))
  /\ (Py.truthy_opt_str user_id = false ->
      Notebooks.denied user_id (Db.nb_user n) = false
      /\ ~ Notebooks.forbidden r_link.1).
Proof.
  intros Hn user_id r_get r_update r_delete r_link r_unlink.
  subst r_get r_update r_delete r_link r_unlink.
  rewrite get_notebook_eq, update_notebook_eq, delete_notebook_eq, add_source_eq,
    remove_source_eq, Hn.
  fold user_id.
  split; [apply denied_iff|]. split; [|split].
  - intros ->. unfold Notebooks.forbidden. cbn [fst snd].
    repeat split; eauto.
  - intros ->. cbn [fst snd]. split; [eauto|]. split; [eauto|].
    split; [split; [reflexivity|apply lookup_delete_eq]|]. split; [|reflexivity].
    intros detail.
    destruct (Db.sources (db w) !! sid) as [s|]; [|discriminate].
    destruct (Notebooks.denied user_id (Db.src_user s)).
    + cbn [fst]. intros [= <-]. reflexivity.
    + destruct (List.filter _ _); discriminate.
  - intros Hu. split; [apply denied_no_user; exact Hu|].
    rewrite (denied_no_user _ (Db.nb_user n) Hu).
    intros [detail H].
    destruct (Db.sources (db w) !! sid) as [s|]; [|discriminate].
    rewrite (denied_no_user _ (Db.src_user s) Hu) in H.
    destruct (List.filter _ _); discriminate.
Qed.

Lemma C2_ownership_check_witness :
  Notebooks.forbidden
    (Notebooks.delete_notebook Reference.as_user1 "notebook:2" Reference.world3).1
  /\ db (Notebooks.delete_notebook Reference.as_user1 "notebook:2" Reference.world3).2
     = db Reference.world3.
Proof.
  pose proof (C2_ownership_check Reference.no_other "notebook:9" "2025-02-02"
                Reference.as_user1 "notebook:2" "source:1" Reference.no_update
                Reference.world3 Reference.owned_notebook) as H.
  destruct H as (_ & H & _).
  - reflexivity.
  - destruct H as (_ & _ & Hdel & _).
    + reflexivity.
    + exact Hdel.
Defined.

(** C2 (as stated) fails: a notebook whose owning-user field is empty
    differs from the requesting user's id, yet that user reads it and
    deletes it. *)
Lemma C2_ownerless_notebook_open :
  Db.notebooks (db Reference.world3) !! "notebook:1" = Some Reference.shared_notebook
  /\ Auth.state_user_id Reference.as_user1 = Some "user:1"
  /\ Db.nb_user Reference.shared_notebook <> Auth.state_user_id Reference.as_user1
  /\ (exists body,
        (Notebooks.get_notebook Reference.no_other Reference.as_user1 "notebook:1"
           Reference.world3).1 = Py.Ret (Notebooks.OneNotebook body))
  /\ (Notebooks.delete_notebook Reference.as_user1 "notebook:1" Reference.world3).1
     = Py.Ret (Notebooks.Message "Notebook deleted successfully")
  /\ Db.notebooks
       (db (Notebooks.delete_notebook Reference.as_user1 "notebook:1"
              Reference.world3).2) !! "notebook:1" = None.
Proof.
  split; [reflexivity|]. split; [reflexivity|]. split; [discriminate|].
  split; [eexists; vm_compute; reflexivity|]. split; vm_compute; reflexivity.
Qed.

(** The edge that linking stores, and the two tests made on edges. *)
Lemma stored_edge_tests (nid sid : string) :
  let e := {| Db.edge_in := sid; Db.edge_out := nid |} in
  (Repo.edge_matches sid nid e = true <-> sid = nid)
  /\ Repo.edge_matches nid sid e = true
  /\ Repo.count_in [e] nid = 1.
Proof.
  unfold Repo.edge_matches, Repo.count_in. cbn.
  rewrite !String.eqb_refl. split; [|split; reflexivity].
  rewrite andb_true_iff, !String.eqb_eq. split; [intros [-> _]; reflexivity|].
  intros ->. auto.
Qed.

(** C3: the code at the failing input. Linking the same source to the
    same notebook twice, starting with no edge, sends the existence check
    and the [RELATE] both times and leaves two equal edges: the check
    tests [out = source, in = notebook], the stored edge has
    [in = source, out = notebook]. *)
Theorem C3_second_link_adds_edge :
  let e := {| Db.edge_in := "source:1"; Db.edge_out := "notebook:1" |} in
  let r1 := Notebooks.add_source_to_notebook Reference.no_other Reference.as_user1
              "notebook:1" "source:1" Reference.world3 in
  let r2 := Notebooks.add_source_to_notebook Reference.no_other Reference.as_user1
              "notebook:1" "source:1" r1.2 in
  Db.reference (db Reference.world3) = []
  /\ r1.1 = Py.Ret (Notebooks.Message "Source linked to notebook successfully")
  /\ Db.reference (db r1.2) = [e]
  /\ r2.1 = Py.Ret (Notebooks.Message "Source linked to notebook successfully")
  /\ Db.reference (db r2.2) = [e; e]
  /\ map Db.text (sent r2.2)
     = [Sql.REFERENCE_EXISTS; Sql.RELATE_REFERENCE;
        Sql.REFERENCE_EXISTS; Sql.RELATE_REFERENCE].
Proof. repeat split; vm_compute; reflexivity. Qed.

Lemma link_adds_edge (other : Repo.Other) (st : Auth.State) (nid sid : string)
    (w : World) :
  (forall e, In e (Db.reference (db w)) -> Db.edge_out e <> sid) ->
  (Notebooks.add_source_to_notebook other st nid sid w).1
  = Py.Ret (Notebooks.Message "Source linked to notebook successfully") ->
  Db.reference (db (Notebooks.add_source_to_notebook other st nid sid w).2)
  = (Db.reference (db w) ++ [{| Db.edge_in := sid; Db.edge_out := nid |}])%list.
Proof.
  intros Hout. rewrite add_source_eq.
  destruct (Db.notebooks (db w) !! nid) as [n|]; [|discriminate].
  destruct (Notebooks.denied _ (Db.nb_user n)); [discriminate|].
  destruct (Db.sources (db w) !! sid) as [s|]; [|discriminate].
  destruct (Notebooks.denied _ (Db.src_user s)); [discriminate|].
  destruct (List.filter _ _) as [|e es] eqn:Hf; [reflexivity|].
  exfalso. assert (Hin : In e (List.filter (Repo.edge_matches sid nid)
                                 (Db.reference (db w)))) by (rewrite Hf; left; reflexivity).
  apply List.filter_In in Hin as [Hin Hm].
  unfold Repo.edge_matches in Hm. apply andb_prop in Hm as [Hm _].
  apply String.eqb_eq in Hm. exact (Hout e Hin Hm).
Qed.

(** ** The statements the endpoints send *)

Local Open Scope list_scope.

Lemma repo_query_sent (other : Repo.Other) (t : string) (v : gmap string string)
    (w : World) :
  sent (Repo.repo_query other t v w).2
  = sent w ++ [{| Db.text := t; Db.vars := v |}].
Proof.
  unfold Repo.repo_query, bindM, log_query, get_db, put_db, liftM. cbn [db sent].
  destruct (Repo.answer other _ (db w)) as [r d']. reflexivity.
Qed.

Lemma get_notebooks_sent (other : Repo.Other) (st : Auth.State)
    (archived : option bool) (order_by : string) (w : World) :
  sent (Notebooks.get_notebooks other st archived order_by w).2
  = sent w ++
    [if Py.truthy_opt_str (Auth.state_user_id st)
     then {| Db.text := Sql.notebooks_of_user order_by;
             Db.vars := {[ "user_id" := default "" (Auth.state_user_id st) ]} |}
     else {| Db.text := Sql.notebooks_all order_by; Db.vars := ∅ |}].
Proof.
  unfold Notebooks.get_notebooks, tryM, bindM, ensure_record_id.
  destruct (Py.truthy_opt_str (Auth.state_user_id st)).
  - pose proof (repo_query_sent other (Sql.notebooks_of_user order_by)
                  {[ "user_id" := default "" (Auth.state_user_id st) ]} w) as H.
    destruct (Repo.repo_query other _ _ w) as [[rows|e] w']; exact H.
  - pose proof (repo_query_sent other (Sql.notebooks_all order_by) ∅ w) as H.
    destruct (Repo.repo_query other _ _ w) as [[rows|e] w']; exact H.
Qed.

(** C4 (amended): the statements sent by read, update, link and unlink
    have constant texts and carry the notebook and source ids in their
    variables; delete and create send none; the listing sends one
    statement whose text contains [order_by] as it was given, with the
    user id, when there is one, in the variables. *)
Theorem C4_statement_texts (other : Repo.Other) (new_id now : string)
    (st : Auth.State) (nid sid : string) (upd : Notebooks.NotebookUpdate)
    (create : Notebooks.NotebookCreate) (archived : option bool)
    (order_by : string) (w : World) :
  sent (Notebooks.get_notebook other st nid w).2
  = sent w ++ [{| Db.text := Sql.NOTEBOOK_WITH_COUNTS;
                  Db.vars := {[ "notebook_id" := nid ]} |}]
  /\ (exists qs,
        sent (Notebooks.update_notebook other new_id now st nid upd w).2 = sent w ++ qs
        /\ Forall (fun q => q = {| Db.text := Sql.NOTEBOOK_WITH_COUNTS;
                                   Db.vars := {[ "notebook_id" := nid ]} |}) qs)
  /\ (exists qs,
        sent (Notebooks.add_source_to_notebook other st nid sid w).2 = sent w ++ qs
        /\ Forall (fun q => (Db.text q = Sql.REFERENCE_EXISTS
                             \/ Db.text q = Sql.RELATE_REFERENCE)
                            /\ Db.vars q = <[ "source_id" := sid ]>
                                             {[ "notebook_id" := nid ]}) qs)
  /\ (exists qs,
        sent (Notebooks.remove_source_from_notebook other st nid sid w).2 = sent w ++ qs
        /\ Forall (fun q => Db.text q = Sql.DELETE_REFERENCE
                            /\ Db.vars q = <[ "source_id" := sid ]>
                                             {[ "notebook_id" := nid ]}) qs)
  /\ sent (Notebooks.delete_notebook st nid w).2 = sent w
  /\ sent (Notebooks.create_notebook new_id now st create w).2 = sent w
  /\ sent (Notebooks.get_notebooks other st archived order_by w).2
     = sent w ++
       [if Py.truthy_opt_str (Auth.state_user_id st)
        then {| Db.text := Sql.notebooks_of_user order_by;
                Db.vars := {[ "user_id" := default "" (Auth.state_user_id st) ]} |}
        else {| Db.text := Sql.notebooks_all order_by; Db.vars := ∅ |}].
Proof.
  rewrite get_notebook_eq, update_notebook_eq, add_source_eq, remove_source_eq,
    delete_notebook_eq.
  split; [reflexivity|].
  split.
  { destruct (Db.notebooks (db w) !! nid) as [n|].
    - destruct (Notebooks.denied _ _).
      + exists []. split; [symmetry; apply app_nil_r|constructor].
      + eexists. split; [reflexivity|]. repeat constructor.
    - exists []. split; [symmetry; apply app_nil_r|constructor]. }
  split.
  { destruct (Db.notebooks (db w) !! nid) as [n|];
      [|exists []; split; [symmetry; apply app_nil_r|constructor]].
    destruct (Notebooks.denied _ (Db.nb_user n));
      [exists []; split; [symmetry; apply app_nil_r|constructor]|].
    destruct (Db.sources (db w) !! sid) as [s|];
      [|exists []; split; [symmetry; apply app_nil_r|constructor]].
    destruct (Notebooks.denied _ (Db.src_user s));
      [exists []; split; [symmetry; apply app_nil_r|constructor]|].
    destruct (List.filter _ _).
    - eexists. split; [reflexivity|].
      constructor; [split; [left; reflexivity|reflexivity]|].
      constructor; [split; [right; reflexivity|reflexivity]|constructor].
    - eexists. split; [reflexivity|].
      constructor; [split; [left; reflexivity|reflexivity]|constructor]. }
  split.
  { destruct (Db.notebooks (db w) !! nid) as [n|];
      [|exists []; split; [symmetry; apply app_nil_r|constructor]].
    destruct (Notebooks.denied _ (Db.nb_user n));
      [exists []; split; [symmetry; apply app_nil_r|constructor]|].
    eexists. split; [reflexivity|].
    constructor; [split; reflexivity|constructor]. }
  split.
  { destruct (Db.notebooks (db w) !! nid) as [n|]; [|reflexivity].
    destruct (Notebooks.denied _ _); reflexivity. }
  split; [reflexivity|].
  apply get_notebooks_sent.
Qed.

(** C4 (as stated) fails: two listings that differ in [order_by] only
    send different texts, and whatever [order_by] holds is part of the
    text. *)
Lemma C4_order_by_in_text :
  let sent_texts order_by :=
    map Db.text
      (sent (Notebooks.get_notebooks Reference.no_other Reference.as_user1 None order_by
               Reference.world3).2) in
  sent_texts "updated desc" <> sent_texts "name asc"
  /\ sent_texts "name; REMOVE TABLE notebook"
     = [Sql.notebooks_of_user "name; REMOVE TABLE notebook"].
Proof. split; [vm_compute; discriminate|vm_compute; reflexivity]. Qed.

(** * Further properties *)

Local Open Scope string_scope.
Local Open Scope Z_scope.

(** ** Strings *)

Lemma lower_length (s : string) : String.length (Py.lower s) = String.length s.
Proof. induction s as [|c r IH]; simpl; [reflexivity|]. rewrite IH. reflexivity. Qed.

Lemma lower_len (s : string) : Py.len (Py.lower s) = Py.len s.
Proof. unfold Py.len. rewrite lower_length. reflexivity. Qed.

Lemma isspace_lower_char (c : ascii) : Py.isspace (Py.lower_char c) = Py.isspace c.
Proof. destruct c as [[] [] [] [] [] [] [] []]; reflexivity. Qed.

Lemma valid_char_lower (c : ascii) :
  Py.isalnum (Py.lower_char c) || Py.char_in (Py.lower_char c) "_-"
  = Py.isalnum c || Py.char_in c "_-".
Proof. destruct c as [[] [] [] [] [] [] [] []]; reflexivity. Qed.

Lemma all_chars_lower (p : ascii -> bool) (s : string) :
  (forall c, p (Py.lower_char c) = p c) ->
  Py.all_chars p (Py.lower s) = Py.all_chars p s.
Proof.
  intros Hp. induction s as [|c r IH]; simpl; [reflexivity|].
  rewrite Hp, IH. reflexivity.
Qed.

Lemma lstrip_lower (s : string) : Py.lstrip (Py.lower s) = Py.lower (Py.lstrip s).
Proof.
  induction s as [|c r IH]; simpl; [reflexivity|].
  rewrite isspace_lower_char. destruct (Py.isspace c); [exact IH|reflexivity].
Qed.

Lemma rstrip_lower (s : string) : Py.rstrip (Py.lower s) = Py.lower (Py.rstrip s).
Proof.
  induction s as [|c r IH]; simpl; [reflexivity|].
  rewrite IH, isspace_lower_char.
  destruct (Py.rstrip r); simpl; [destruct (Py.isspace c)|]; reflexivity.
Qed.

Lemma strip_lower (s : string) : Py.strip (Py.lower s) = Py.lower (Py.strip s).
Proof. unfold Py.strip. rewrite lstrip_lower, rstrip_lower. reflexivity. Qed.

Lemma lstrip_clean (s : string) : clean_front (Py.lstrip s).
Proof.
  induction s as [|c r IH]; simpl; [exact I|].
  destruct (Py.isspace c) eqn:Hc; [exact IH|exact Hc].
Qed.

Lemma lstrip_of_clean (s : string) : clean_front s -> Py.lstrip s = s.
Proof. destruct s as [|c r]; simpl; [reflexivity|]. intros ->. reflexivity. Qed.

Lemma rstrip_clean (s : string) : clean_front s -> clean_front (Py.rstrip s).
Proof.
  destruct s as [|c r]; simpl; [trivial|]. intros Hc.
  destruct (Py.rstrip r); [rewrite Hc|]; exact Hc.
Qed.

Lemma rstrip_idem (s : string) : Py.rstrip (Py.rstrip s) = Py.rstrip s.
Proof.
  induction s as [|c r IH]; simpl; [reflexivity|].
  destruct (Py.rstrip r) as [|c' r'] eqn:Hr.
  - destruct (Py.isspace c) eqn:Hc; simpl; [reflexivity|]. rewrite Hc. reflexivity.
  - change (Py.rstrip (String c (String c' r'))) with
      (match Py.rstrip (String c' r') with
       | EmptyString => if Py.isspace c then EmptyString else String c EmptyString
       | r0 => String c r0
       end).
    rewrite IH. reflexivity.
Qed.

Lemma strip_idem (s : string) : Py.strip (Py.strip s) = Py.strip s.
Proof.
  unfold Py.strip.
  rewrite (lstrip_of_clean (Py.rstrip (Py.lstrip s))).
  - apply rstrip_idem.
  - apply rstrip_clean, lstrip_clean.
Qed.

Lemma truthy_lower (s : string) : Py.truthy_str (Py.lower s) = Py.truthy_str s.
Proof. destruct s; reflexivity. Qed.

Lemma strip_no_space (s : string) :
  Py.all_chars (fun c => negb (Py.isspace c)) s = true -> Py.strip s = s.
Proof.
  intros H. unfold Py.strip. rewrite lstrip_no_space by exact H.
  apply rstrip_no_space. exact H.
Qed.

(** ** The field validators *)

Lemma name_chars_no_space (v : string) :
  Py.all_chars name_char v = true ->
  Py.all_chars (fun c => negb (Py.isspace c)) v = true.
Proof.
  apply all_chars_impl. intros c Hc. unfold name_char in Hc.
  rewrite (valid_char_not_space c Hc). reflexivity.
Qed.

(** The names the validator accepts. *)
Lemma username_accepted_spec (v x : string) :
  User.username_must_be_valid v = Py.Ret x
  <-> 3 <= Py.len v /\ Py.len v <= 50 /\ Py.all_chars name_char v = true
      /\ x = Py.lower v.
Proof.
  split.
  - intros H. pose proof (username_valid_value v x H) as Hx.
    unfold User.username_must_be_valid in H.
    destruct (_ || _); [discriminate|].
    destruct (Z.ltb_spec (Py.len v) 3); [discriminate|].
    destruct (Z.ltb_spec 50 (Py.len v)); [discriminate|].
    fold name_char in H.
    destruct (Py.all_chars name_char v) eqn:Hall; [|discriminate].
    auto.
  - intros (H3 & H50 & Hall & ->).
    unfold User.username_must_be_valid. fold name_char.
    rewrite (strip_no_space v (name_chars_no_space v Hall)).
    assert (Ht : Py.truthy_str v = true).
    { destruct v; [unfold Py.len in H3; simpl in H3; lia|reflexivity]. }
    rewrite Ht. cbn [negb orb].
    destruct (Z.ltb_spec (Py.len v) 3); [lia|].
    destruct (Z.ltb_spec 50 (Py.len v)); [lia|].
    rewrite Hall. reflexivity.
Qed.

(** X1: [username_must_be_valid] accepts a name exactly when it has 3 to
    50 characters, each a letter, a digit, an underscore or a hyphen, and
    then returns the name in lowercase: the [strip] of the last line
    removes nothing from an accepted name. *)
Theorem username_accepted_iff (v x : string) :
  User.username_must_be_valid v = Py.Ret x
  <-> 3 <= Py.len v /\ Py.len v <= 50 /\ Py.all_chars name_char v = true
      /\ x = Py.lower v.
Proof. apply username_accepted_spec. Qed.

(** On the strings of the model, where [lower] keeps the length, what
    [username_must_be_valid] returns is accepted by it again. *)
Lemma username_revalidates (v x : string) :
  User.username_must_be_valid v = Py.Ret x ->
  User.username_must_be_valid x = Py.Ret x
  /\ Py.len x = Py.len v /\ Py.lower x = x.
Proof.
  intros H. apply username_accepted_spec in H as (H3 & H50 & Hall & ->).
  split; [|split; [apply lower_len|apply lower_idem]].
  apply username_accepted_spec. rewrite lower_len, lower_idem.
  repeat split; auto.
  rewrite all_chars_lower; [exact Hall|]. intros c. apply valid_char_lower.
Qed.

Lemma email_accepted_iff (v x : string) :
  User.email_must_be_valid v = Py.Ret x
  <-> Py.strip v <> "" /\ x = Py.lower (Py.strip v).
Proof.
  unfold User.email_must_be_valid.
  destruct v as [|c r].
  - simpl. split; [discriminate|]. intros [H _]. contradiction.
  - cbn [Py.truthy_str negb orb].
    destruct (Py.strip (String c r)) as [|c' r'] eqn:Hs; cbn [Py.truthy_str negb].
    + split; [discriminate|]. intros [H _]. contradiction.
    + split.
      * intros [= <-]. split; [discriminate|reflexivity].
      * intros [_ ->]. reflexivity.
Qed.

(** The validator on its own results. *)
Lemma email_revalidates_spec (v x : string) :
  User.email_must_be_valid v = Py.Ret x ->
  User.email_must_be_valid x = Py.Ret x
  /\ Py.strip x = x /\ Py.lower x = x.
Proof.
  intros H. apply email_accepted_iff in H as [Hne ->].
  assert (Hs : Py.strip (Py.lower (Py.strip v)) = Py.lower (Py.strip v))
    by (rewrite strip_lower, strip_idem; reflexivity).
  split; [|split; [exact Hs|apply lower_idem]].
  apply email_accepted_iff. rewrite Hs, lower_idem. split; [|reflexivity].
  destruct (Py.strip v); [contradiction|discriminate].
Qed.

(** X3: what [email_must_be_valid] returns is accepted by it again and
    comes back unchanged: it has no space at either end and is in
    lowercase. *)
Theorem email_revalidates (v x : string) :
  User.email_must_be_valid v = Py.Ret x ->
  User.email_must_be_valid x = Py.Ret x
  /\ Py.strip x = x /\ Py.lower x = x.
Proof. apply email_revalidates_spec. Qed.

Lemma email_revalidates_witness :
  User.email_must_be_valid "test3@example.com" = Py.Ret "test3@example.com"
  /\ Py.strip "test3@example.com" = "test3@example.com"
  /\ Py.lower "test3@example.com" = "test3@example.com".
Proof.
  apply (email_revalidates " Test3@Example.com " "test3@example.com"). reflexivity.
Defined.

(** ** The [Authorization] header *)

Lemma split_once_two (sep : ascii) (s a b : string) :
  Py.split_once sep s = [a; b] -> s = a ++ String sep b.
Proof.
  revert a. induction s as [|c r IH]; simpl; intros a H; [discriminate|].
  destruct (Ascii.eqb_spec c sep) as [->|_].
  - injection H as <- <-. reflexivity.
  - destruct (Py.split_once sep r) as [|h t] eqn:Hr; [discriminate|].
    injection H as <- ->. rewrite (IH h eq_refl). reflexivity.
Qed.

Lemma split_once_app (sep : ascii) (a b : string) :
  Py.all_chars (fun c => negb (Ascii.eqb c sep)) a = true ->
  Py.split_once sep (a ++ String sep b) = [a; b].
Proof.
  induction a as [|c r IH]; simpl; intros H.
  - rewrite Ascii.eqb_refl. reflexivity.
  - apply andb_prop in H as [Hc Hr]. apply negb_true_iff in Hc.
    rewrite Hc, (IH Hr). reflexivity.
Qed.

Lemma lower_char_space (c : ascii) :
  Ascii.eqb (Py.lower_char c) " " = Ascii.eqb c " ".
Proof. destruct c as [[] [] [] [] [] [] [] []]; reflexivity. Qed.

(** The header forms from which a credential is read. *)
Lemma bearer_credentials_iff (h credentials : string) :
  Auth.bearer_credentials h = Some credentials
  <-> exists scheme, h = scheme ++ " " ++ credentials /\ Py.lower scheme = "bearer".
Proof.
  unfold Auth.bearer_credentials. split.
  - destruct (Py.split_once " " h) as [|a [|b [|? ?]]] eqn:Hs; try discriminate.
    destruct (String.eqb_spec (Py.lower a) "bearer") as [Ha|_]; [|discriminate].
    intros [= <-]. exists a. split; [|exact Ha].
    apply split_once_two in Hs. exact Hs.
  - intros (scheme & -> & Hl).
    change (scheme ++ " " ++ credentials) with (scheme ++ String " " credentials).
    rewrite split_once_app.
    + rewrite Hl. reflexivity.
    + rewrite <- (all_chars_lower (fun c => negb (Ascii.eqb c " "))).
      * rewrite Hl. reflexivity.
      * intros c. rewrite lower_char_space. reflexivity.
Qed.

(** ** The life of a token *)

Section TokenLife.
Context (B : Jose.Backend) (cfg : JwtAuth.Config).
Hypothesis Bsound : Jose.sound B.

(** The readings at which an issued token is valid. *)
Lemma token_window (t_exp t_iat now : Z) (user_id username token : string) :
  JwtAuth.create_access_token B cfg t_exp t_iat user_id username = Py.Ret token ->
  let expiry := Py.timegm t_exp + 3600 * JwtAuth.JWT_EXPIRATION_HOURS cfg in
  (Py.timegm now <= expiry ->
   JwtAuth.get_user_id_from_token B cfg now token = Py.Ret (Some (Py.VStr user_id))
   /\ JwtAuth.get_username_from_token B cfg now token
      = Py.Ret (Some (Py.VStr username)))
  /\ (expiry < Py.timegm now ->
      JwtAuth.verify_token B cfg now token = Py.Ret None
      /\ JwtAuth.get_user_id_from_token B cfg now token = Py.Ret None
      /\ JwtAuth.get_username_from_token B cfg now token = Py.Ret None).
Proof.
  intros Htok expiry. subst expiry.
  apply create_access_token_ret in Htok as [_ ->].
  unfold JwtAuth.get_user_id_from_token, JwtAuth.get_username_from_token,
    JwtAuth.verify_token.
  rewrite (decode_issued B cfg Bsound).
  split; intros H.
  - destruct (Z.ltb_spec (Py.timegm t_exp + 3600 * JwtAuth.JWT_EXPIRATION_HOURS cfg)
                (Py.timegm now)); [lia|].
    simpl. rewrite bool_decide_eq_false_2 by apply signed_claims_not_empty.
    unfold JwtAuth.signed_claims.
    split; by rewrite !lookup_insert_ne, lookup_insert_eq by done.
  - destruct (Z.ltb_spec (Py.timegm t_exp + 3600 * JwtAuth.JWT_EXPIRATION_HOURS cfg)
                (Py.timegm now)); [|lia].
    simpl. auto.
Qed.

(** X5: a token made by [create_access_token] gives back the user id and
    the username at every clock reading up to its expiry, which is the
    time of issue in whole seconds plus the configured hours; after that,
    [verify_token] and both getters return [None]. *)
Theorem token_validity_window (t_exp t_iat now : Z) (user_id username token : string) :
  JwtAuth.create_access_token B cfg t_exp t_iat user_id username = Py.Ret token ->
  let expiry := Py.timegm t_exp + 3600 * JwtAuth.JWT_EXPIRATION_HOURS cfg in
  (Py.timegm now <= expiry ->
   JwtAuth.get_user_id_from_token B cfg now token = Py.Ret (Some (Py.VStr user_id))
   /\ JwtAuth.get_username_from_token B cfg now token
      = Py.Ret (Some (Py.VStr username)))
  /\ (expiry < Py.timegm now ->
      JwtAuth.verify_token B cfg now token = Py.Ret None
      /\ JwtAuth.get_user_id_from_token B cfg now token = Py.Ret None
      /\ JwtAuth.get_username_from_token B cfg now token = Py.Ret None).
Proof. apply token_window. Qed.

End TokenLife.

Lemma token_validity_window_witness :
  JwtAuth.get_username_from_token Reference.jose Reference.jwt_config 1000000
    (Reference.token_of "user:1" "testuser3") = Py.Ret (Some (Py.VStr "testuser3"))
  /\ JwtAuth.get_user_id_from_token Reference.jose Reference.jwt_config
       700000000000 (Reference.token_of "user:1" "testuser3") = Py.Ret None.
Proof.
  pose proof (token_validity_window Reference.jose Reference.jwt_config
                reference_jose_sound 0 0 1000000 "user:1" "testuser3"
                (Reference.token_of "user:1" "testuser3")
                (issued_token "user:1" "testuser3")) as [H1 _].
  pose proof (token_validity_window Reference.jose Reference.jwt_config
                reference_jose_sound 0 0 700000000000 "user:1" "testuser3"
                (Reference.token_of "user:1" "testuser3")
                (issued_token "user:1" "testuser3")) as [_ H2].
  split.
  - apply H1. vm_compute. discriminate.
  - apply H2. vm_compute. reflexivity.
Defined.

(** ** Stored users *)

Lemma at_lower_char (c : ascii) :
  Ascii.eqb "@" (Py.lower_char c) = Ascii.eqb "@" c.
Proof. destruct c as [[] [] [] [] [] [] [] []]; reflexivity. Qed.

Lemma at_not_space (c : ascii) : Py.isspace c = true -> Ascii.eqb "@" c = false.
Proof.
  destruct c as [[] [] [] [] [] [] [] []]; vm_compute; intros H;
    first [reflexivity | discriminate H].
Qed.

Lemma char_in_at_lower (s : string) : Py.char_in "@" (Py.lower s) = Py.char_in "@" s.
Proof.
  induction s as [|c r IH]; cbn [Py.lower Py.char_in]; [reflexivity|].
  rewrite IH, at_lower_char. reflexivity.
Qed.

Lemma char_in_at_lstrip (s : string) : Py.char_in "@" (Py.lstrip s) = Py.char_in "@" s.
Proof.
  induction s as [|c r IH]; cbn [Py.lstrip Py.char_in]; [reflexivity|].
  destruct (Py.isspace c) eqn:Hc; [|reflexivity].
  rewrite IH, (at_not_space c Hc). reflexivity.
Qed.

Lemma char_in_at_rstrip (s : string) : Py.char_in "@" (Py.rstrip s) = Py.char_in "@" s.
Proof.
  induction s as [|c r IH]; cbn [Py.rstrip Py.char_in]; [reflexivity|].
  rewrite <- IH.
  destruct (Py.rstrip r) as [|c' r'].
  - destruct (Py.isspace c) eqn:Hc; cbn [Py.char_in].
    + rewrite (at_not_space c Hc). reflexivity.
    + reflexivity.
  - reflexivity.
Qed.

Lemma reference_email_stable : email_stable Reference.email_str.
Proof.
  intros a b. unfold Reference.email_str.
  destruct (Py.char_in "@" a) eqn:Ha; [|discriminate]. intros [= <-].
  unfold Py.strip. rewrite char_in_at_lower, char_in_at_rstrip, char_in_at_lstrip, Ha.
  reflexivity.
Qed.

Section Stored.
Context (EmailStr : string -> option string).
Context (BC : Bcrypt.Backend).
Context (other : Repo.Other).
Hypothesis Estable : email_stable EmailStr.

(** An object built by the constructor, stored and read back, is the same
    object under its id. *)
Lemma make_stored (rid0 : option string) (name addr ph : string) (fn : option string)
    (active admin : bool) (ll : option Z) (u : User.t) (rid : string) :
  User.make EmailStr rid0 name addr ph fn active admin ll = Py.Ret u ->
  User.of_row EmailStr (User.to_row rid u) = Py.Ret (User.with_id u rid).
Proof.
  intros H. apply make_ret in H as (_ & _ & _ & _ & _ & _ & Hn & a0 & Ha0 & He).
  apply username_revalidates in Hn as [Hn _].
  apply email_accepted_iff in He as He'. destruct He' as [_ Heq].
  apply email_revalidates_spec in He as [He _].
  unfold User.of_row, User.make. cbn [User.to_row Db.username Db.email Db.user_id
    Db.password_hash Db.full_name Db.is_active Db.is_admin Db.last_login].
  rewrite Hn. cbn [mbind res_bind Py.bind].
  assert (Hs : EmailStr (User.email u) = Some (User.email u)).
  { rewrite Heq. eapply Estable. exact Ha0. }
  rewrite Hs. cbn [mbind res_bind Py.bind]. rewrite He. reflexivity.
Qed.

Lemma of_row_stored (r : Db.UserRow) (u : User.t) (rid : string) :
  User.of_row EmailStr r = Py.Ret u ->
  User.of_row EmailStr (User.to_row rid u) = Py.Ret (User.with_id u rid).
Proof. apply make_stored. Qed.


Lemma find_app_last {A : Type} (p : A -> bool) (l : list A) (x : A) :
  List.find p l = None ->
  List.find p (l ++ [x]) = if p x then Some x else None.
Proof.
  induction l as [|a l IH]; simpl; [reflexivity|].
  destruct (p a); [discriminate|exact IH].
Qed.

Lemma valid_find_none (p : Db.UserRow -> bool) (d : Db.t) :
  User.rows_valid EmailStr d ->
  User.first_match EmailStr p d = None ->
  List.find p (Db.users d) = None.
Proof.
  intros Hvalid. unfold User.first_match.
  destruct (List.find p (Db.users d)) as [r|] eqn:Hf; [|reflexivity].
  apply find_some in Hf as [Hr _].
  unfold User.rows_valid in Hvalid. rewrite List.Forall_forall in Hvalid.
  destruct (Hvalid r Hr) as [u ->]. discriminate.
Qed.

Lemma create_user_keeps_valid (new_id salt name addr password : string)
    (fn : option string) (admin : bool) (w : World) :
  User.rows_valid EmailStr (db w) ->
  User.rows_valid EmailStr
    (db (User.create_user EmailStr BC other new_id salt name addr password fn admin w).2).
Proof.
  intros Hw.
  destruct (User.create_user EmailStr BC other new_id salt name addr password fn admin w).1
    as [u|e] eqn:Hr.
  - apply create_user_ret in Hr as (h & u0 & _ & _ & Hm & _ & _ & Hdb & _).
    unfold User.rows_valid. rewrite Hdb.
    apply List.Forall_app. split; [exact Hw|].
    constructor; [|constructor].
    eexists. eapply make_stored. exact Hm.
  - rewrite (create_user_raise_keeps_db _ _ _ _ _ _ _ _ _ _ _ e Hr). exact Hw.
Qed.

Lemma find_all_false {A : Type} (p : A -> bool) (l : list A) :
  (forall x, In x l -> p x = false) -> List.find p l = None.
Proof.
  induction l as [|a l IH]; simpl; intros H; [reflexivity|].
  rewrite (H a) by (left; reflexivity). apply IH. intros x Hx. apply H. right. exact Hx.
Qed.

(** X6: the user that [create_user] returns is found afterwards by
    [get_by_username] under every spelling that differs from the given
    one in letter case only, and by [get] under its new id when no row had
    that id. By [get_by_email] it is found under every spelling whose
    lowercase is the stored address, when no earlier row has that address.
    So it is found under the address that was given, in any letter case,
    when the stored address is the lowercase of the given one; when it is
    not, as for an address given with a space in front, the lookup of the
    address that was given finds nobody. Every stored row still passes
    the validators. *)
Theorem create_then_lookup (new_id salt name addr password : string)
    (fn : option string) (admin : bool) (w : World) (u : User.t) :
  User.rows_valid EmailStr (db w) ->
  (User.create_user EmailStr BC other new_id salt name addr password fn admin w).1
  = Py.Ret u ->
  let w' := (User.create_user EmailStr BC other new_id salt name addr password
               fn admin w).2 in
  User.rows_valid EmailStr (db w')
  /\ (forall v, Py.lower v = Py.lower name ->
                (User.get_by_username EmailStr other v w').1 = Py.Ret (Some u))
  /\ (forall v, Py.lower v = User.email u ->
                (forall r, In r (Db.users (db w)) -> Db.email r <> User.email u) ->
                (User.get_by_email EmailStr other v w').1 = Py.Ret (Some u))
  /\ (User.email u = Py.lower addr ->
      forall v, Py.lower v = Py.lower addr ->
                (User.get_by_email EmailStr other v w').1 = Py.Ret (Some u))
  /\ (User.email u <> Py.lower addr ->
      forall v, Py.lower v = Py.lower addr ->
                (User.get_by_email EmailStr other v w').1 = Py.Ret None)
  /\ ((forall r, In r (Db.users (db w)) -> Db.user_id r <> new_id) ->
      (User.get EmailStr new_id w').1 = Py.Ret (Some u)).
Proof.
  intros Hvalid Hr w'. subst w'.
  split; [apply create_user_keeps_valid; exact Hvalid|].
  apply create_user_ret in Hr as (h & u0 & _ & _ & Hm & -> & _ & Hdb & Hnn & Hne).
  pose proof (make_stored _ _ _ _ _ _ _ _ _ new_id Hm) as Hrow.
  apply make_ret in Hm as Hm'. destruct Hm' as (_ & _ & _ & _ & _ & _ & Hn & _).
  apply username_valid_value in Hn. rewrite lower_idem in Hn.
  cbn [User.with_id User.email].
  split; [|split; [|split; [|split]]].
  - intros v Hv. rewrite get_by_username_eq. cbn [fst].
    unfold User.first_match. rewrite Hdb, Hv.
    rewrite find_app_last by (apply valid_find_none; assumption).
    unfold User.has_username at 1. cbn [User.to_row Db.username].
    rewrite Hn, String.eqb_refl, Hrow. reflexivity.
  - intros v Hv Hnone. rewrite get_by_email_eq. cbn [fst].
    unfold User.first_match. rewrite Hdb, Hv.
    rewrite find_app_last.
    + unfold User.has_email at 1. cbn [User.to_row Db.email].
      rewrite String.eqb_refl, Hrow. reflexivity.
    + apply find_all_false. intros r Hin. unfold User.has_email.
      apply String.eqb_neq. apply Hnone. exact Hin.
  - intros Hmail v Hv. rewrite get_by_email_eq. cbn [fst].
    unfold User.first_match. rewrite Hdb, Hv.
    rewrite find_app_last by (apply valid_find_none; assumption).
    unfold User.has_email at 1. cbn [User.to_row Db.email].
    rewrite Hmail, String.eqb_refl, Hrow. reflexivity.
  - intros Hmail v Hv. rewrite get_by_email_eq. cbn [fst].
    unfold User.first_match. rewrite Hdb, Hv.
    rewrite find_app_last by (apply valid_find_none; assumption).
    unfold User.has_email at 1. cbn [User.to_row Db.email].
    destruct (String.eqb_spec (User.email u0) (Py.lower addr)) as [Heq|_];
      [contradiction|reflexivity].
  - intros Hfresh. unfold User.get, bindM, get_db, liftM, retM. rewrite Hdb.
    rewrite find_app_last.
    + cbn [User.to_row Db.user_id]. rewrite String.eqb_refl, Hrow. reflexivity.
    + destruct (List.find _ (Db.users (db w))) as [r|] eqn:Hf; [|reflexivity].
      apply find_some in Hf as [Hin Hid]. apply String.eqb_eq in Hid.
      exfalso. exact (Hfresh r Hin Hid).
Qed.


End Stored.

Lemma rows_valid_world0 : User.rows_valid Reference.email_str (db Reference.world0).
Proof. constructor. Qed.

Lemma create_then_lookup_witness :
  exists u,
    (User.create_user Reference.email_str Reference.bcrypt Reference.no_other
       "user:7" Reference.salt "TestUser3" " Test3@Example.com" "testpassword123"
       None false Reference.world0).1 = Py.Ret u
    /\ (User.get_by_username Reference.email_str Reference.no_other "TESTUSER3"
          (User.create_user Reference.email_str Reference.bcrypt Reference.no_other
             "user:7" Reference.salt "TestUser3" " Test3@Example.com" "testpassword123"
             None false Reference.world0).2).1 = Py.Ret (Some u)
    /\ (User.get_by_email Reference.email_str Reference.no_other "TEST3@example.com"
          (User.create_user Reference.email_str Reference.bcrypt Reference.no_other
             "user:7" Reference.salt "TestUser3" " Test3@Example.com" "testpassword123"
             None false Reference.world0).2).1 = Py.Ret (Some u)
    /\ (User.get_by_email Reference.email_str Reference.no_other " Test3@Example.com"
          (User.create_user Reference.email_str Reference.bcrypt Reference.no_other
             "user:7" Reference.salt "TestUser3" " Test3@Example.com" "testpassword123"
             None false Reference.world0).2).1 = Py.Ret None.
Proof.
  assert (H : exists u,
             (User.create_user Reference.email_str Reference.bcrypt Reference.no_other
                "user:7" Reference.salt "TestUser3" " Test3@Example.com"
                "testpassword123" None false Reference.world0).1 = Py.Ret u
             /\ User.email u = "test3@example.com")
    by (eexists; split; vm_compute; reflexivity).
  destruct H as (u & Hu & Hmail). exists u. split; [exact Hu|].
  destruct (create_then_lookup Reference.email_str Reference.bcrypt
              Reference.no_other reference_email_stable
              "user:7" Reference.salt "TestUser3" " Test3@Example.com"
              "testpassword123" None false Reference.world0 u
              rows_valid_world0 Hu) as (_ & Hname & Hstored & _ & Hgiven & _).
  split; [apply Hname; reflexivity|]. split.
  - apply Hstored; [rewrite Hmail; reflexivity|intros r []].
  - apply Hgiven; [rewrite Hmail; vm_compute; discriminate|reflexivity].
Defined.


(** ** Saving a stored user *)

Lemma save_existing (new_id rid : string) (u : User.t) (w : World) :
  User.id u = Some rid ->
  User.save new_id u w
  = (Py.Ret u,
     {| db := Db.with_users (db w) (replace_row rid u (Db.users (db w)));
        sent := sent w |}).
Proof.
  intros Hid. unfold User.save, bindM, get_db, put_db, retM. rewrite Hid. reflexivity.
Qed.

Lemma replace_row_in (rid : string) (u : User.t) (rows : list Db.UserRow)
    (r : Db.UserRow) :
  In r (replace_row rid u rows) ->
  (r = User.to_row rid u /\ exists r0, In r0 rows /\ Db.user_id r0 = rid)
  \/ (In r rows /\ Db.user_id r <> rid).
Proof.
  unfold replace_row. intros H. apply List.in_map_iff in H as (r0 & <- & Hr0).
  destruct (String.eqb_spec (Db.user_id r0) rid) as [Heq|Hne]; eauto.
Qed.

Lemma replace_row_length (rid : string) (u : User.t) (rows : list Db.UserRow) :
  length (replace_row rid u rows) = length rows.
Proof. apply List.length_map. Qed.

Lemma find_replace_row (rid : string) (u : User.t) (rows : list Db.UserRow)
    (r : Db.UserRow) :
  List.find (fun r => String.eqb (Db.user_id r) rid) (replace_row rid u rows) = Some r ->
  r = User.to_row rid u.
Proof.
  intros H. apply find_some in H as [Hin Hid]. apply String.eqb_eq in Hid.
  apply replace_row_in in Hin as [[-> _]|[_ Hne]]; [reflexivity|contradiction].
Qed.

(** The two outcomes of [update_password]. *)
Lemma update_password_cases (BC : Bcrypt.Backend) (new_id salt rid : string)
    (self : User.t) (new_password : string) (w : World) :
  Bcrypt.sound BC ->
  User.id self = Some rid ->
  let r := User.update_password BC new_id salt self new_password w in
  (Py.len new_password < 6 ->
   (exists msg, r.1 = Py.Raise (Py.InvalidInputError msg)) /\ r.2 = w)
  /\ (forall h,
        6 <= Py.len new_password ->
        Bcrypt.hashpw BC (encode_utf8 new_password) salt = Py.Ret h ->
        r.1 = Py.Ret (User.with_password_hash self h)
        /\ User.verify_password BC (User.with_password_hash self h) new_password
           = Py.Ret true
        /\ Db.users (db r.2)
           = replace_row rid (User.with_password_hash self h) (Db.users (db w))
        /\ length (Db.users (db r.2)) = length (Db.users (db w))
        /\ (forall row, In row (Db.users (db r.2)) ->
                        (Db.user_id row = rid /\ Db.password_hash row = h
                         /\ Db.username row = User.username self)
                        \/ (Db.user_id row <> rid /\ In row (Db.users (db w))))).
Proof.
  intros Hsound Hid r. subst r. unfold User.update_password, bindM, liftM. split.
  - intros Hlen. rewrite hash_password_short by exact Hlen. simpl. eauto.
  - intros h Hlen Hh. rewrite hash_password_long by exact Hlen. rewrite Hh.
    rewrite (save_existing new_id rid) by exact Hid. cbn [fst snd db Db.users Db.with_users].
    split; [reflexivity|]. split; [|split; [reflexivity|split]].
    + apply verify_password_true. cbn [User.with_password_hash User.password_hash].
      destruct (Hsound _ _ _ Hh) as [Hre Hascii].
      rewrite (encode_utf8_ascii h Hascii). exact Hre.
    + apply replace_row_length.
    + intros row Hin. apply replace_row_in in Hin as [[-> _]|[Hin Hne]]; auto.
Qed.

(** X8: [update_password] on a stored user. A new password of fewer than
    6 characters raises [InvalidInputError] and writes nothing. Otherwise
    the object holds the new hash and verifies the new password, and in
    the store exactly the rows with the user's id are replaced: they hold
    the new hash, every other row is as before, and no row is added or
    removed. *)
Theorem update_password_outcome (BC : Bcrypt.Backend) (new_id salt rid : string)
    (self : User.t) (new_password : string) (w : World) :
  Bcrypt.sound BC ->
  User.id self = Some rid ->
  let r := User.update_password BC new_id salt self new_password w in
  (Py.len new_password < 6 ->
   (exists msg, r.1 = Py.Raise (Py.InvalidInputError msg)) /\ r.2 = w)
  /\ (forall h,
        6 <= Py.len new_password ->
        Bcrypt.hashpw BC (encode_utf8 new_password) salt = Py.Ret h ->
        r.1 = Py.Ret (User.with_password_hash self h)
        /\ User.verify_password BC (User.with_password_hash self h) new_password
           = Py.Ret true
        /\ Db.users (db r.2)
           = replace_row rid (User.with_password_hash self h) (Db.users (db w))
        /\ length (Db.users (db r.2)) = length (Db.users (db w))
        /\ (forall row, In row (Db.users (db r.2)) ->
                        (Db.user_id row = rid /\ Db.password_hash row = h
                         /\ Db.username row = User.username self)
                        \/ (Db.user_id row <> rid /\ In row (Db.users (db w))))).
Proof. apply update_password_cases. Qed.

Lemma update_password_outcome_witness :
  User.verify_password Reference.bcrypt
    (User.with_password_hash
       (User.with_id
          {| User.id := None; User.username := "testuser5";
             User.email := "test5@example.com"; User.password_hash := "";
             User.full_name := None; User.is_active := true; User.is_admin := false;
             User.last_login := None |} "user:1")
       "$2b$12$abcdefghijklmnopqrstuv6e657770617373776f7264313233")
    "newpassword123" = Py.Ret true.
Proof.
  apply (proj2 (update_password_outcome Reference.bcrypt "user:9" Reference.salt "user:1"
                  (User.with_id
                     {| User.id := None; User.username := "testuser5";
                        User.email := "test5@example.com"; User.password_hash := "";
                        User.full_name := None; User.is_active := true;
                        User.is_admin := false; User.last_login := None |} "user:1")
                  "newpassword123" Reference.world1 reference_bcrypt_sound eq_refl)
          "$2b$12$abcdefghijklmnopqrstuv6e657770617373776f7264313233").
  - vm_compute. discriminate.
  - vm_compute. reflexivity.
Defined.

(** ** What the middleware lets through *)

Section Through.
Context (JB : Jose.Backend) (cfg : JwtAuth.Config).
Context (EmailStr : string -> option string).
Context (self : Auth.Middleware).

Lemma user_get_found (rid : string) (w : World) (u : User.t) :
  (User.get EmailStr rid w).1 = Py.Ret (Some u) ->
  exists row, In row (Db.users (db w)) /\ Db.user_id row = rid
              /\ User.of_row EmailStr row = Py.Ret u.
Proof.
  unfold User.get, bindM, get_db, liftM, retM.
  destruct (List.find _ (Db.users (db w))) as [r|] eqn:Hf; [|discriminate].
  apply find_some in Hf as [Hin Hid]. apply String.eqb_eq in Hid.
  destruct (User.of_row EmailStr r) as [u'|] eqn:Hr; simpl; [|discriminate].
  intros [= <-]. eauto.
Qed.

Lemma dispatch_no_credentials (now : Z) (request : Auth.Request) (w : World) :
  Auth.path request ∉ Auth.excluded_paths self ->
  Auth.method request <> "OPTIONS" ->
  Py.truthy_opt_str (Auth.authorization request) = false ->
  Auth.dispatch JB cfg EmailStr self now request w
  = (Py.Ret (if Py.truthy_opt_str (Auth.password self)
             then Auth.unauthorized "Missing authorization header"
             else Auth.Forwarded Auth.Untouched), w).
Proof.
  intros Hpath Hmeth Hauth. unfold Auth.dispatch.
  rewrite bool_decide_eq_false_2 by exact Hpath.
  destruct (String.eqb_spec (Auth.method request) "OPTIONS") as [|_]; [contradiction|].
  rewrite Hauth. cbn [negb].
  destruct (Py.truthy_opt_str (Auth.password self)); reflexivity.
Qed.

(** The decision for any request. It is always taken and leaves the
    store as found; an answer of the middleware's own has status 401; a
    request is handed on with a user only for a bearer token whose
    subject is the id of a stored, valid and active user, with an empty
    user context only for a bearer credential equal to the configured
    password, which is not empty, and untouched only for an excluded
    path, for OPTIONS, or when there is neither a header nor a password
    that is not empty. *)
Lemma dispatch_decision_cases (now : Z) (request : Auth.Request) (w : World) :
  let r := Auth.dispatch JB cfg EmailStr self now request w in
  r.2 = w
  /\ (exists response, r.1 = Py.Ret response)
  /\ (forall status detail, r.1 = Py.Ret (Auth.JSONResponse status detail) -> status = 401)
  /\ (forall u, r.1 = Py.Ret (Auth.Forwarded (Auth.WithUser u)) ->
        User.is_active u = true
        /\ exists h credentials rid row,
            Auth.authorization request = Some h
            /\ Auth.bearer_credentials h = Some credentials
            /\ JwtAuth.get_user_id_from_token JB cfg now credentials
               = Py.Ret (Some (Py.VStr rid))
            /\ In row (Db.users (db w)) /\ Db.user_id row = rid
            /\ User.of_row EmailStr row = Py.Ret u)
  /\ (r.1 = Py.Ret (Auth.Forwarded Auth.NoUser) ->
      exists h p, Auth.authorization request = Some h
                  /\ Auth.password self = Some p /\ p <> ""
                  /\ Auth.bearer_credentials h = Some p)
  /\ (r.1 = Py.Ret (Auth.Forwarded Auth.Untouched) ->
      Auth.path request ∈ Auth.excluded_paths self
      \/ Auth.method request = "OPTIONS"
      \/ (Py.truthy_opt_str (Auth.authorization request) = false
          /\ Py.truthy_opt_str (Auth.password self) = false)).
Proof.
  intros r. subst r.
  destruct (decide (Auth.path request ∈ Auth.excluded_paths self)) as [Hin|Hpath].
  { rewrite dispatch_skipped by (left; exact Hin). cbn [fst snd].
    repeat split; eauto; discriminate. }
  destruct (String.eqb_spec (Auth.method request) "OPTIONS") as [Hopt|Hmeth].
  { rewrite dispatch_skipped by (right; exact Hopt). cbn [fst snd].
    repeat split; eauto; discriminate. }
  assert (Hcase : Py.truthy_opt_str (Auth.authorization request) = false
                  \/ Py.truthy_opt_str (Auth.authorization request) = true)
    by (destruct (Py.truthy_opt_str (Auth.authorization request)); auto).
  destruct Hcase as [Hauth|Hauth].
  { rewrite dispatch_no_credentials by assumption. cbn [fst snd].
    destruct (Py.truthy_opt_str (Auth.password self)) eqn:Hpw.
    - split; [reflexivity|]. split; [eauto|].
      split; [intros ? ? [= <- _]; reflexivity|].
      split; [discriminate|]. split; discriminate.
    - split; [reflexivity|]. split; [eauto|]. split; [discriminate|].
      split; [discriminate|]. split; [discriminate|]. auto. }
  destruct (Auth.authorization request) as [h|] eqn:Hh; [|discriminate].
  assert (Hne : h <> "") by (intros ->; discriminate).
  destruct (Auth.bearer_credentials h) as [credentials|] eqn:Hcred.
  2:{ rewrite (dispatch_bad_header JB cfg EmailStr self now request w h) by assumption.
      cbn [fst snd]. repeat split; eauto; try discriminate.
      intros ? ? [= <- _]. reflexivity. }
  rewrite (dispatch_authenticated JB cfg EmailStr self now request w h credentials)
    by assumption.
  destruct (get_user_id_total JB cfg now credentials) as [o Ho]. rewrite Ho.
  assert (Hpass :
    let out := if Auth.password_accepts self credentials
               then (Py.Ret (Auth.Forwarded Auth.NoUser), w)
               else (Py.Ret (Auth.unauthorized "Invalid credentials"), w) in
    out.2 = w
    /\ (exists response, out.1 = Py.Ret response)
    /\ (forall status detail,
          out.1 = Py.Ret (Auth.JSONResponse status detail) -> status = 401)
    /\ (forall u, out.1 = Py.Ret (Auth.Forwarded (Auth.WithUser u)) ->
          User.is_active u = true
          /\ exists h0 credentials0 rid row,
              Some h = Some h0
              /\ Auth.bearer_credentials h0 = Some credentials0
              /\ JwtAuth.get_user_id_from_token JB cfg now credentials0
                 = Py.Ret (Some (Py.VStr rid))
              /\ In row (Db.users (db w)) /\ Db.user_id row = rid
              /\ User.of_row EmailStr row = Py.Ret u)
    /\ (out.1 = Py.Ret (Auth.Forwarded Auth.NoUser) ->
        exists h0 p, Some h = Some h0 /\ Auth.password self = Some p /\ p <> ""
                     /\ Auth.bearer_credentials h0 = Some p)
    /\ (out.1 = Py.Ret (Auth.Forwarded Auth.Untouched) ->
        Auth.path request ∈ Auth.excluded_paths self
        \/ Auth.method request = "OPTIONS"
        \/ (Py.truthy_opt_str (Some h) = false
            /\ Py.truthy_opt_str (Auth.password self) = false))).
  { destruct (Auth.password_accepts self credentials) eqn:Hacc; cbn [fst snd].
    - apply password_accepts_iff in Hacc as (p & Hp & Hpne & ->).
      split; [reflexivity|]. split; [eauto|]. split; [discriminate|].
      split; [discriminate|]. split; [|discriminate].
      intros _. exists h, p.
      split; [reflexivity|]. split; [exact Hp|]. split; [exact Hpne|exact Hcred].
    - split; [reflexivity|]. split; [eauto|].
      split; [intros ? ? [= <- _]; reflexivity|].
      split; [discriminate|]. split; discriminate. }
  destruct o as [v|]; [|exact Hpass].
  destruct (get_user_id_is_str JB cfg now credentials v Ho) as [rid ->].
  destruct rid as [|c rid]; [exact Hpass|].
  cbn [Py.truthy Py.truthy_str]. clear Hpass.
  destruct (jwt_branch_cases EmailStr (String c rid) w)
    as [(u & Hget & Hact & ->)|(d & ->)]; cbn [fst snd].
  - apply user_get_found in Hget as (row & Hin & Hid & Hrow).
    split; [reflexivity|]. split; [eauto|]. split; [discriminate|].
    split; [|split; discriminate].
    intros u' [= <-]. split; [exact Hact|].
    exists h, credentials, (String c rid), row.
    split; [reflexivity|]. split; [exact Hcred|]. split; [exact Ho|].
    split; [exact Hin|]. split; [exact Hid|exact Hrow].
  - split; [reflexivity|]. split; [eauto|].
    split; [intros ? ? [= <- _]; reflexivity|].
    split; [discriminate|]. split; discriminate.
Qed.

(** X11: once [deactivate] has run for a user, a request to a checked
    path that carries a token of that user is answered 401, even when the
    token has not expired and whatever the configured password is. *)
Theorem deactivated_user_rejected (now : Z) (request : Auth.Request) (w : World)
    (h credentials new_id rid : string) (user : User.t) :
  User.id user = Some rid -> rid <> "" ->
  Auth.path request ∉ Auth.excluded_paths self ->
  Auth.method request <> "OPTIONS" ->
  Auth.authorization request = Some h ->
  Auth.bearer_credentials h = Some credentials ->
  JwtAuth.get_user_id_from_token JB cfg now credentials = Py.Ret (Some (Py.VStr rid)) ->
  let w1 := (User.deactivate new_id user w).2 in
  exists detail,
    Auth.dispatch JB cfg EmailStr self now request w1
    = (Py.Ret (Auth.JSONResponse 401 detail), w1).
Proof.
  intros Hid Hrid Hpath Hmeth Hauth Hcred Htok w1.
  rewrite (dispatch_authenticated JB cfg EmailStr self now request w1 h credentials)
    by assumption.
  rewrite Htok. destruct rid as [|c rid]; [contradiction|].
  cbn [Py.truthy Py.truthy_str].
  apply jwt_branch_otherwise. intros rid' u [= <-] Hget.
  subst w1. unfold User.deactivate in Hget.
  rewrite (save_existing new_id (String c rid)) in Hget by exact Hid.
  unfold User.get, bindM, get_db, liftM, retM in Hget. cbn [fst snd db Db.users
    Db.with_users] in Hget.
  destruct (List.find _ (replace_row _ _ _)) as [r|] eqn:Hf; [|discriminate].
  apply find_replace_row in Hf. subst r.
  destruct (User.of_row EmailStr _) as [u'|] eqn:Hrow; simpl in Hget; [|discriminate].
  injection Hget as <-.
  unfold User.of_row in Hrow. apply make_ret in Hrow as (_ & _ & _ & Hact & _).
  exact Hact.
Qed.

End Through.

Lemma deactivated_user_rejected_witness :
  exists detail,
    Auth.dispatch Reference.jose Reference.jwt_config Reference.email_str
      (Reference.gate_with "secret") 1000000
      (Reference.get_notebooks_request (Reference.token_of "user:1" "testuser3"))
      (User.deactivate "user:9" user1 Reference.world1).2
    = (Py.Ret (Auth.JSONResponse 401 detail),
       (User.deactivate "user:9" user1 Reference.world1).2).
Proof.
  apply (deactivated_user_rejected Reference.jose Reference.jwt_config
           Reference.email_str (Reference.gate_with "secret") 1000000
           (Reference.get_notebooks_request (Reference.token_of "user:1" "testuser3"))
           Reference.world1
           ("Bearer " ++ Reference.token_of "user:1" "testuser3")
           (Reference.token_of "user:1" "testuser3") "user:9" "user:1" user1).
  - reflexivity.
  - discriminate.
  - apply (bool_decide_unpack _). vm_compute. exact I.
  - discriminate.
  - reflexivity.
  - vm_compute. reflexivity.
  - vm_compute. reflexivity.
Defined.

(** ** The middleware and the rest of the application *)

Section CallNext.
Context (JB : Jose.Backend) (cfg : JwtAuth.Config).
Context (EmailStr : string -> option string).
Context (self : Auth.Middleware).
Context {R : Type} (call_next : Auth.State -> M R).

(** The answers of the branch taken for a token with a subject. *)
Lemma jwt_branch_details (v : Py.value) (w : World) :
  (exists rid u, v = Py.VStr rid
                 /\ (User.get EmailStr rid w).1 = Py.Ret (Some u)
                 /\ User.is_active u = true
                 /\ Auth.jwt_branch EmailStr v w
                    = (Py.Ret (Auth.Forwarded (Auth.WithUser u)), w))
  \/ Auth.jwt_branch EmailStr v w
     = (Py.Ret (Auth.JSONResponse 401 "User account is inactive"), w)
  \/ Auth.jwt_branch EmailStr v w
     = (Py.Ret (Auth.JSONResponse 401 "Invalid token"), w).
Proof.
  unfold Auth.jwt_branch, tryM, bindM.
  destruct v as [rid| |]; [|right; right; reflexivity|right; right; reflexivity].
  pose proof (user_get_world EmailStr rid w) as Hw.
  destruct (User.get EmailStr rid w) as [[[u|]|e] w'] eqn:Hget; cbn [snd] in Hw; subst w'.
  - destruct (User.is_active u) eqn:Hact.
    + left. exists rid, u. rewrite Hget. auto.
    + right. left. reflexivity.
  - right. left. reflexivity.
  - right. right. reflexivity.
Qed.

(** [dispatch_call_next] is the decision of [dispatch] followed by the
    call it stands for. *)
Lemma dispatch_call_next_eq (now : Z) (request : Auth.Request) (w : World) :
  Auth.dispatch_call_next JB cfg EmailStr self call_next now request w
  = match Auth.dispatch JB cfg EmailStr self now request w with
    | (Py.Ret (Auth.Forwarded (Auth.WithUser u)), w') =>
        tryM (Auth.forward call_next (Auth.WithUser u))
          (fun _ => retM (Auth.Answered 401 "Invalid token")) w'
    | (Py.Ret (Auth.Forwarded st), w') => Auth.forward call_next st w'
    | (Py.Ret (Auth.JSONResponse status detail), w') =>
        (Py.Ret (Auth.Answered status detail), w')
    | (Py.Raise e, w') => (Py.Raise e, w')
    end.
Proof.
  unfold Auth.dispatch_call_next, Auth.dispatch.
  destruct (bool_decide _); [reflexivity|].
  destruct (String.eqb _ _); [reflexivity|].
  destruct (negb (Py.truthy_opt_str (Auth.authorization request))).
  { destruct (negb (Py.truthy_opt_str (Auth.password self))); reflexivity. }
  destruct (Auth.bearer_credentials _) as [credentials|]; [|reflexivity].
  unfold bindM at 1. unfold liftM at 1. unfold bindM at 2. unfold liftM.
  destruct (JwtAuth.get_user_id_from_token JB cfg now credentials) as [[v|]|e];
    [| |reflexivity].
  - destruct (Py.truthy v).
    + unfold Auth.jwt_branch, tryM, bindM.
      destruct v as [rid| |]; [|reflexivity|reflexivity].
      pose proof (user_get_world EmailStr rid w) as Hw.
      destruct (User.get EmailStr rid w) as [[[u|]|e] w']; cbn [snd] in Hw; subst w';
        [|reflexivity|reflexivity].
      destruct (User.is_active u); reflexivity.
    + destruct (_ && _); reflexivity.
  - destruct (_ && _); reflexivity.
Qed.


Lemma decision_forwarded (now : Z) (request : Auth.Request) (w w' : World)
    (st : Auth.State) :
  Auth.dispatch JB cfg EmailStr self now request w = (Py.Ret (Auth.Forwarded st), w') ->
  w' = w /\ forwarding_condition JB cfg EmailStr self now request w st.
Proof.
  intros H.
  destruct (dispatch_decision_cases JB cfg EmailStr self now request w)
    as (Hw & _ & _ & Huser & Hno & Hun).
  rewrite H in Hw, Huser, Hno, Hun. cbn [fst snd] in Hw, Huser, Hno, Hun.
  split; [exact Hw|].
  destruct st as [| |u]; cbn [forwarding_condition].
  - apply Hun. reflexivity.
  - apply Hno. reflexivity.
  - apply Huser. reflexivity.
Qed.

Lemma decision_answered (now : Z) (request : Auth.Request) (w w' : World)
    (status : Z) (detail : string) :
  Auth.dispatch JB cfg EmailStr self now request w
  = (Py.Ret (Auth.JSONResponse status detail), w') ->
  w' = w /\ status = 401.
Proof.
  intros H.
  destruct (dispatch_decision_cases JB cfg EmailStr self now request w)
    as (Hw & _ & H401 & _).
  rewrite H in Hw, H401. cbn [fst snd] in Hw, H401.
  split; [exact Hw|]. eapply H401. reflexivity.
Qed.

Lemma decision_returns (now : Z) (request : Auth.Request) (w : World) (e : Py.exn)
    (w' : World) :
  Auth.dispatch JB cfg EmailStr self now request w <> (Py.Raise e, w').
Proof.
  intros H.
  destruct (dispatch_decision_cases JB cfg EmailStr self now request w)
    as (_ & [response Hr] & _).
  rewrite H in Hr. discriminate.
Qed.

(** X10: what the middleware does with any request, the rest of the
    application being any function of [request.state] and the store that
    may write to the store and may raise. The response of the application
    is given back only from one call of it on the store as found, with
    [request.state] untouched (excluded path, OPTIONS, or neither a
    header nor a password that is not empty), with an empty user context
    (bearer credential equal to the configured password, which is not
    empty), or with a user (bearer token whose subject is the id of a
    stored, valid and active user). The middleware raises only what the
    application raised in the first two cases. An answer of its own has
    status 401 and leaves the store as found, except that an exception
    of the application called with a user becomes 401 [Invalid token] on
    the store the application left. *)
Theorem dispatch_call_next_outcomes (now : Z) (request : Auth.Request) (w : World) :
  let r := Auth.dispatch_call_next JB cfg EmailStr self call_next now request w in
  (forall response, r.1 = Py.Ret (Auth.FromApp response) ->
     exists st, forwarding_condition JB cfg EmailStr self now request w st
                /\ call_next st w = (Py.Ret response, r.2))
  /\ (forall e, r.1 = Py.Raise e ->
        exists st, (st = Auth.Untouched \/ st = Auth.NoUser)
                   /\ forwarding_condition JB cfg EmailStr self now request w st
                   /\ call_next st w = (Py.Raise e, r.2))
  /\ (forall status detail, r.1 = Py.Ret (Auth.Answered status detail) ->
        status = 401
        /\ (r.2 = w
            \/ (detail = "Invalid token"
                /\ exists u e,
                     forwarding_condition JB cfg EmailStr self now request w
                       (Auth.WithUser u)
                     /\ call_next (Auth.WithUser u) w = (Py.Raise e, r.2)))).
Proof.
  intros r. subst r. rewrite dispatch_call_next_eq.
  destruct (Auth.dispatch JB cfg EmailStr self now request w) as [[[st|status detail]|e] w']
    eqn:Hd.
  - apply decision_forwarded in Hd as [-> Hst].
    destruct st as [| |u]; unfold tryM, Auth.forward, bindM, retM.
    + destruct (call_next Auth.Untouched w) as [[response|e] w''] eqn:Hc; cbn [fst snd].
      * split; [|split; discriminate].
        intros ? [= <-]. exists Auth.Untouched. auto.
      * split; [discriminate|]. split; [|discriminate].
        intros ? [= <-]. exists Auth.Untouched. auto.
    + destruct (call_next Auth.NoUser w) as [[response|e] w''] eqn:Hc; cbn [fst snd].
      * split; [|split; discriminate].
        intros ? [= <-]. exists Auth.NoUser. auto.
      * split; [discriminate|]. split; [|discriminate].
        intros ? [= <-]. exists Auth.NoUser. auto.
    + destruct (call_next (Auth.WithUser u) w) as [[response|e] w''] eqn:Hc; cbn [fst snd].
      * split; [|split; discriminate].
        intros ? [= <-]. exists (Auth.WithUser u). auto.
      * split; [discriminate|]. split; [discriminate|].
        intros ? ? [= <- <-]. split; [reflexivity|]. right.
        split; [reflexivity|]. exists u, e. auto.
  - apply decision_answered in Hd as [-> ->]. cbn [fst snd].
    split; [discriminate|]. split; [discriminate|].
    intros ? ? [= <- _]. auto.
  - exfalso. exact (decision_returns _ _ _ _ _ Hd).
Qed.

(** The answers when the header holds a credential. *)
Lemma dispatch_call_next_credentials (now : Z) (request : Auth.Request) (w : World)
    (h credentials : string) :
  Auth.path request ∉ Auth.excluded_paths self ->
  Auth.method request <> "OPTIONS" ->
  Auth.authorization request = Some h ->
  Auth.bearer_credentials h = Some credentials ->
  forall status detail,
    (Auth.dispatch_call_next JB cfg EmailStr self call_next now request w).1
    = Py.Ret (Auth.Answered status detail) ->
    detail = "User account is inactive" \/ detail = "Invalid token"
    \/ detail = "Invalid credentials".
Proof.
  intros Hpath Hmeth Hauth Hcred status detail.
  rewrite dispatch_call_next_eq.
  rewrite (dispatch_authenticated JB cfg EmailStr self now request w h credentials)
    by assumption.
  assert (Hpass : forall w0,
    (match (if Auth.password_accepts self credentials
            then (Py.Ret (Auth.Forwarded Auth.NoUser), w0)
            else (Py.Ret (Auth.unauthorized "Invalid credentials"), w0)) with
     | (Py.Ret (Auth.Forwarded (Auth.WithUser u)), w') =>
         tryM (Auth.forward call_next (Auth.WithUser u))
           (fun _ => retM (Auth.Answered 401 "Invalid token")) w'
     | (Py.Ret (Auth.Forwarded st), w') => Auth.forward call_next st w'
     | (Py.Ret (Auth.JSONResponse status detail), w') =>
         (Py.Ret (Auth.Answered status detail), w')
     | (Py.Raise e, w') => (Py.Raise e, w')
     end).1 = Py.Ret (Auth.Answered status detail) ->
    detail = "User account is inactive" \/ detail = "Invalid token"
    \/ detail = "Invalid credentials").
  { intros w0. destruct (Auth.password_accepts self credentials).
    - unfold Auth.forward, bindM, retM.
      destruct (call_next Auth.NoUser w0) as [[?|?] ?]; discriminate.
    - intros [= _ <-]. auto. }
  destruct (JwtAuth.get_user_id_from_token JB cfg now credentials) as [[v|]|e];
    [|apply Hpass|discriminate].
  destruct (Py.truthy v); [|apply Hpass].
  destruct (jwt_branch_details v w) as [(rid & u & _ & _ & _ & ->)|[->| ->]].
  - unfold tryM, Auth.forward, bindM, retM.
    destruct (call_next (Auth.WithUser u) w) as [[?|?] ?]; [discriminate|].
    intros [= _ <-]. auto.
  - intros [= _ <-]. auto.
  - intros [= _ <-]. auto.
Qed.

(** X4: the [Authorization] header at the middleware, for a request that
    reaches the check (path not excluded, method other than OPTIONS). A
    credential is read from the header exactly when the header is a
    scheme, one space and the credential, where the scheme has no space
    and is [bearer] in any letter case; the credential is everything
    after the first space. The answer 401 [Invalid authorization header
    format] is given exactly for a header that is not empty and has no
    such form, and the store is then as found. An empty header is
    treated as a missing one. *)
Theorem authorization_header_format (now : Z) (request : Auth.Request) (w : World)
    (h : string) :
  Auth.path request ∉ Auth.excluded_paths self ->
  Auth.method request <> "OPTIONS" ->
  Auth.authorization request = Some h ->
  let r := Auth.dispatch_call_next JB cfg EmailStr self call_next now request w in
  (forall credentials,
     Auth.bearer_credentials h = Some credentials
     <-> exists scheme, h = scheme ++ " " ++ credentials /\ Py.lower scheme = "bearer")
  /\ (r.1 = Py.Ret (Auth.Answered 401 "Invalid authorization header format")
      <-> h <> ""
          /\ ~ (exists scheme credentials,
                  h = scheme ++ " " ++ credentials /\ Py.lower scheme = "bearer"))
  /\ (r.1 = Py.Ret (Auth.Answered 401 "Invalid authorization header format") ->
      r.2 = w)
  /\ (h = "" ->
      r = Auth.dispatch_call_next JB cfg EmailStr self call_next now
            (without_authorization request) w).
Proof.
  intros Hpath Hmeth Hauth r.
  assert (Hempty : h = "" ->
    r = Auth.dispatch_call_next JB cfg EmailStr self call_next now
          (without_authorization request) w).
  { intros ->. subst r. unfold Auth.dispatch_call_next, without_authorization.
    cbn [Auth.path Auth.method Auth.authorization]. rewrite Hauth. reflexivity. }
  assert (Hnone : Auth.bearer_credentials h = None
                  <-> ~ (exists scheme credentials,
                           h = scheme ++ " " ++ credentials
                           /\ Py.lower scheme = "bearer")).
  { split.
    - intros Hn (scheme & credentials & Hh).
      assert (Auth.bearer_credentials h = Some credentials) as Hs
        by (apply bearer_credentials_iff; eauto).
      congruence.
    - intros Hn. destruct (Auth.bearer_credentials h) as [credentials|] eqn:Hc;
        [|reflexivity].
      exfalso. apply Hn. apply bearer_credentials_iff in Hc as [scheme Hs]. eauto. }
  assert (Hbad : h <> "" -> Auth.bearer_credentials h = None ->
                 r = (Py.Ret (Auth.Answered 401 "Invalid authorization header format"), w)).
  { intros Hne Hn. subst r. rewrite dispatch_call_next_eq.
    rewrite (dispatch_bad_header JB cfg EmailStr self now request w h) by assumption.
    reflexivity. }
  assert (Hiff : r.1 = Py.Ret (Auth.Answered 401 "Invalid authorization header format")
                 <-> h <> "" /\ Auth.bearer_credentials h = None).
  { split.
    - intros Hr. split.
      + intros ->. subst r. revert Hr.
        unfold Auth.dispatch_call_next.
        rewrite bool_decide_eq_false_2 by exact Hpath.
        destruct (String.eqb_spec (Auth.method request) "OPTIONS") as [|_];
          [contradiction|].
        rewrite Hauth. cbn [Py.truthy_opt_str Py.truthy_str negb].
        destruct (negb (Py.truthy_opt_str (Auth.password self))); [|discriminate].
        unfold Auth.forward, bindM, retM.
        destruct (call_next Auth.Untouched w) as [[?|?] ?]; discriminate.
      + destruct (Auth.bearer_credentials h) as [credentials|] eqn:Hc; [|reflexivity].
        subst r.
        destruct (dispatch_call_next_credentials now request w h credentials
                    Hpath Hmeth Hauth Hc _ _ Hr) as [H|[H|H]]; discriminate.
    - intros [Hne Hn]. rewrite (Hbad Hne Hn). reflexivity. }
  split; [intros credentials; apply bearer_credentials_iff|].
  split; [rewrite Hiff, Hnone; reflexivity|].
  split; [|exact Hempty].
  intros Hr. apply Hiff in Hr as [Hne Hn]. rewrite (Hbad Hne Hn). reflexivity.
Qed.

End CallNext.

Lemma authorization_header_format_witness :
  (Auth.dispatch_call_next Reference.jose Reference.jwt_config Reference.email_str
     (Reference.gate_with "secret") (fun _ => retM tt) 1000000
     {| Auth.path := "/notebooks"; Auth.method := "GET";
        Auth.authorization := Some "Basic dXNlcjpwYXNz" |} Reference.world1).1
  = Py.Ret (Auth.Answered 401 "Invalid authorization header format").
Proof.
  apply (authorization_header_format Reference.jose Reference.jwt_config
           Reference.email_str (Reference.gate_with "secret") (fun _ => retM tt)
           1000000
           {| Auth.path := "/notebooks"; Auth.method := "GET";
              Auth.authorization := Some "Basic dXNlcjpwYXNz" |} Reference.world1
           "Basic dXNlcjpwYXNz").
  - apply (bool_decide_unpack _). vm_compute. exact I.
  - discriminate.
  - reflexivity.
  - split; [discriminate|].
    intros (scheme & credentials & Hh & Hl).
    assert (Hs : Auth.bearer_credentials "Basic dXNlcjpwYXNz" = Some credentials)
      by (apply bearer_credentials_iff; eauto).
    vm_compute in Hs. discriminate.
Defined.

(** ** The route dependency and the password step of the middleware *)

(** X12: [check_api_password] answers [True] or raises 401, never
    [False]. It answers [True] exactly when no password is configured (or
    an empty one), or the credential is one that the password step of the
    middleware accepts under the same environment. *)
Theorem check_api_password_agrees (environ : gmap string string)
    (excluded : option (list string)) (credentials : option string) :
  let r := check_api_password environ credentials in
  let self := Auth.init environ excluded in
  (r = Py.Ret true \/ exists detail, r = Py.Raise (Py.HTTPException 401 detail))
  /\ (r = Py.Ret true
      <-> Py.truthy_opt_str (Auth.password self) = false
          \/ exists c, credentials = Some c /\ Auth.password_accepts self c = true).
Proof.
  intros r self. subst r self. unfold check_api_password, Auth.password_accepts.
  cbn [Auth.init Auth.password].
  destruct (Py.truthy_opt_str (environ !! "OPEN_NOTEBOOK_PASSWORD")) eqn:Hp;
    cbn [negb].
  - destruct credentials as [c|].
    + destruct (bool_decide (Some c = environ !! "OPEN_NOTEBOOK_PASSWORD")) eqn:Hc;
        cbn [negb].
      * split; [left; reflexivity|]. split; [|reflexivity].
        intros _. right. exists c. rewrite Hc. auto.
      * split; [right; eauto|]. split; [discriminate|].
        intros [H|(c' & [= <-] & H)]; [discriminate|].
        rewrite Hc in H. discriminate.
    + split; [right; eauto|]. split; [discriminate|].
      intros [H|(c' & H & _)]; discriminate.
  - split; [left; reflexivity|]. split; auto.
Qed.

(** ** Changing the password through the endpoint *)

(** X13: [change_password]. Without a user in the request state it
    answers 401. With one, a wrong current password is answered 400; a
    right one with a new password of fewer than 6 characters is answered
    500 (the [InvalidInputError] of the model is not answered 400 here);
    in each of the three cases nothing is written. With a right current
    password and an acceptable new one the answer is the message, the
    rows with the user's id hold the new hash and no other row differs,
    and any user that holds this hash verifies the new password. *)
Theorem change_password_outcomes (BC : Bcrypt.Backend) (new_id salt : string)
    (state : Auth.State) (password_data : AuthRouter.PasswordChange) (w : World) :
  Bcrypt.sound BC ->
  let r := AuthRouter.change_password BC new_id salt state password_data w in
  let current := AuthRouter.current_password password_data in
  let new := AuthRouter.new_password password_data in
  (Auth.state_user state = None ->
   r = (Py.Raise (Py.HTTPException 401 "Not authenticated"), w))
  /\ (forall user,
        Auth.state_user state = Some user ->
        (User.verify_password BC user current <> Py.Ret true ->
         r = (Py.Raise (Py.HTTPException 400 "Current password is incorrect"), w))
        /\ (User.verify_password BC user current = Py.Ret true ->
            Py.len new < 6 ->
            r = (Py.Raise (Py.HTTPException 500 "Password change failed"), w))
        /\ (forall rid h,
              User.verify_password BC user current = Py.Ret true ->
              6 <= Py.len new ->
              Bcrypt.hashpw BC (encode_utf8 new) salt = Py.Ret h ->
              User.id user = Some rid ->
              r.1 = Py.Ret "Password changed successfully"
              /\ Db.users (db r.2)
                 = replace_row rid (User.with_password_hash user h) (Db.users (db w))
              /\ (forall row, In row (Db.users (db r.2)) ->
                              (Db.user_id row = rid /\ Db.password_hash row = h)
                              \/ (Db.user_id row <> rid /\ In row (Db.users (db w))))
              /\ (forall u, User.password_hash u = h ->
                            User.verify_password BC u new = Py.Ret true))).
Proof.
  intros Hsound r current new. subst r current new.
  unfold AuthRouter.change_password. split.
  - intros ->. reflexivity.
  - intros user ->. unfold tryM, bindM, liftM.
    destruct (verify_password_total BC user (AuthRouter.current_password password_data))
      as [b Hb]. rewrite Hb.
    split; [|split].
    + intros Hne. destruct b; [contradiction|]. reflexivity.
    + intros [= ->] Hlen. cbn [negb].
      unfold User.update_password, bindM, liftM.
      rewrite hash_password_short by exact Hlen. reflexivity.
    + intros rid h [= ->] Hlen Hh Hid. cbn [negb].
      destruct (update_password_cases BC new_id salt rid user
                  (AuthRouter.new_password password_data) w Hsound Hid) as [_ Hok].
      destruct (Hok h Hlen Hh) as (Hret & _ & Hrows & _ & Hall).
      destruct (User.update_password BC new_id salt user
                  (AuthRouter.new_password password_data) w) as [[u'|e] w'] eqn:Hu;
        cbn [fst snd] in *; [|discriminate].
      split; [reflexivity|]. split; [exact Hrows|]. split.
      * intros row Hin. destruct (Hall row Hin) as [(H1 & H2 & _)|H]; auto.
      * intros u Hu'. apply verify_password_true.
        destruct (Hsound _ _ _ Hh) as [Hre Hascii].
        rewrite Hu', (encode_utf8_ascii h Hascii). exact Hre.
Qed.

Lemma change_password_outcomes_witness :
  (AuthRouter.change_password Reference.bcrypt "user:9" Reference.salt
     (Auth.WithUser user1)
     {| AuthRouter.current_password := "testpassword123";
        AuthRouter.new_password := "newpassword123" |} Reference.world1).1
  = Py.Ret "Password changed successfully".
Proof.
  pose proof (change_password_outcomes Reference.bcrypt "user:9" Reference.salt
                (Auth.WithUser user1)
                {| AuthRouter.current_password := "testpassword123";
                   AuthRouter.new_password := "newpassword123" |}
                Reference.world1 reference_bcrypt_sound) as [_ H].
  destruct (H user1 eq_refl) as (_ & _ & H3).
  apply (H3 "user:1" "$2b$12$abcdefghijklmnopqrstuv6e657770617373776f7264313233").
  - vm_compute. reflexivity.
  - vm_compute. discriminate.
  - vm_compute. reflexivity.
  - reflexivity.
Defined.

(** ** Logging in *)

Lemma find_replace_row_some (rid : string) (u : User.t) (rows : list Db.UserRow) :
  (exists r0, In r0 rows /\ Db.user_id r0 = rid) ->
  List.find (fun r => String.eqb (Db.user_id r) rid) (replace_row rid u rows)
  = Some (User.to_row rid u).
Proof.
  intros (r0 & Hin & Hid).
  destruct (List.find _ (replace_row rid u rows)) as [r|] eqn:Hf.
  - apply find_replace_row in Hf. subst r. reflexivity.
  - exfalso.
    assert (Hin' : In (User.to_row rid u) (replace_row rid u rows)).
    { unfold replace_row. apply List.in_map_iff. exists r0. split; [|exact Hin].
      rewrite Hid, String.eqb_refl. reflexivity. }
    pose proof (find_none _ _ Hf _ Hin') as H. cbn [User.to_row Db.user_id] in H.
    rewrite String.eqb_refl in H. discriminate.
Qed.

Lemma with_id_same (u : User.t) (rid : string) :
  User.id u = Some rid -> User.with_id u rid = u.
Proof. destruct u. cbn. intros ->. reflexivity. Qed.

Section Login.
Context (JB : Jose.Backend) (cfg : JwtAuth.Config).
Context (EmailStr : string -> option string).
Context (BC : Bcrypt.Backend).
Context (other : Repo.Other).
Context {UserResponse : Type} (user_response : User.t -> Py.res UserResponse).
Context (no_id_token : string -> Py.res string).

Lemma first_match_row (p : Db.UserRow -> bool) (d : Db.t) (u : User.t) :
  User.first_match EmailStr p d = Some u ->
  exists r, In r (Db.users d) /\ p r = true /\ User.of_row EmailStr r = Py.Ret u
            /\ User.id u = Some (Db.user_id r).
Proof.
  unfold User.first_match.
  destruct (List.find p (Db.users d)) as [r|] eqn:Hf; [|discriminate].
  apply find_some in Hf as [Hin Hp].
  destruct (User.of_row EmailStr r) as [u'|] eqn:Hr; [|discriminate].
  intros [= <-]. exists r. repeat split; auto.
  unfold User.of_row in Hr. apply make_ret in Hr as [Hid _]. exact Hid.
Qed.

Lemma login_match_row (name : string) (d : Db.t) (u : User.t) :
  AuthRouter.login_match EmailStr name d = Some u ->
  exists r, In r (Db.users d) /\ User.of_row EmailStr r = Py.Ret u
            /\ User.id u = Some (Db.user_id r)
            /\ (Db.username r = Py.lower name \/ Db.email r = Py.lower name).
Proof.
  unfold AuthRouter.login_match.
  destruct (User.first_match EmailStr (User.has_username _) d) as [u1|] eqn:H1.
  - intros [= <-]. apply first_match_row in H1 as (r & Hin & Hp & Hr & Hid).
    exists r. repeat split; auto. left. apply String.eqb_eq. exact Hp.
  - intros H2. apply first_match_row in H2 as (r & Hin & Hp & Hr & Hid).
    exists r. repeat split; auto. right. apply String.eqb_eq. exact Hp.
Qed.

(** The end of both handlers, for an object that has an id. *)
Lemma issue_eq (new_id : string) (t_exp t_iat now : Z) (user : User.t) (rid : string)
    (w : World) :
  User.id user = Some rid ->
  AuthRouter.issue JB cfg user_response no_id_token new_id t_exp t_iat now user w
  = match JwtAuth.create_access_token JB cfg t_exp t_iat rid (User.username user) with
    | Py.Raise e => (Py.Raise e, w)
    | Py.Ret token =>
        let user' := User.with_last_login user now in
        let w' := {| db := Db.with_users (db w) (replace_row rid user' (Db.users (db w)));
                     sent := sent w |} in
        match user_response user' with
        | Py.Raise e => (Py.Raise e, w')
        | Py.Ret response =>
            (Py.Ret {| AuthRouter.access_token := token;
                       AuthRouter.token_type := "bearer";
                       AuthRouter.user := response |}, w')
        end
    end.
Proof.
  intros Hid. unfold AuthRouter.issue, AuthRouter.token_for. rewrite Hid.
  unfold bindM at 1. unfold liftM at 1.
  destruct (JwtAuth.create_access_token JB cfg t_exp t_iat rid (User.username user))
    as [token|e]; [|reflexivity].
  unfold bindM at 1. unfold User.update_last_login.
  rewrite (save_existing new_id rid) by exact Hid.
  unfold bindM, liftM, retM.
  destruct (user_response (User.with_last_login user now)); reflexivity.
Qed.

Lemma login_user_eq (new_id : string) (t_exp t_iat now : Z)
    (credentials : AuthRouter.UserLogin) (w : World) :
  let name := AuthRouter.login_username credentials in
  let w1 := logged (User.username_query name) w in
  AuthRouter.login_user JB cfg EmailStr BC other user_response no_id_token
    new_id t_exp t_iat now credentials w
  = tryM
      (fun w2 =>
         match AuthRouter.login_match EmailStr name (db w) with
         | None => (Py.Raise (Py.HTTPException 401 "Invalid username or password"), w2)
         | Some user =>
             match User.verify_password BC user (AuthRouter.login_password credentials)
             with
             | Py.Ret true =>
                 if User.is_active user then
                   AuthRouter.issue JB cfg user_response no_id_token
                     new_id t_exp t_iat now user w2
                 else (Py.Raise (Py.HTTPException 401 "User account is inactive"), w2)
             | _ => (Py.Raise (Py.HTTPException 401 "Invalid username or password"), w2)
             end
         end)
      (AuthRouter.reraise_or_failed "Login failed")
      (match User.first_match EmailStr (User.has_username (Py.lower name)) (db w) with
       | Some _ => w1
       | None => logged (User.email_query name) w1
       end).
Proof.
  intros name w1. subst name w1.
  unfold AuthRouter.login_user, AuthRouter.login_match, tryM.
  unfold bindM at 1. rewrite get_by_username_eq.
  destruct (User.first_match EmailStr (User.has_username _) (db w)) as [u|] eqn:H1.
  - unfold bindM at 1. unfold retM at 1. unfold bindM at 1. unfold liftM at 1.
    destruct (verify_password_total BC u (AuthRouter.login_password credentials))
      as [b ->].
    destruct b; cbn [negb]; [|reflexivity].
    destruct (User.is_active u); reflexivity.
  - unfold bindM at 1. rewrite get_by_email_eq. cbn [db logged].
    destruct (User.first_match EmailStr (User.has_email _) (db w)) as [u|] eqn:H2;
      [|reflexivity].
    unfold bindM at 1. unfold liftM at 1.
    destruct (verify_password_total BC u (AuthRouter.login_password credentials))
      as [b ->].
    destruct b; cbn [negb]; [|reflexivity].
    destruct (User.is_active u); reflexivity.
Qed.

Lemma reraise_or_failed_is_http {A : Type} (detail : string) (e : Py.exn) (w : World) :
  exists status d,
    AuthRouter.reraise_or_failed (A := A) detail e w
    = (Py.Raise (Py.HTTPException status d), w).
Proof.
  unfold AuthRouter.reraise_or_failed. destruct e; cbn; eauto.
Qed.

(** The outcomes of [login_user]. *)
Lemma login_cases (new_id : string) (t_exp t_iat now : Z)
    (credentials : AuthRouter.UserLogin) (w : World) :
  let r := AuthRouter.login_user JB cfg EmailStr BC other user_response no_id_token
             new_id t_exp t_iat now credentials w in
  let found := AuthRouter.login_match EmailStr
                 (AuthRouter.login_username credentials) (db w) in
  let password := AuthRouter.login_password credentials in
  let refused := Py.Raise (Py.HTTPException 401 "Invalid username or password") in
  (forall e, r.1 = Py.Raise e -> exists status detail, e = Py.HTTPException status detail)
  /\ (found = None -> r.1 = refused /\ db r.2 = db w)
  /\ (forall u, found = Some u ->
                User.verify_password BC u password <> Py.Ret true ->
                r.1 = refused /\ db r.2 = db w)
  /\ (forall u, found = Some u ->
                User.verify_password BC u password = Py.Ret true ->
                User.is_active u = false ->
                r.1 = Py.Raise (Py.HTTPException 401 "User account is inactive")
                /\ db r.2 = db w)
  /\ (forall response, r.1 = Py.Ret response ->
        exists u rid,
          found = Some u
          /\ User.verify_password BC u password = Py.Ret true
          /\ User.is_active u = true
          /\ User.id u = Some rid
          /\ (exists row, In row (Db.users (db w)) /\ Db.user_id row = rid
                          /\ User.of_row EmailStr row = Py.Ret u)
          /\ JwtAuth.create_access_token JB cfg t_exp t_iat rid (User.username u)
             = Py.Ret (AuthRouter.access_token response)
          /\ AuthRouter.token_type response = "bearer"
          /\ user_response (User.with_last_login u now)
             = Py.Ret (AuthRouter.user response)
          /\ Db.users (db r.2)
             = replace_row rid (User.with_last_login u now) (Db.users (db w))).
Proof.
  intros r found password refused. subst r found password refused.
  rewrite login_user_eq. cbv zeta.
  set (w0 := match User.first_match EmailStr _ (db w) with
             | Some _ => _ | None => _ end).
  assert (Hdb : db w0 = db w) by (subst w0; destruct (User.first_match _ _ _); reflexivity).
  clearbody w0. unfold tryM.
  destruct (AuthRouter.login_match EmailStr (AuthRouter.login_username credentials)
              (db w)) as [u|] eqn:Hfound.
  2:{ cbn. split; [intros e [= <-]; eauto|]. split; [auto|].
      split; [discriminate|]. split; discriminate. }
  apply login_match_row in Hfound as Hrow.
  destruct Hrow as (row & Hin & Hrow & Hid & _).
  destruct (verify_password_total BC u (AuthRouter.login_password credentials))
    as [b Hb]. rewrite Hb.
  destruct b.
  2:{ cbn. split; [intros e [= <-]; eauto|]. split; [discriminate|].
      split; [auto|]. split; [|discriminate].
      intros u' [= <-] H. congruence. }
  destruct (User.is_active u) eqn:Hact.
  2:{ cbn. split; [intros e [= <-]; eauto|]. split; [discriminate|].
      split; [intros u' [= <-] H; contradiction|]. split; [|discriminate].
      intros u' [= <-] _ _. auto. }
  rewrite (issue_eq new_id t_exp t_iat now u (Db.user_id row) w0 Hid).
  destruct (JwtAuth.create_access_token JB cfg t_exp t_iat (Db.user_id row)
              (User.username u)) as [token|e0] eqn:Htok.
  2:{ destruct (reraise_or_failed_is_http (A := AuthRouter.TokenResponse UserResponse)
                  "Login failed" e0 w0) as (st & d & ->). cbn [fst snd].
      split; [intros e [= <-]; eauto|]. split; [discriminate|].
      split; [intros u' [= <-] H; contradiction|]. split; [|discriminate].
      intros u' [= <-] _ H. rewrite Hact in H. discriminate. }
  cbv zeta.
  destruct (user_response (User.with_last_login u now)) as [resp|e0] eqn:Hresp.
  2:{ match goal with |- context [AuthRouter.reraise_or_failed ?d ?e ?w'] =>
        destruct (reraise_or_failed_is_http (A := AuthRouter.TokenResponse UserResponse)
                    d e w') as (st & d' & ->) end.
      cbn [fst snd].
      split; [intros e [= <-]; eauto|]. split; [discriminate|].
      split; [intros u' [= <-] H; contradiction|]. split; [|discriminate].
      intros u' [= <-] _ H. rewrite Hact in H. discriminate. }
  cbn [fst snd db Db.users Db.with_users].
  split; [discriminate|]. split; [discriminate|].
  split; [intros u' [= <-] H; contradiction|].
  split; [intros u' [= <-] _ H; rewrite Hact in H; discriminate|].
  intros response [= <-]. exists u, (Db.user_id row).
  cbn [AuthRouter.access_token AuthRouter.token_type AuthRouter.user].
  rewrite Hdb.
  split; [reflexivity|]. split; [exact Hb|]. split; [exact Hact|].
  split; [exact Hid|]. split; [eauto|]. split; [exact Htok|].
  split; [reflexivity|]. split; [exact Hresp|reflexivity].
Qed.

(** X14: [login_user]. The text given as username is looked up as a
    username and, when that finds nothing, as an email, in lowercase.
    An unknown name and a wrong password get the same answer, 401 with
    the same detail, and an inactive account with the right password gets
    401; in these cases nothing is written. Whatever is raised is an
    [HTTPException]. A response is returned only for a stored, active
    user whose password verifies: its token is the one
    [create_access_token] makes for the id and username of that user, and
    the rows with that id then hold the time of the login. *)
Theorem login_outcomes (new_id : string) (t_exp t_iat now : Z)
    (credentials : AuthRouter.UserLogin) (w : World) :
  let r := AuthRouter.login_user JB cfg EmailStr BC other user_response no_id_token
             new_id t_exp t_iat now credentials w in
  let found := AuthRouter.login_match EmailStr
                 (AuthRouter.login_username credentials) (db w) in
  let password := AuthRouter.login_password credentials in
  let refused := Py.Raise (Py.HTTPException 401 "Invalid username or password") in
  (forall e, r.1 = Py.Raise e -> exists status detail, e = Py.HTTPException status detail)
  /\ (found = None -> r.1 = refused /\ db r.2 = db w)
  /\ (forall u, found = Some u ->
                User.verify_password BC u password <> Py.Ret true ->
                r.1 = refused /\ db r.2 = db w)
  /\ (forall u, found = Some u ->
                User.verify_password BC u password = Py.Ret true ->
                User.is_active u = false ->
                r.1 = Py.Raise (Py.HTTPException 401 "User account is inactive")
                /\ db r.2 = db w)
  /\ (forall response, r.1 = Py.Ret response ->
        exists u rid,
          found = Some u
          /\ User.verify_password BC u password = Py.Ret true
          /\ User.is_active u = true
          /\ User.id u = Some rid
          /\ (exists row, In row (Db.users (db w)) /\ Db.user_id row = rid
                          /\ User.of_row EmailStr row = Py.Ret u)
          /\ JwtAuth.create_access_token JB cfg t_exp t_iat rid (User.username u)
             = Py.Ret (AuthRouter.access_token response)
          /\ AuthRouter.token_type response = "bearer"
          /\ user_response (User.with_last_login u now)
             = Py.Ret (AuthRouter.user response)
          /\ Db.users (db r.2)
             = replace_row rid (User.with_last_login u now) (Db.users (db w))).
Proof. apply login_cases. Qed.

End Login.

(** ** From the login to the middleware *)

Lemma bearer_header (token : string) :
  Auth.bearer_credentials ("Bearer " ++ token) = Some token.
Proof. apply bearer_credentials_iff. exists "Bearer". split; reflexivity. Qed.

Section Accepted.
Context (JB : Jose.Backend) (cfg : JwtAuth.Config).
Context (EmailStr : string -> option string).
Context (BC : Bcrypt.Backend).
Context (other : Repo.Other).
Context {UserResponse : Type} (user_response : User.t -> Py.res UserResponse).
Context (no_id_token : string -> Py.res string).
Context (self : Auth.Middleware).
Hypothesis Jsound : Jose.sound JB.
Hypothesis Estable : email_stable EmailStr.

(** An object with the username and email of a validated one is read
    back from its row as it is. *)
Lemma to_row_valid (rid0 : option string) (name addr ph : string) (fn : option string)
    (active admin : bool) (ll : option Z) (u0 u : User.t) (rid : string) :
  User.make EmailStr rid0 name addr ph fn active admin ll = Py.Ret u0 ->
  User.username u = User.username u0 ->
  User.email u = User.email u0 ->
  User.of_row EmailStr (User.to_row rid u) = Py.Ret (User.with_id u rid).
Proof.
  intros H Hname Hmail.
  apply make_ret in H as (_ & _ & _ & _ & _ & _ & Hn & a0 & Ha0 & He).
  apply username_revalidates in Hn as [Hn _].
  apply email_accepted_iff in He as He'. destruct He' as [_ Heq].
  apply email_revalidates_spec in He as [He _].
  unfold User.of_row, User.make. cbn [User.to_row Db.username Db.email Db.user_id
    Db.password_hash Db.full_name Db.is_active Db.is_admin Db.last_login].
  rewrite Hname, Hn. cbn [mbind res_bind Py.bind].
  assert (Hs : EmailStr (User.email u0) = Some (User.email u0)).
  { rewrite Heq. eapply Estable. exact Ha0. }
  rewrite Hmail, Hs. cbn [mbind res_bind Py.bind]. rewrite He.
  cbn [mbind res_bind Py.bind]. unfold User.with_id. rewrite Hname, Hmail. reflexivity.
Qed.

(** The middleware on a token of a user whose rows hold the object. *)
Lemma token_accepted (t_exp t_iat later : Z) (u : User.t) (rid token name : string)
    (request : Auth.Request) (w : World) :
  JwtAuth.create_access_token JB cfg t_exp t_iat rid name = Py.Ret token ->
  Py.timegm later <= Py.timegm t_exp + 3600 * JwtAuth.JWT_EXPIRATION_HOURS cfg ->
  rid <> "" ->
  User.id u = Some rid ->
  User.is_active u = true ->
  List.find (fun r => String.eqb (Db.user_id r) rid) (Db.users (db w))
  = Some (User.to_row rid u) ->
  User.of_row EmailStr (User.to_row rid u) = Py.Ret (User.with_id u rid) ->
  Auth.path request ∉ Auth.excluded_paths self ->
  Auth.method request <> "OPTIONS" ->
  Auth.authorization request = Some ("Bearer " ++ token) ->
  Auth.dispatch JB cfg EmailStr self later request w
  = (Py.Ret (Auth.Forwarded (Auth.WithUser u)), w).
Proof.
  intros Htok Hlater Hrid Hid Hact Hfind Hrow Hpath Hmeth Hauth.
  rewrite (dispatch_authenticated JB cfg EmailStr self later request w
             ("Bearer " ++ token) token Hpath Hmeth Hauth (bearer_header token)).
  destruct (token_window JB cfg Jsound t_exp t_iat later rid name token Htok)
    as [Hvalid _].
  destruct (Hvalid Hlater) as [-> _].
  destruct rid as [|c rid]; [contradiction|]. cbn [Py.truthy Py.truthy_str].
  apply jwt_branch_active; [|exact Hact].
  unfold User.get, bindM, get_db, liftM, retM. rewrite Hfind, Hrow.
  rewrite (with_id_same u _ Hid). reflexivity.
Qed.

(** X15: the token of a successful login is accepted by the middleware.
    A request to a checked path that carries it as bearer credential, at
    any time up to the expiry of the token, is passed on with the user
    that logged in, as the login left it in the store. *)
Theorem login_token_accepted (new_id : string) (t_exp t_iat now later : Z)
    (credentials : AuthRouter.UserLogin) (w : World)
    (response : AuthRouter.TokenResponse UserResponse) (request : Auth.Request) :
  let r := AuthRouter.login_user JB cfg EmailStr BC other user_response no_id_token
             new_id t_exp t_iat now credentials w in
  r.1 = Py.Ret response ->
  (forall row, In row (Db.users (db w)) -> Db.user_id row <> "") ->
  Auth.path request ∉ Auth.excluded_paths self ->
  Auth.method request <> "OPTIONS" ->
  Auth.authorization request = Some ("Bearer " ++ AuthRouter.access_token response) ->
  Py.timegm later <= Py.timegm t_exp + 3600 * JwtAuth.JWT_EXPIRATION_HOURS cfg ->
  exists u,
    AuthRouter.login_match EmailStr (AuthRouter.login_username credentials) (db w)
    = Some u
    /\ Auth.dispatch JB cfg EmailStr self later request r.2
       = (Py.Ret (Auth.Forwarded (Auth.WithUser (User.with_last_login u now))), r.2)
    /\ user_response (User.with_last_login u now) = Py.Ret (AuthRouter.user response).
Proof.
  intros r Hret Hids Hpath Hmeth Hauth Hlater.
  destruct (login_cases JB cfg EmailStr BC other user_response no_id_token
              new_id t_exp t_iat now credentials w) as (_ & _ & _ & _ & Hok).
  destruct (Hok response Hret)
    as (u & rid & Hfound & _ & Hact & Hid & (row & Hin & Hrid & Hrow) & Htok & _
        & Hresp & Husers).
  exists u. split; [exact Hfound|]. split; [|exact Hresp].
  fold r in Husers.
  apply (token_accepted t_exp t_iat later (User.with_last_login u now) rid
           (AuthRouter.access_token response) (User.username u) request r.2 Htok Hlater).
  - rewrite <- Hrid. apply Hids. exact Hin.
  - exact Hid.
  - exact Hact.
  - rewrite Husers. apply find_replace_row_some. eauto.
  - unfold User.of_row in Hrow.
    eapply to_row_valid; [exact Hrow|reflexivity|reflexivity].
  - exact Hpath.
  - exact Hmeth.
  - exact Hauth.
Qed.

End Accepted.

Lemma login_token_accepted_witness :
  exists u,
    AuthRouter.login_match Reference.email_str "TestUser3" (db Reference.world1) = Some u
    /\ Auth.dispatch Reference.jose Reference.jwt_config Reference.email_str
         (Reference.gate_with "secret") 1000000
         (Reference.get_notebooks_request (Reference.token_of "user:1" "testuser3"))
         (AuthRouter.login_user Reference.jose Reference.jwt_config Reference.email_str
            Reference.bcrypt Reference.no_other (fun u => Py.Ret (User.username u))
            (fun _ => Py.Raise (Py.TypeError "no id")) "user:9" 0 0 5
            {| AuthRouter.login_username := "TestUser3";
               AuthRouter.login_password := "testpassword123" |} Reference.world1).2
       = (Py.Ret (Auth.Forwarded (Auth.WithUser (User.with_last_login u 5))),
          (AuthRouter.login_user Reference.jose Reference.jwt_config Reference.email_str
             Reference.bcrypt Reference.no_other (fun u => Py.Ret (User.username u))
             (fun _ => Py.Raise (Py.TypeError "no id")) "user:9" 0 0 5
             {| AuthRouter.login_username := "TestUser3";
                AuthRouter.login_password := "testpassword123" |} Reference.world1).2)
    /\ Py.Ret (User.username (User.with_last_login u 5)) = Py.Ret "testuser3".
Proof.
  apply (login_token_accepted Reference.jose Reference.jwt_config Reference.email_str
           Reference.bcrypt Reference.no_other (fun u => Py.Ret (User.username u))
           (fun _ => Py.Raise (Py.TypeError "no id")) (Reference.gate_with "secret")
           reference_jose_sound reference_email_stable "user:9" 0 0 5 1000000
           {| AuthRouter.login_username := "TestUser3";
              AuthRouter.login_password := "testpassword123" |} Reference.world1
           {| AuthRouter.access_token := Reference.token_of "user:1" "testuser3";
              AuthRouter.token_type := "bearer"; AuthRouter.user := "testuser3" |}
           (Reference.get_notebooks_request (Reference.token_of "user:1" "testuser3"))).
  - vm_compute. reflexivity.
  - intros row [<-|[]]. discriminate.
  - apply (bool_decide_unpack _). vm_compute. exact I.
  - discriminate.
  - reflexivity.
  - vm_compute. discriminate.
Defined.

(** ** Registering *)

Section Register.
Context (JB : Jose.Backend) (cfg : JwtAuth.Config).
Context (EmailStr : string -> option string).
Context (BC : Bcrypt.Backend).
Context (other : Repo.Other).
Context {UserResponse : Type} (user_response : User.t -> Py.res UserResponse).
Context (no_id_token : string -> Py.res string).

Lemma register_user_eq (new_id salt : string) (t_exp t_iat now : Z)
    (user_data : AuthRouter.UserRegister) (w : World) :
  AuthRouter.register_user JB cfg EmailStr BC other user_response no_id_token
    new_id salt t_exp t_iat now user_data w
  = AuthRouter.register_outcome JB cfg EmailStr BC user_response no_id_token new_id salt t_exp t_iat now user_data w.
Proof.
  unfold AuthRouter.register_user, AuthRouter.register_outcome, tryM, bindM.
  rewrite create_user_eq.
  destruct (User.create_user_outcome _ _ _ _ _ _ _ _ _ w) as [[u|e] w1]; reflexivity.
Qed.

(** The outcomes of [register_user]. *)
Lemma register_cases (new_id salt : string) (t_exp t_iat now : Z)
    (user_data : AuthRouter.UserRegister) (w : World) :
  let r := AuthRouter.register_user JB cfg EmailStr BC other user_response no_id_token
             new_id salt t_exp t_iat now user_data w in
  let name := AuthRouter.reg_username user_data in
  let addr := AuthRouter.reg_email user_data in
  let password := AuthRouter.reg_password user_data in
  let name_taken := User.first_match EmailStr (User.has_username (Py.lower name)) (db w) in
  let addr_taken := User.first_match EmailStr (User.has_email (Py.lower addr)) (db w) in
  (forall e, r.1 = Py.Raise e ->
             exists status detail,
               e = Py.HTTPException status detail /\ (status = 400 \/ status = 500))
  /\ (is_Some name_taken ->
      r.1 = Py.Raise (Py.HTTPException 400 ("Username '" ++ name ++ "' already exists"))
      /\ db r.2 = db w)
  /\ (name_taken = None -> is_Some addr_taken ->
      r.1 = Py.Raise (Py.HTTPException 400 ("Email '" ++ addr ++ "' already exists"))
      /\ db r.2 = db w)
  /\ (name_taken = None -> addr_taken = None -> Py.len password < 6 ->
      r.1 = Py.Raise (Py.HTTPException 400 "Password must be at least 6 characters")
      /\ db r.2 = db w)
  /\ (forall response, r.1 = Py.Ret response ->
        exists u0 h,
          name_taken = None /\ addr_taken = None
          /\ Bcrypt.hashpw BC (encode_utf8 password) salt = Py.Ret h
          /\ User.make EmailStr None (Py.lower name) (Py.lower addr) h
               (AuthRouter.reg_full_name user_data) true false None = Py.Ret u0
          /\ JwtAuth.create_access_token JB cfg t_exp t_iat new_id (User.username u0)
             = Py.Ret (AuthRouter.access_token response)
          /\ AuthRouter.token_type response = "bearer"
          /\ user_response (User.with_last_login (User.with_id u0 new_id) now)
             = Py.Ret (AuthRouter.user response)
          /\ Db.users (db r.2)
             = replace_row new_id (User.with_last_login (User.with_id u0 new_id) now)
                 (Db.users (db w) ++ [User.to_row new_id u0])%list
          /\ In {| Db.user_id := new_id; Db.username := User.username u0;
                   Db.email := User.email u0; Db.password_hash := h;
                   Db.full_name := AuthRouter.reg_full_name user_data;
                   Db.is_active := true; Db.is_admin := false;
                   Db.last_login := Some now |} (Db.users (db r.2))).
Proof.
  intros r name addr password name_taken addr_taken.
  assert (Hr : r = AuthRouter.register_outcome JB cfg EmailStr BC user_response no_id_token new_id salt t_exp t_iat now user_data w)
    by apply register_user_eq.
  clearbody r. subst r name addr password name_taken addr_taken.
  unfold AuthRouter.register_outcome, User.create_user_outcome.
  destruct (User.first_match EmailStr (User.has_username _) (db w)) as [u1|].
  { cbn. split; [intros e [= <-]; eauto 6|]. split; [intros _; split; reflexivity|].
    split; [discriminate|]. split; [discriminate|]. discriminate. }
  destruct (User.first_match EmailStr (User.has_email _) (db w)) as [u2|].
  { cbn. split; [intros e [= <-]; eauto 6|].
    split; [intros H; destruct (is_Some_None H)|].
    split; [intros _ _; split; reflexivity|].
    split; [discriminate|]. discriminate. }
  destruct (User.hash_password BC salt (AuthRouter.reg_password user_data))
    as [h|e0] eqn:Hh.
  2:{ assert (Hst : exists status detail,
                (if Py.is_InvalidInputError e0
                 then raiseM (Py.HTTPException 400 (Notebooks.str_of_exn e0))
                 else raiseM (Py.HTTPException 500 "Registration failed"))
                  (logged (User.email_query (AuthRouter.reg_email user_data))
                     (logged (User.username_query (AuthRouter.reg_username user_data)) w))
                = (Py.Raise (A := AuthRouter.TokenResponse UserResponse)
                     (Py.HTTPException status detail),
                   logged (User.email_query (AuthRouter.reg_email user_data))
                     (logged (User.username_query (AuthRouter.reg_username user_data)) w))
                /\ (status = 400 \/ status = 500)).
      { destruct (Py.is_InvalidInputError e0); eexists _, _; split; eauto. }
      destruct Hst as (st & d & Hst & Hcode).
      split; [|split; [intros H; destruct (is_Some_None H)|split; [intros _ H; destruct (is_Some_None H)|split]]].
      - cbv zeta. rewrite Hst. intros e [= <-]. eauto.
      - intros _ _ Hlen. rewrite hash_password_short in Hh by exact Hlen.
        injection Hh as <-. cbn. auto.
      - cbv zeta. rewrite Hst. discriminate. }
  apply hash_password_ret in Hh as [Hlen Hh].
  destruct (User.make EmailStr None _ _ h (AuthRouter.reg_full_name user_data)
              true false None) as [u0|e0] eqn:Hm.
  2:{ split; [|split; [intros H; destruct (is_Some_None H)|split; [intros _ H; destruct (is_Some_None H)|split]]].
      - cbv zeta. destruct (Py.is_InvalidInputError e0); cbn; intros e [= <-]; eauto 6.
      - intros _ _ Hshort. lia.
      - cbv zeta. destruct (Py.is_InvalidInputError e0); cbn; discriminate. }
  cbv zeta.
  rewrite (issue_eq JB cfg user_response no_id_token new_id t_exp t_iat now
             (User.with_id u0 new_id) new_id) by reflexivity.
  cbn [User.with_id User.username].
  apply make_ret in Hm as Hm'.
  destruct Hm' as (_ & Hph & Hfn & Hact & Hadm & _).
  destruct (JwtAuth.create_access_token JB cfg t_exp t_iat new_id (User.username u0))
    as [token|e0] eqn:Htok.
  2:{ split; [|split; [intros H; destruct (is_Some_None H)|split; [intros _ H; destruct (is_Some_None H)|split]]].
      - destruct (Py.is_InvalidInputError e0); cbn; intros e [= <-]; eauto 6.
      - intros _ _ Hshort. lia.
      - destruct (Py.is_InvalidInputError e0); cbn; discriminate. }
  cbv zeta.
  destruct (user_response _) as [resp|e0] eqn:Hresp.
  2:{ split; [|split; [intros H; destruct (is_Some_None H)|split; [intros _ H; destruct (is_Some_None H)|split]]].
      - destruct (Py.is_InvalidInputError e0); cbn; intros e [= <-]; eauto 6.
      - intros _ _ Hshort. lia.
      - destruct (Py.is_InvalidInputError e0); cbn; discriminate. }
  cbn [fst snd db sent Db.users Db.with_users logged].
  split; [discriminate|]. split; [intros H; destruct (is_Some_None H)|]. split; [intros _ H; destruct (is_Some_None H)|].
  split; [intros _ _ Hshort; lia|].
  intros response [= <-]. exists u0, h.
  cbn [AuthRouter.access_token AuthRouter.token_type AuthRouter.user].
  split; [reflexivity|]. split; [reflexivity|]. split; [exact Hh|].
  split; [exact Hm|]. split; [exact Htok|]. split; [reflexivity|].
  split; [exact Hresp|]. split; [reflexivity|].
  unfold replace_row. apply List.in_map_iff. exists (User.to_row new_id u0).
  split; [|apply List.in_or_app; right; left; reflexivity].
  cbn [User.to_row Db.user_id]. rewrite String.eqb_refl.
  unfold User.to_row, User.with_last_login, User.with_id.
  cbn [User.username User.email User.password_hash User.full_name User.is_active
       User.is_admin User.last_login].
  rewrite Hph, Hfn, Hact, Hadm. reflexivity.
Qed.

(** X16: [register_user]. Whatever it raises is an [HTTPException] with
    status 400 or 500. A username or an email that a stored user has, in
    any letter case, and a password of fewer than 6 characters are each
    answered 400 with the message of the model, and nothing is stored. A
    response is returned only when [create_user] has stored a row: that
    row is active, is not an administrator, holds the bcrypt hash of the
    password and the time of the registration as last login, and the
    token is the one [create_access_token] makes for the new id. *)
Theorem register_outcomes (new_id salt : string) (t_exp t_iat now : Z)
    (user_data : AuthRouter.UserRegister) (w : World) :
  let r := AuthRouter.register_user JB cfg EmailStr BC other user_response no_id_token
             new_id salt t_exp t_iat now user_data w in
  let name := AuthRouter.reg_username user_data in
  let addr := AuthRouter.reg_email user_data in
  let password := AuthRouter.reg_password user_data in
  let name_taken := User.first_match EmailStr (User.has_username (Py.lower name)) (db w) in
  let addr_taken := User.first_match EmailStr (User.has_email (Py.lower addr)) (db w) in
  (forall e, r.1 = Py.Raise e ->
             exists status detail,
               e = Py.HTTPException status detail /\ (status = 400 \/ status = 500))
  /\ (is_Some name_taken ->
      r.1 = Py.Raise (Py.HTTPException 400 ("Username '" ++ name ++ "' already exists"))
      /\ db r.2 = db w)
  /\ (name_taken = None -> is_Some addr_taken ->
      r.1 = Py.Raise (Py.HTTPException 400 ("Email '" ++ addr ++ "' already exists"))
      /\ db r.2 = db w)
  /\ (name_taken = None -> addr_taken = None -> Py.len password < 6 ->
      r.1 = Py.Raise (Py.HTTPException 400 "Password must be at least 6 characters")
      /\ db r.2 = db w)
  /\ (forall response, r.1 = Py.Ret response ->
        exists u0 h,
          name_taken = None /\ addr_taken = None
          /\ Bcrypt.hashpw BC (encode_utf8 password) salt = Py.Ret h
          /\ User.make EmailStr None (Py.lower name) (Py.lower addr) h
               (AuthRouter.reg_full_name user_data) true false None = Py.Ret u0
          /\ JwtAuth.create_access_token JB cfg t_exp t_iat new_id (User.username u0)
             = Py.Ret (AuthRouter.access_token response)
          /\ AuthRouter.token_type response = "bearer"
          /\ user_response (User.with_last_login (User.with_id u0 new_id) now)
             = Py.Ret (AuthRouter.user response)
          /\ Db.users (db r.2)
             = replace_row new_id (User.with_last_login (User.with_id u0 new_id) now)
                 (Db.users (db w) ++ [User.to_row new_id u0])%list
          /\ In {| Db.user_id := new_id; Db.username := User.username u0;
                   Db.email := User.email u0; Db.password_hash := h;
                   Db.full_name := AuthRouter.reg_full_name user_data;
                   Db.is_active := true; Db.is_admin := false;
                   Db.last_login := Some now |} (Db.users (db r.2))).
Proof. apply register_cases. Qed.

End Register.

Section RegisterThenRequest.
Context (JB : Jose.Backend) (cfg : JwtAuth.Config).
Context (EmailStr : string -> option string).
Context (BC : Bcrypt.Backend).
Context (other : Repo.Other).
Context {UserResponse : Type} (user_response : User.t -> Py.res UserResponse).
Context (no_id_token : string -> Py.res string).
Context (self : Auth.Middleware).
Hypothesis Jsound : Jose.sound JB.
Hypothesis Estable : email_stable EmailStr.

(** X17: the token of a successful registration is accepted by the
    middleware. A request to a checked path that carries it as bearer
    credential, at any time up to the expiry of the token, is passed on
    with the new user: it has the new id and the given username in
    lowercase, and it is not an administrator. *)
Theorem register_token_accepted (new_id salt : string) (t_exp t_iat now later : Z)
    (user_data : AuthRouter.UserRegister) (w : World)
    (response : AuthRouter.TokenResponse UserResponse) (request : Auth.Request) :
  let r := AuthRouter.register_user JB cfg EmailStr BC other user_response no_id_token
             new_id salt t_exp t_iat now user_data w in
  r.1 = Py.Ret response ->
  new_id <> "" ->
  Auth.path request ∉ Auth.excluded_paths self ->
  Auth.method request <> "OPTIONS" ->
  Auth.authorization request = Some ("Bearer " ++ AuthRouter.access_token response) ->
  Py.timegm later <= Py.timegm t_exp + 3600 * JwtAuth.JWT_EXPIRATION_HOURS cfg ->
  exists u,
    Auth.dispatch JB cfg EmailStr self later request r.2
    = (Py.Ret (Auth.Forwarded (Auth.WithUser u)), r.2)
    /\ User.id u = Some new_id
    /\ User.username u = Py.lower (AuthRouter.reg_username user_data)
    /\ User.is_admin u = false
    /\ user_response u = Py.Ret (AuthRouter.user response).
Proof.
  intros r Hret Hnew Hpath Hmeth Hauth Hlater.
  destruct (register_cases JB cfg EmailStr BC other user_response no_id_token
              new_id salt t_exp t_iat now user_data w) as (_ & _ & _ & _ & Hok).
  destruct (Hok response Hret)
    as (u0 & h & _ & _ & _ & Hm & Htok & _ & Hresp & Husers & _).
  fold r in Husers.
  apply make_ret in Hm as Hm'.
  destruct Hm' as (_ & _ & _ & Hact & Hadm & _ & Hn & _).
  apply username_accepted_spec in Hn as (_ & _ & _ & Hn). rewrite lower_idem in Hn.
  exists (User.with_last_login (User.with_id u0 new_id) now).
  split; [|split; [reflexivity|split; [exact Hn|split; [exact Hadm|exact Hresp]]]].
  apply (token_accepted JB cfg EmailStr self Jsound t_exp t_iat later
           (User.with_last_login (User.with_id u0 new_id) now) new_id
           (AuthRouter.access_token response) (User.username u0) request r.2 Htok Hlater
           Hnew).
  - reflexivity.
  - exact Hact.
  - rewrite Husers. apply find_replace_row_some.
    exists (User.to_row new_id u0). split; [|reflexivity].
    apply List.in_or_app. right. left. reflexivity.
  - eapply (to_row_valid EmailStr Estable); [exact Hm|reflexivity|reflexivity].
  - exact Hpath.
  - exact Hmeth.
  - exact Hauth.
Qed.

End RegisterThenRequest.

Lemma register_token_accepted_witness :
  exists u,
    Auth.dispatch Reference.jose Reference.jwt_config Reference.email_str
      (Reference.gate_with "secret") 1000000
      (Reference.get_notebooks_request (Reference.token_of "user:2" "newuser"))
      (AuthRouter.register_user Reference.jose Reference.jwt_config Reference.email_str
         Reference.bcrypt Reference.no_other (fun u => Py.Ret (User.username u))
         (fun _ => Py.Raise (Py.TypeError "no id")) "user:2" Reference.salt 0 0 5
         {| AuthRouter.reg_username := "NewUser";
            AuthRouter.reg_email := "New@Example.com";
            AuthRouter.reg_password := "password123";
            AuthRouter.reg_full_name := None |} Reference.world1).2
    = (Py.Ret (Auth.Forwarded (Auth.WithUser u)),
       (AuthRouter.register_user Reference.jose Reference.jwt_config Reference.email_str
          Reference.bcrypt Reference.no_other (fun u => Py.Ret (User.username u))
          (fun _ => Py.Raise (Py.TypeError "no id")) "user:2" Reference.salt 0 0 5
          {| AuthRouter.reg_username := "NewUser";
             AuthRouter.reg_email := "New@Example.com";
             AuthRouter.reg_password := "password123";
             AuthRouter.reg_full_name := None |} Reference.world1).2)
    /\ User.id u = Some "user:2"
    /\ User.username u = Py.lower "NewUser"
    /\ User.is_admin u = false
    /\ Py.Ret (User.username u) = Py.Ret "newuser".
Proof.
  apply (register_token_accepted Reference.jose Reference.jwt_config Reference.email_str
           Reference.bcrypt Reference.no_other (fun u => Py.Ret (User.username u))
           (fun _ => Py.Raise (Py.TypeError "no id")) (Reference.gate_with "secret")
           reference_jose_sound reference_email_stable "user:2" Reference.salt
           0 0 5 1000000
           {| AuthRouter.reg_username := "NewUser";
              AuthRouter.reg_email := "New@Example.com";
              AuthRouter.reg_password := "password123";
              AuthRouter.reg_full_name := None |} Reference.world1
           {| AuthRouter.access_token := Reference.token_of "user:2" "newuser";
              AuthRouter.token_type := "bearer"; AuthRouter.user := "newuser" |}
           (Reference.get_notebooks_request (Reference.token_of "user:2" "newuser"))).
  - vm_compute. reflexivity.
  - discriminate.
  - apply (bool_decide_unpack _). vm_compute. exact I.
  - discriminate.
  - reflexivity.
  - vm_compute. discriminate.
Defined.

(** ** More on the notebook endpoints *)

Lemma try_reraise_or_500 {A : Type} (m : M A) (prefix : string) (w : World) (e : Py.exn) :
  (tryM m (Notebooks.reraise_or_500 prefix) w).1 = Py.Raise e ->
  exists status detail, e = Py.HTTPException status detail.
Proof.
  unfold tryM. destruct (m w) as [[a|e0] w']; [discriminate|].
  unfold Notebooks.reraise_or_500, raiseM.
  destruct e0; cbn; intros [= <-]; eauto.
Qed.

Lemma try_reraise_or_400_500 {A : Type} (m : M A) (prefix : string) (w : World)
    (e : Py.exn) :
  (tryM m (Notebooks.reraise_or_400_500 prefix) w).1 = Py.Raise e ->
  exists status detail, e = Py.HTTPException status detail.
Proof.
  unfold tryM. destruct (m w) as [[a|e0] w']; [discriminate|].
  unfold Notebooks.reraise_or_400_500, raiseM.
  destruct e0; cbn; intros [= <-]; eauto.
Qed.

(** X18: no exception other than [HTTPException] leaves a notebook
    endpoint, whatever the database answers; the listing fails with status
    500 only, and creation with 400 or 500 only. *)
Theorem notebook_endpoints_raise_http (other : Repo.Other) (new_id now : string)
    (st : Auth.State) (nid sid : string) (upd : Notebooks.NotebookUpdate)
    (create : Notebooks.NotebookCreate) (archived : option bool)
    (order_by : string) (w : World) (e : Py.exn) :
  ((Notebooks.get_notebooks other st archived order_by w).1 = Py.Raise e ->
   exists detail, e = Py.HTTPException 500 detail)
  /\ ((Notebooks.create_notebook new_id now st create w).1 = Py.Raise e ->
      exists status detail,
        e = Py.HTTPException status detail /\ (status = 400 \/ status = 500))
  /\ ((Notebooks.get_notebook other st nid w).1 = Py.Raise e
      \/ (Notebooks.update_notebook other new_id now st nid upd w).1 = Py.Raise e
      \/ (Notebooks.add_source_to_notebook other st nid sid w).1 = Py.Raise e
      \/ (Notebooks.remove_source_from_notebook other st nid sid w).1 = Py.Raise e
      \/ (Notebooks.delete_notebook st nid w).1 = Py.Raise e ->
      exists status detail, e = Py.HTTPException status detail).
Proof.
  split; [|split].
  - unfold Notebooks.get_notebooks, tryM.
    match goal with |- context [let (_, _) := ?m w in _] =>
      destruct (m w) as [[a|e0] w'] end; [discriminate|].
    cbn. intros [= <-]. eauto.
  - unfold Notebooks.create_notebook, tryM.
    match goal with |- context [let (_, _) := ?m w in _] =>
      destruct (m w) as [[a|e0] w'] end; [discriminate|].
    destruct (Py.is_InvalidInputError e0); cbn; intros [= <-]; eauto 6.
  - intros [H|[H|[H|[H|H]]]].
    + eapply try_reraise_or_500. exact H.
    + eapply try_reraise_or_400_500. exact H.
    + eapply try_reraise_or_500. exact H.
    + eapply try_reraise_or_500. exact H.
    + eapply try_reraise_or_500. exact H.
Qed.

(** X19: the listing with the [archived] filter returns only notebooks
    whose flag is the one asked for, whatever rows the database answers. *)
Theorem get_notebooks_archived (other : Repo.Other) (st : Auth.State) (a : bool)
    (order_by : string) (w : World) (ns : list Notebooks.NotebookResponse) :
  (Notebooks.get_notebooks other st (Some a) order_by w).1
  = Py.Ret (Notebooks.ManyNotebooks ns) ->
  Forall (fun n => Notebooks.archived n = a) ns.
Proof.
  unfold Notebooks.get_notebooks, tryM, bindM.
  match goal with |- context [match ?q w with _ => _ end] =>
    destruct (q w) as [[rows|e0] w'] end; [|discriminate].
  unfold retM. cbn [fst]. intros [= <-].
  apply List.Forall_forall. intros n Hn.
  apply List.in_map_iff in Hn as (row & <- & Hrow).
  apply List.filter_In in Hrow as [_ Hrow].
  apply bool_decide_eq_true in Hrow.
  destruct row; cbn in Hrow; try discriminate.
  injection Hrow as <-. reflexivity.
Qed.

Lemma get_notebooks_archived_witness :
  Forall (fun n => Notebooks.archived n = false)
    [Notebooks.response_of_row (Db.RNotebook "notebook:1" Reference.shared_notebook 0 0)].
Proof.
  apply (get_notebooks_archived
           (fun q d =>
              (Py.Ret [Db.RNotebook "notebook:1" Reference.shared_notebook 0 0;
                       Db.RUser Reference.stored_user], d))
           Reference.as_user1 false "updated desc" Reference.world3).
  vm_compute. reflexivity.
Defined.

(** ** Linking, unlinking and creating *)

Lemma filter_app_last_out {A : Type} (p : A -> bool) (l : list A) (x : A) :
  p x = false -> List.filter p (l ++ [x])%list = List.filter p l.
Proof.
  intros H. rewrite List.filter_app. cbn. rewrite H. apply app_nil_r.
Qed.

Lemma filter_all {A : Type} (p : A -> bool) (l : list A) :
  (forall x, In x l -> p x = true) -> List.filter p l = l.
Proof.
  induction l as [|a l IH]; cbn; intros H; [reflexivity|].
  rewrite (H a) by (left; reflexivity). rewrite IH; [reflexivity|].
  intros x Hx. apply H. right. exact Hx.
Qed.

(** X20: unlinking after linking. When the link succeeds, the unlink by
    the same caller succeeds too, and it leaves the edges that were there
    before the link, less every edge from that source to that notebook;
    so the edge made by the link is gone, and when there was no such edge
    before, the edges are as they were. Notebooks and sources are as
    before. *)
Theorem link_then_unlink (other : Repo.Other) (st : Auth.State) (nid sid : string)
    (w : World) :
  let r1 := Notebooks.add_source_to_notebook other st nid sid w in
  let r2 := Notebooks.remove_source_from_notebook other st nid sid r1.2 in
  r1.1 = Py.Ret (Notebooks.Message "Source linked to notebook successfully") ->
  r2.1 = Py.Ret (Notebooks.Message "Source removed from notebook successfully")
  /\ Db.reference (db r2.2)
     = List.filter (fun e => negb (Repo.edge_matches nid sid e)) (Db.reference (db w))
  /\ (forall e, In e (Db.reference (db r2.2))
                <-> In e (Db.reference (db w))
                    /\ ~ (Db.edge_in e = sid /\ Db.edge_out e = nid))
  /\ ((forall e, In e (Db.reference (db w)) ->
                 ~ (Db.edge_in e = sid /\ Db.edge_out e = nid)) ->
      Db.reference (db r2.2) = Db.reference (db w))
  /\ Db.notebooks (db r2.2) = Db.notebooks (db w)
  /\ Db.sources (db r2.2) = Db.sources (db w).
Proof.
  intros r1 r2 Hlink. subst r2.
  assert (Hm : forall e, Repo.edge_matches nid sid e = true
                         <-> Db.edge_in e = sid /\ Db.edge_out e = nid).
  { intros e. unfold Repo.edge_matches. rewrite andb_true_iff, !String.eqb_eq. tauto. }
  assert (Hnew : negb (Repo.edge_matches nid sid
                         {| Db.edge_in := sid; Db.edge_out := nid |}) = false).
  { apply negb_false_iff. apply Hm. split; reflexivity. }
  assert (Hr1 : Db.notebooks (db r1.2) = Db.notebooks (db w)
                /\ Db.sources (db r1.2) = Db.sources (db w)
                /\ (exists n, Db.notebooks (db w) !! nid = Some n
                              /\ Notebooks.denied (Auth.state_user_id st) (Db.nb_user n)
                                 = false)
                /\ List.filter (fun e => negb (Repo.edge_matches nid sid e))
                     (Db.reference (db r1.2))
                   = List.filter (fun e => negb (Repo.edge_matches nid sid e))
                       (Db.reference (db w))).
  { subst r1. rewrite add_source_eq in *.
    destruct (Db.notebooks (db w) !! nid) as [n|] eqn:Hn; [|discriminate].
    destruct (Notebooks.denied _ (Db.nb_user n)) eqn:Hd; [discriminate|].
    destruct (Db.sources (db w) !! sid) as [s|]; [|discriminate].
    destruct (Notebooks.denied _ (Db.src_user s)); [discriminate|].
    destruct (List.filter (Repo.edge_matches sid nid) _);
      cbn [fst snd db logged Db.notebooks Db.sources Db.reference Db.with_reference].
    - split; [reflexivity|]. split; [reflexivity|]. split; [eauto|].
      apply filter_app_last_out. exact Hnew.
    - split; [reflexivity|]. split; [reflexivity|]. split; [eauto|]. reflexivity. }
  destruct Hr1 as (Hnb & Hsrc & (n & Hn & Hd) & Hfilter).
  rewrite remove_source_eq. rewrite Hnb, Hn, Hd.
  cbn [fst snd db Db.notebooks Db.sources Db.reference Db.with_reference].
  rewrite Hfilter.
  split; [reflexivity|]. split; [reflexivity|]. split; [|split; [|auto]].
  - intros e. rewrite List.filter_In, negb_true_iff, <- Hm.
    destruct (Repo.edge_matches nid sid e); split; intros [H1 H2]; split; auto;
      congruence.
  - intros Hnone. apply filter_all. intros e He. apply negb_true_iff.
    destruct (Repo.edge_matches nid sid e) eqn:Hq; [|reflexivity].
    exfalso. apply (Hnone e He). apply Hm. exact Hq.
Qed.

Lemma link_then_unlink_witness :
  Db.reference
    (db (Notebooks.remove_source_from_notebook Reference.no_other Reference.as_user1
           "notebook:1" "source:1"
           (Notebooks.add_source_to_notebook Reference.no_other Reference.as_user1
              "notebook:1" "source:1" Reference.world3).2).2)
  = Db.reference (db Reference.world3).
Proof.
  destruct (link_then_unlink Reference.no_other Reference.as_user1
              "notebook:1" "source:1" Reference.world3) as (_ & _ & _ & H & _).
  - vm_compute. reflexivity.
  - apply H. intros e [].
Defined.

(** X21: a notebook that has just been created. The response carries
    the new id, the given name and description, no counts and the flag
    unset; the stored notebook belongs to the caller. Read back, it is
    refused with 403 to a caller with another user id when the creator
    had one, and returned with the same name and description to every
    other caller, among them the creator. *)
Theorem created_notebook_access (other : Repo.Other) (new_id now : string)
    (st st' : Auth.State) (create : Notebooks.NotebookCreate) (w : World) :
  let r := Notebooks.create_notebook new_id now st create w in
  let g := Notebooks.get_notebook other st' new_id r.2 in
  r.1 = Py.Ret (Notebooks.OneNotebook
                  {| Notebooks.id := new_id;
                     Notebooks.name := Notebooks.new_name create;
                     Notebooks.description := Notebooks.new_description create;
                     Notebooks.archived := false;
                     Notebooks.created := now; Notebooks.updated := now;
                     Notebooks.source_count := 0; Notebooks.note_count := 0 |})
  /\ option_map Db.nb_user (Db.notebooks (db r.2) !! new_id)
     = Some (Auth.state_user_id st)
  /\ (forall other_id, other_id <> new_id ->
        Db.notebooks (db r.2) !! other_id = Db.notebooks (db w) !! other_id)
  /\ (Notebooks.denied (Auth.state_user_id st') (Auth.state_user_id st) = true ->
      g.1 = Py.Raise (Py.HTTPException 403 "Access denied"))
  /\ (Notebooks.denied (Auth.state_user_id st') (Auth.state_user_id st) = false ->
      exists body,
        g.1 = Py.Ret (Notebooks.OneNotebook body)
        /\ Notebooks.id body = new_id
        /\ Notebooks.name body = Notebooks.new_name create
        /\ Notebooks.description body = Notebooks.new_description create
        /\ Notebooks.archived body = false)
  /\ Notebooks.denied (Auth.state_user_id st) (Auth.state_user_id st) = false.
Proof.
  intros r g. subst g.
  assert (Hr : r = (Py.Ret (Notebooks.OneNotebook
                     {| Notebooks.id := new_id;
                        Notebooks.name := Notebooks.new_name create;
                        Notebooks.description := Notebooks.new_description create;
                        Notebooks.archived := false;
                        Notebooks.created := now; Notebooks.updated := now;
                        Notebooks.source_count := 0; Notebooks.note_count := 0 |}),
                    {| db := Db.with_notebooks (db w)
                               (<[new_id :=
                                    {| Db.nb_name := Notebooks.new_name create;
                                       Db.nb_description := Notebooks.new_description create;
                                       Db.nb_archived := false;
                                       Db.nb_user := Auth.state_user_id st;
                                       Db.nb_created := now; Db.nb_updated := now |}]>
                                  (Db.notebooks (db w)));
                       sent := sent w |})) by reflexivity.
  clearbody r. subst r. cbn [fst snd].
  rewrite get_notebook_eq. cbn [fst snd db Db.notebooks Db.with_notebooks].
  rewrite lookup_insert_eq. cbn [option_map Db.nb_user].
  split; [reflexivity|]. split; [reflexivity|].
  split; [intros other_id Hne; apply lookup_insert_ne; congruence|].
  split; [intros ->; reflexivity|].
  split.
  - intros ->. eexists. split; [reflexivity|]. cbn. auto.
  - unfold Notebooks.denied. rewrite bool_decide_eq_true_2 by reflexivity.
    cbn [negb]. apply andb_false_r.
Qed.

(** ** An expired token at the middleware *)

(** X22: a token that has expired is treated as no token at all. A
    request to a checked path that carries it is passed on, with an empty
    user context, only when the token text is the configured password,
    and is answered 401 otherwise; no user is looked up. *)
Theorem expired_token_rejected (JB : Jose.Backend) (cfg : JwtAuth.Config)
    (EmailStr : string -> option string) (self : Auth.Middleware)
    (t_exp t_iat later : Z) (rid name token : string) (request : Auth.Request)
    (w : World) :
  Jose.sound JB ->
  JwtAuth.create_access_token JB cfg t_exp t_iat rid name = Py.Ret token ->
  Py.timegm t_exp + 3600 * JwtAuth.JWT_EXPIRATION_HOURS cfg < Py.timegm later ->
  Auth.path request ∉ Auth.excluded_paths self ->
  Auth.method request <> "OPTIONS" ->
  Auth.authorization request = Some ("Bearer " ++ token) ->
  Auth.dispatch JB cfg EmailStr self later request w
  = (Py.Ret (if Auth.password_accepts self token
             then Auth.Forwarded Auth.NoUser
             else Auth.JSONResponse 401 "Invalid credentials"), w).
Proof.
  intros Jsound Htok Hlate Hpath Hmeth Hauth.
  rewrite (dispatch_authenticated JB cfg EmailStr self later request w
             ("Bearer " ++ token) token Hpath Hmeth Hauth (bearer_header token)).
  destruct (token_window JB cfg Jsound t_exp t_iat later rid name token Htok)
    as [_ Hexpired].
  destruct (Hexpired Hlate) as (_ & -> & _).
  destruct (Auth.password_accepts self token); reflexivity.
Qed.

Lemma expired_token_rejected_witness :
  Auth.dispatch Reference.jose Reference.jwt_config Reference.email_str
    (Reference.gate_with "secret") 700000000000
    (Reference.get_notebooks_request (Reference.token_of "user:1" "testuser3"))
    Reference.world1
  = (Py.Ret (if Auth.password_accepts (Reference.gate_with "secret")
                  (Reference.token_of "user:1" "testuser3")
             then Auth.Forwarded Auth.NoUser
             else Auth.JSONResponse 401 "Invalid credentials"), Reference.world1).
Proof.
  apply (expired_token_rejected Reference.jose Reference.jwt_config Reference.email_str
           (Reference.gate_with "secret") 0 0 700000000000 "user:1" "testuser3"
           (Reference.token_of "user:1" "testuser3")
           (Reference.get_notebooks_request (Reference.token_of "user:1" "testuser3"))
           Reference.world1 reference_jose_sound (issued_token "user:1" "testuser3")).
  - vm_compute. reflexivity.
  - apply (bool_decide_unpack _). vm_compute. exact I.
  - discriminate.
  - reflexivity.
Defined.
